(** * perplexity-cli: a model of [perplexity_improved.py]

    The program is a terminal client: it resolves an API key, posts one
    chat-completion request and prints the reply.  Everything it does is an
    effect on its surroundings (environment, settings file, terminal,
    network), so the model is a state-and-exception monad over an explicit
    [World], and each Python function is transcribed statement by
    statement into that monad.

    Left out: the parsing of the command line ([main] starts from the
    parsed arguments), debug logging, and the [KeyboardInterrupt] handler.
    Text is over the code points below 256; the [str()] conversions of
    interpolated values stay symbolic.  The file system answers as the
    [World] says: each call on the settings path ([exists], [mkdir],
    [open], [json.dump], [chmod], [unlink]) succeeds or raises. *)

From Stdlib Require Import String Ascii List ZArith Bool Arith Lia.
Import ListNotations.
Local Open Scope string_scope.
Local Open Scope list_scope.

Set Warnings "-register-all".

(** ** Python values *)

(** The values that [json.load] and [response.json()] can produce.  A
    [dict] keeps its insertion order (iteration over [items()] is
    observable in the output), hence the association list.  A [float] is
    kept as its IEEE 754 binary64 bit pattern: the program never computes
    with one, it only tests and prints it. *)
Inductive pyval : Type :=
| VNone
| VBool (b : bool)
| VInt (z : Z)
| VFloat (bits : Z)
| VStr (s : string)
| VList (l : list pyval)
| VDict (d : list (string * pyval)).

(** [d.get(k)] on the entries of a dict. *)
Fixpoint dict_lookup (k : string) (d : list (string * pyval)) : option pyval :=
  match d with
  | [] => None
  | (k', v) :: d' => if String.eqb k k' then Some v else dict_lookup k d'
  end.

(** [d[k] = v]: an existing key keeps its position, a new key goes last. *)
Fixpoint dict_store (k : string) (v : pyval) (d : list (string * pyval))
  : list (string * pyval) :=
  match d with
  | [] => [(k, v)]
  | (k', v') :: d' =>
      if String.eqb k k' then (k', v) :: d' else (k', v') :: dict_store k v d'
  end.

Definition dict_keys (d : list (string * pyval)) : list string := map fst d.

(** Truth value of a Python object, as tested by [if x:]. *)
Definition truthy (v : pyval) : bool :=
  match v with
  | VNone => false
  | VBool b => b
  | VInt z => negb (Z.eqb z 0)
  | VFloat bits =>
      (* 0.0 and -0.0 are false, every other float (nan included) is true *)
      negb (Z.eqb bits 0 || Z.eqb bits (2 ^ 63))
  | VStr s => negb (String.eqb s "")
  | VList l => match l with [] => false | _ => true end
  | VDict d => match d with [] => false | _ => true end
  end.

Definition is_none (v : pyval) : bool :=
  match v with VNone => true | _ => false end.

Definition is_VStr (s : string) (v : pyval) : bool :=
  match v with VStr s' => String.eqb s s' | _ => false end.

(** ** Strings: [str.strip] and [str.lower] *)

(** A character is a code point below 256; text with other code points is
    outside the model.  On these, [str.strip] removes the characters for
    which [str.isspace] holds: U+0009 to U+000D, U+001C to U+0020, U+0085
    and U+00A0. *)
Definition is_space (c : ascii) : bool :=
  let n := nat_of_ascii c in
  ((9 <=? n) && (n <=? 13) || (28 <=? n) && (n <=? 32) ||
   (n =? 133) || (n =? 160))%nat.

Fixpoint lstrip (s : string) : string :=
  match s with
  | EmptyString => EmptyString
  | String c s' => if is_space c then lstrip s' else s
  end.

Fixpoint rstrip (s : string) : string :=
  match s with
  | EmptyString => EmptyString
  | String c s' =>
      match rstrip s' with
      | EmptyString => if is_space c then EmptyString else String c EmptyString
      | r => String c r
      end
  end.

Definition strip (s : string) : string := rstrip (lstrip s).

(** [str.lower] on one code point below 256: the letters A to Z, and
    U+00C0 to U+00DE but for the multiplication sign U+00D7. *)
Definition lower_ascii (c : ascii) : ascii :=
  let n := nat_of_ascii c in
  if ((65 <=? n) && (n <=? 90) ||
      (192 <=? n) && (n <=? 222) && negb (n =? 215))%nat
  then ascii_of_nat (n + 32) else c.

Fixpoint lower (s : string) : string :=
  match s with
  | EmptyString => EmptyString
  | String c s' => String (lower_ascii c) (lower s')
  end.

(** [needle in hay] for two strings. *)
Definition str_contains (needle hay : string) : bool :=
  match String.index 0 needle hay with Some _ => true | None => false end.

(** ** Exceptions and formatted text *)

(** The exceptions the program can meet.  All of them derive from
    [Exception]; [SystemExit] is not one of them, it is a separate outcome
    of a computation (see [outcome]). *)
Inductive exn : Type :=
| InvalidSelectedModelException (msg : string)
| KeyError (key : pyval)
| TypeError
| AttributeError
| IndexError
| JSONDecodeError (msg : string)
| OSError (msg : string)
| EOFError
| RecursionError
| RequestException (msg : string).

(** An f-string is kept as the sequence of its pieces: literal text, and
    the [str()] of an interpolated value or exception.  The conversions are
    the interpreter's, the model does not spell them out. *)
Inductive frag : Type :=
| Lit (s : string)
| Str (v : pyval)
| StrExn (e : exn).

Definition fstring := list frag.

(** What reaches the terminal: a [print]ed line, or the prompt of an
    [input] call (written without a newline). *)
Inductive out : Type :=
| Line (t : fstring)
| Prompt (s : string).

(** ** The world *)

(** State of the settings file [~/.config/perplexity-cli/config.json]. *)
Inductive file_state : Type :=
| Absent
| Unreadable (err : string)   (* exists; [open(.., 'r')] raises [OSError err] *)
| Malformed (err : string)    (* opens; [json.load] raises [JSONDecodeError err] *)
| Document (j : pyval).       (* [json.load] returns [j] *)

Record Request : Type := mkRequest {
  req_url : string;
  req_accept : string;
  req_content_type : string;
  req_authorization : fstring;
  req_model : option string;
  req_messages : list (string * string)   (* (role, content) *)
}.

(** A response: its status, its text, and what [response.json()] does:
    it returns a value, or raises with some text when the body is not
    JSON. *)
Record Response : Type := mkResponse {
  status_code : Z;
  text : string;
  json : pyval + string
}.

(** What the network does with a request: it answers, or the transport
    fails ([requests.exceptions.RequestException]). *)
Inductive Reply : Type :=
| Answer (r : Response)
| Failure (msg : string).

Record World : Type := mkWorld {
  environ : option string;          (* PERPLEXITY_API_KEY *)
  config_file : file_state;
  config_mode : Z;                  (* permission bits of the settings file,
                                       or of one created now *)
  mkdir_error : option string;      (* [CONFIG_DIR.mkdir] raises *)
  open_w_error : option string;     (* [open(CONFIG_FILE, 'w')] raises *)
  stdin : list string;              (* lines not yet read *)
  network : nat -> Request -> Reply;(* reply to the n-th request posted *)
  sent : list Request;              (* requests posted so far, oldest first *)
  stdout : list out;                (* oldest first *)
  error_log : list fstring;         (* [logger.error] records, oldest first *)
  exists_error : option string;     (* [CONFIG_FILE.exists()] raises: the
                                       directory cannot be searched *)
  dump_error : option (exn * file_state);
                                    (* [json.dump] raises once the file has
                                       been opened and truncated, and what
                                       the file is left as *)
  chmod_error : option string;      (* [CONFIG_FILE.chmod] raises *)
  unlink_error : option string;     (* [CONFIG_FILE.unlink] raises *)
  create_error : option string      (* what [open(CONFIG_FILE, 'w')] does
                                       once the file has been removed *)
}.

Definition set_config_file (f : file_state) (w : World) : World :=
  mkWorld (environ w) f (config_mode w) (mkdir_error w) (open_w_error w)
          (stdin w) (network w) (sent w) (stdout w) (error_log w)
          (exists_error w) (dump_error w) (chmod_error w) (unlink_error w)
          (create_error w).

Definition set_config_mode (m : Z) (w : World) : World :=
  mkWorld (environ w) (config_file w) m (mkdir_error w) (open_w_error w)
          (stdin w) (network w) (sent w) (stdout w) (error_log w)
          (exists_error w) (dump_error w) (chmod_error w) (unlink_error w)
          (create_error w).

Definition set_stdin (l : list string) (w : World) : World :=
  mkWorld (environ w) (config_file w) (config_mode w) (mkdir_error w)
          (open_w_error w) l (network w) (sent w) (stdout w) (error_log w)
          (exists_error w) (dump_error w) (chmod_error w) (unlink_error w)
          (create_error w).

Definition set_sent (l : list Request) (w : World) : World :=
  mkWorld (environ w) (config_file w) (config_mode w) (mkdir_error w)
          (open_w_error w) (stdin w) (network w) l (stdout w) (error_log w)
          (exists_error w) (dump_error w) (chmod_error w) (unlink_error w)
          (create_error w).

Definition set_stdout (l : list out) (w : World) : World :=
  mkWorld (environ w) (config_file w) (config_mode w) (mkdir_error w)
          (open_w_error w) (stdin w) (network w) (sent w) l (error_log w)
          (exists_error w) (dump_error w) (chmod_error w) (unlink_error w)
          (create_error w).

Definition set_open_w_error (e : option string) (w : World) : World :=
  mkWorld (environ w) (config_file w) (config_mode w) (mkdir_error w) e
          (stdin w) (network w) (sent w) (stdout w) (error_log w)
          (exists_error w) (dump_error w) (chmod_error w) (unlink_error w)
          (create_error w).

Definition set_error_log (l : list fstring) (w : World) : World :=
  mkWorld (environ w) (config_file w) (config_mode w) (mkdir_error w)
          (open_w_error w) (stdin w) (network w) (sent w) (stdout w) l
          (exists_error w) (dump_error w) (chmod_error w) (unlink_error w)
          (create_error w).

(** ** The monad *)

(** A call returns a value, raises an exception, or leaves the process
    through [sys.exit]. *)
Inductive outcome (A : Type) : Type :=
| Return (a : A)
| Raise (e : exn)
| SysExit (code : Z).

Arguments Return {A} a.
Arguments Raise {A} e.
Arguments SysExit {A} code.

Definition M (A : Type) : Type := World -> outcome A * World.

Definition ret {A} (a : A) : M A := fun w => (Return a, w).

Definition bind {A B} (m : M A) (k : A -> M B) : M B :=
  fun w =>
    match m w with
    | (Return a, w') => k a w'
    | (Raise e, w') => (Raise e, w')
    | (SysExit c, w') => (SysExit c, w')
    end.

Definition raise {A} (e : exn) : M A := fun w => (Raise e, w).

Definition sys_exit {A} (code : Z) : M A := fun w => (SysExit code, w).

(** [try: m except ...: h e]; the handler answers [None] for an exception
    its [except] clause does not match, which then propagates. *)
Definition try_except {A} (m : M A) (h : exn -> option (M A)) : M A :=
  fun w =>
    match m w with
    | (Raise e, w') =>
        match h e with
        | Some k => k w'
        | None => (Raise e, w')
        end
    | r => r
    end.

(** [except Exception as e]. *)
Definition any_exception {A} (h : exn -> M A) : exn -> option (M A) :=
  fun e => Some (h e).

Declare Scope py_scope.
Delimit Scope py_scope with py.
Notation "x <- m ;; k" := (bind m (fun x => k))
  (at level 100, m at next level, right associativity) : py_scope.
Notation "m ;; k" := (bind m (fun _ => k))
  (at level 100, right associativity) : py_scope.
Local Open Scope py_scope.

(** ** Primitive effects *)

Definition print (t : fstring) : M unit :=
  fun w => (Return tt, set_stdout (stdout w ++ [Line t]) w).

Definition input (prompt : string) : M string :=
  fun w =>
    let w' := set_stdout (stdout w ++ [Prompt prompt]) w in
    match stdin w with
    | [] => (Raise EOFError, w')
    | l :: rest => (Return l, set_stdin rest w')
    end.

Definition logger_error (t : fstring) : M unit :=
  fun w => (Return tt, set_error_log (error_log w ++ [t]) w).

Definition environ_get : M (option string) :=
  fun w => (Return (environ w), w).

(** [CONFIG_FILE.exists()]: [Path.exists] answers, or lets through the
    [OSError] of a directory it may not search. *)
Definition config_file_exists : M bool :=
  fun w =>
    match exists_error w with
    | Some err => (Raise (OSError err), w)
    | None =>
        (Return (match config_file w with Absent => false | _ => true end), w)
    end.

(** [with open(CONFIG_FILE, 'r') as f: json.load(f)] *)
Definition read_config_file : M pyval :=
  fun w =>
    match config_file w with
    | Absent => (Raise (OSError "No such file or directory"), w)
    | Unreadable err => (Raise (OSError err), w)
    | Malformed err => (Raise (JSONDecodeError err), w)
    | Document j => (Return j, w)
    end.

(** [CONFIG_DIR.mkdir(parents=True, exist_ok=True)] *)
Definition config_dir_mkdir : M unit :=
  fun w =>
    match mkdir_error w with
    | Some err => (Raise (OSError err), w)
    | None => (Return tt, w)
    end.

(** [with open(CONFIG_FILE, 'w') as f: json.dump(config, f, indent=2)]:
    [open] raises and leaves the file alone, or it truncates the file;
    [json.dump] then writes the document, or raises and leaves the file
    damaged. *)
Definition write_config_file (config : pyval) : M unit :=
  fun w =>
    match open_w_error w with
    | Some err => (Raise (OSError err), w)
    | None =>
        match dump_error w with
        | Some (e, damaged) => (Raise e, set_config_file damaged w)
        | None => (Return tt, set_config_file (Document config) w)
        end
    end.

(** [CONFIG_FILE.chmod(mode)] *)
Definition config_file_chmod (mode : Z) : M unit :=
  fun w =>
    match chmod_error w with
    | Some err => (Raise (OSError err), w)
    | None => (Return tt, set_config_mode mode w)
    end.

(** [CONFIG_FILE.unlink()]: once the file is gone, opening it for writing
    means creating it. *)
Definition config_file_unlink : M unit :=
  fun w =>
    match unlink_error w with
    | Some err => (Raise (OSError err), w)
    | None =>
        (Return tt, set_open_w_error (create_error w) (set_config_file Absent w))
    end.

(** [requests.post]: the request is recorded, the network answers. *)
Definition requests_post (r : Request) : M Response :=
  fun w =>
    let w' := set_sent (sent w ++ [r]) w in
    match network w (length (sent w)) r with
    | Failure msg => (Raise (RequestException msg), w')
    | Answer response => (Return response, w')
    end.

(** [response.json()] *)
Definition response_json (response : Response) : M pyval :=
  match json response with
  | inl v => ret v
  | inr err => raise (JSONDecodeError err)
  end.

(** ** [display] *)

Inductive color : Type := red | green | yellow | blue | white.
Inductive bg_color : Type :=
  bg_black | bg_red | bg_green | bg_yellow | bg_blue | bg_white.

Definition colors (c : color) : string :=
  match c with
  | red => "91m" | green => "92m" | yellow => "93m"
  | blue => "94m" | white => "97m"
  end.

Definition bg_colors (c : bg_color) : string :=
  match c with
  | bg_black => "40" | bg_red => "41" | bg_green => "42"
  | bg_yellow => "43" | bg_blue => "44" | bg_white => "47"
  end.

Definition ESC : string := String (ascii_of_nat 27) EmptyString.

Definition display_full (message : fstring) (c : color) (bold : bool)
    (bg : bg_color) : M unit :=
  if bold then
    print ([Lit (ESC ++ "[1;")%string; Lit (bg_colors bg); Lit ";"; Lit (colors c);
            Lit " "] ++ message ++ [Lit (ESC ++ "[0m")%string])
  else
    print ([Lit (ESC ++ "[")%string; Lit (bg_colors bg); Lit ";"; Lit (colors c);
            Lit " "] ++ message ++ [Lit (ESC ++ "[0m")%string]).

(** [display(message, color)] with the defaults [bold=False],
    [bg_color="black"]. *)
Definition display (message : fstring) (c : color) : M unit :=
  display_full message c false bg_black.

(** ** Operations on Python values that can raise *)

(** [key in v] for a string [key]. *)
Definition py_in (key : string) (v : pyval) : M bool :=
  match v with
  | VDict d => ret (existsb (String.eqb key) (dict_keys d))
  | VList l => ret (existsb (is_VStr key) l)
  | VStr s => ret (str_contains key s)
  | _ => raise TypeError
  end.

(** [v[key]] for a string [key]. *)
Definition py_getitem (v : pyval) (key : string) : M pyval :=
  match v with
  | VDict d =>
      match dict_lookup key d with
      | Some x => ret x
      | None => raise (KeyError (VStr key))
      end
  | _ => raise TypeError
  end.

(** [v[0]]; the keys of a dict are strings, so [0] is never one. *)
Definition py_getitem0 (v : pyval) : M pyval :=
  match v with
  | VList (x :: _) => ret x
  | VList [] => raise IndexError
  | VStr (String c _) => ret (VStr (String c EmptyString))
  | VStr EmptyString => raise IndexError
  | VDict _ => raise (KeyError (VInt 0))
  | _ => raise TypeError
  end.

(** [v[key] = x] *)
Definition py_setitem (v : pyval) (key : string) (x : pyval) : M pyval :=
  match v with
  | VDict d => ret (VDict (dict_store key x d))
  | _ => raise TypeError
  end.

(** [v.get(key)] *)
Definition py_get (v : pyval) (key : string) : M pyval :=
  match v with
  | VDict d =>
      ret (match dict_lookup key d with Some x => x | None => VNone end)
  | _ => raise AttributeError
  end.

(** [v.items()] *)
Definition py_items (v : pyval) : M (list (string * pyval)) :=
  match v with
  | VDict d => ret d
  | _ => raise AttributeError
  end.

Fixpoint chars (s : string) : list pyval :=
  match s with
  | EmptyString => []
  | String c s' => VStr (String c EmptyString) :: chars s'
  end.

(** The elements a [for] loop over [v] visits. *)
Definition py_iter (v : pyval) : M (list pyval) :=
  match v with
  | VList l => ret l
  | VDict d => ret (map VStr (dict_keys d))
  | VStr s => ret (chars s)
  | _ => raise TypeError
  end.

Fixpoint for_each {A} (l : list A) (body : A -> M unit) : M unit :=
  match l with
  | [] => ret tt
  | x :: l' => body x ;; for_each l' body
  end.

Definition NL : string := String (ascii_of_nat 10) EmptyString.

(** ** [ConfigManager] *)

Module ConfigManager.

Definition load_config : M pyval :=
  file_exists <- config_file_exists ;;
  if file_exists then
    try_except read_config_file
      (any_exception (fun e =>
         logger_error [Lit "Error loading config: "; StrExn e] ;;
         ret (VDict [])))
  else ret (VDict []).

Definition save_config (config : pyval) : M unit :=
  config_dir_mkdir ;;
  try_except
    (write_config_file config ;;
     (* Set restrictive permissions on config file *)
     config_file_chmod 384 (* 0o600 *))
    (any_exception (fun e =>
       logger_error [Lit "Error saving config: "; StrExn e])).

Definition get_api_key : M pyval :=
  (* First check environment variable *)
  api_key <- environ_get ;;
  match api_key with
  | Some k =>
      if truthy (VStr k) then ret (VStr k)
      else (config <- load_config ;; py_get config "api_key")
  | None =>
      (* Then check config file *)
      config <- load_config ;; py_get config "api_key"
  end.

Definition save_api_key (api_key : string) : M unit :=
  config <- load_config ;;
  config' <- py_setitem config "api_key" (VStr api_key) ;;
  save_config config'.

Definition prompt_for_api_key : M string :=
  display [Lit "No API key found. Please enter your Perplexity API key:"]
          yellow ;;
  display [Lit "You can get one from: https://docs.perplexity.ai"] blue ;;
  line <- input "API Key: " ;;
  let api_key := strip line in
  if negb (truthy (VStr api_key)) then
    display [Lit "API key cannot be empty!"] red ;;
    sys_exit 1
  else
    (* Ask if user wants to save it *)
    line' <- input (NL ++ "Save this API key for future use? (y/n): ")%string ;;
    let save_choice := lower (strip line') in
    (if String.eqb save_choice "y" then
       save_api_key api_key ;;
       display [Lit "API key saved successfully!"] green
     else ret tt) ;;
    ret api_key.

End ConfigManager.

(** ** [ModelValidator] *)

Definition AVAILABLE_MODELS : list string :=
  ["sonar-reasoning-pro"; "sonar-reasoning"; "sonar-pro"; "sonar"].

Module ModelValidator.

Definition validate (model : string) : bool :=
  existsb (String.eqb model) AVAILABLE_MODELS.

Definition get_available_models : list string := AVAILABLE_MODELS.

End ModelValidator.

(** [str()] of a list of plain identifiers (no quote, backslash or control
    character in them): each one between single quotes. *)
Definition str_of_names (l : list string) : string :=
  ("[" ++ String.concat ", " (map (fun s => "'" ++ s ++ "'") l) ++ "]")%string.

(** ** Command line and [ApiConfig] *)

(** The namespace [argparse] produces. *)
Record Args : Type := mkArgs {
  args_query : option string;
  args_verbose : bool;
  args_usage : bool;
  args_citations : bool;
  args_glow : bool;
  args_api_key : option string;
  args_model : string;
  args_clear_config : bool
}.

Record ApiConfig : Type := mkApiConfig {
  api_url : string;
  api_key : pyval;
  usage : bool;
  citations : bool;
  model : option string
}.

(** [ApiConfig()] with the dataclass defaults. *)
Definition ApiConfig_default : ApiConfig :=
  mkApiConfig "https://api.perplexity.ai/chat/completions" VNone false false
              None.

Definition set_api_key (k : pyval) (c : ApiConfig) : ApiConfig :=
  mkApiConfig (api_url c) k (usage c) (citations c) (model c).

(** ** [Perplexity] *)

Record Perplexity : Type := mkPerplexity {
  config : ApiConfig;
  use_glow : bool
}.

Definition invalid_model_message (m : string) : string :=
  ("Invalid model: " ++ m ++ NL ++
   "Available models: " ++ str_of_names ModelValidator.get_available_models)%string.

Definition __init__ (args : Args) : M Perplexity :=
  if negb (ModelValidator.validate (args_model args)) then
    raise (InvalidSelectedModelException (invalid_model_message (args_model args)))
  else
    let cfg :=
      mkApiConfig (api_url ApiConfig_default) (api_key ApiConfig_default)
                  (args_usage args) (args_citations args)
                  (Some (args_model args)) in
    let glow := args_glow args in
    (* Handle API key *)
    match args_api_key args with
    | Some k =>
        if truthy (VStr k) then ret (mkPerplexity (set_api_key (VStr k) cfg) glow)
        else
          key <- ConfigManager.get_api_key ;;
          key' <- (if is_none key then
                     k' <- ConfigManager.prompt_for_api_key ;; ret (VStr k')
                   else ret key) ;;
          ret (mkPerplexity (set_api_key key' cfg) glow)
    | None =>
        key <- ConfigManager.get_api_key ;;
        key' <- (if is_none key then
                   (* Prompt for API key *)
                   k' <- ConfigManager.prompt_for_api_key ;; ret (VStr k')
                 else ret key) ;;
        ret (mkPerplexity (set_api_key key' cfg) glow)
    end.

Definition glow_header (title : string) : M unit :=
  print [Lit ("# " ++ title)%string].

Definition plain_header (title : string) : M unit :=
  display_full [Lit title] yellow true bg_blue.

Definition _show_usage (result : pyval) (use_glow : bool) : M unit :=
  (if use_glow then glow_header "Tokens" else plain_header "Tokens") ;;
  items <- py_items result ;;
  for_each items (fun '(token, value) =>
    print [Lit "- "; Str (VStr token); Lit ": "; Str value]) ;;
  print [].

Definition _show_citations (result : pyval) (use_glow : bool) : M unit :=
  (if use_glow then glow_header "Citations" else plain_header "Citations") ;;
  elements <- py_iter result ;;
  for_each elements (fun element => print [Lit "- "; Str element]) ;;
  print [].

Definition _show_content (self : Perplexity) (result : pyval) : M unit :=
  (if use_glow self then glow_header "Content" else plain_header "Content") ;;
  print [Str result].

(** The request [get_response] builds from [self.config] and the message. *)
Definition build_request (self : Perplexity) (message : string) : Request :=
  mkRequest (api_url (config self))
            "application/json"
            "application/json"
            [Lit "Bearer "; Str (api_key (config self))]
            (model (config self))
            [("system", "Be precise and concise."); ("user", message)].

(** The body of [get_response]; [retry] stands for the recursive call
    [self.get_response(message)] of the 401 branch, made after
    [self.config.api_key] has been replaced. *)
Definition get_response_body (retry : Perplexity -> M unit)
    (self : Perplexity) (message : string) : M unit :=
  response <- try_except (requests_post (build_request self message))
                (fun e =>
                   match e with
                   | RequestException _ =>
                       Some (display [Lit "Network error: "; StrExn e] red ;;
                             sys_exit 1)
                   | _ => None
                   end) ;;
  if Z.eqb (status_code response) 200 then
    result <- response_json response ;;
    (* Handle citations if requested and present *)
    (if citations (config self) then
       present <- py_in "citations" result ;;
       if present then
         c <- py_getitem result "citations" ;;
         _show_citations c (use_glow self)
       else ret tt
     else ret tt) ;;
    (* Handle usage if requested and present *)
    (if usage (config self) then
       present <- py_in "usage" result ;;
       if present then
         u <- py_getitem result "usage" ;;
         _show_usage u (use_glow self)
       else ret tt
     else ret tt) ;;
    (* Show content *)
    present <- py_in "choices" result ;;
    choices_ok <- (if present then
                     choices <- py_getitem result "choices" ;;
                     ret (truthy choices)
                   else ret false) ;;
    if choices_ok then
      choices <- py_getitem result "choices" ;;
      first <- py_getitem0 choices ;;
      message' <- py_getitem first "message" ;;
      content <- py_getitem message' "content" ;;
      _show_content self content
    else
      display [Lit "No response content received"] yellow
  else if Z.eqb (status_code response) 401 then
    display [Lit "Invalid API key! Please check your API key."] red ;;
    (* Ask if user wants to enter a new key *)
    line <- input (NL ++ "Would you like to enter a new API key? (y/n): ")%string ;;
    let retry_choice := lower (strip line) in
    if String.eqb retry_choice "y" then
      new_key <- ConfigManager.prompt_for_api_key ;;
      (* Retry the request *)
      retry (mkPerplexity (set_api_key (VStr new_key) (config self))
                          (use_glow self))
    else
      sys_exit 1
  else
    display [Lit "Error "; Str (VInt (status_code response)); Lit ": ";
             Str (VStr (text response))] red ;;
    sys_exit 1.

(** [get_response], with the interpreter's bound on nested calls made
    explicit: [depth] is the number of nested retries the call stack still
    admits; one more raises [RecursionError]. *)
Fixpoint get_response (depth : nat) (self : Perplexity) (message : string)
  : M unit :=
  get_response_body
    (fun self' =>
       match depth with
       | O => raise RecursionError
       | S depth' => get_response depth' self' message
       end)
    self message.

(** ** [main] *)

(** [main], from the parsed arguments on.  Debug logging and the
    [KeyboardInterrupt] handler are not modelled; [parser.error] leaves
    with status 2. *)
Definition main (depth : nat) (args : Args) : M unit :=
  (* Handle config clearing *)
  if args_clear_config args then
    file_exists <- config_file_exists ;;
    (if file_exists then
       config_file_unlink ;;
       display [Lit "Configuration cleared!"] green
     else
       display [Lit "No configuration to clear"] yellow) ;;
    sys_exit 0
  else
    (* Require query if not clearing config *)
    match args_query args with
    | None => sys_exit 2
    | Some query =>
        if negb (truthy (VStr query)) then sys_exit 2
        else
          try_except
            (perplexity <- __init__ args ;;
             get_response depth perplexity query)
            (any_exception (fun e =>
               display [Lit "Error: "; StrExn e] red ;;
               sys_exit 1))
    end.

(** Exit status of the process for an outcome of [main]. *)
Definition exit_status (o : outcome unit) : Z :=
  match o with
  | Return _ => 0
  | SysExit code => code
  | Raise _ => 1
  end.

(** * Vocabulary of the properties *)

(** The line [main] prints for an exception it catches. *)
Definition error_line (e : exn) : out :=
  Line [Lit (ESC ++ "[")%string; Lit "40"; Lit ";"; Lit "91m"; Lit " ";
        Lit "Error: "; StrExn e; Lit (ESC ++ "[0m")%string].

(** The [except requests.exceptions.RequestException] clause of
    [get_response]. *)
Definition network_error_handler (e : exn) : option (M Response) :=
  match e with
  | RequestException _ =>
      Some (display [Lit "Network error: "; StrExn e] red ;; sys_exit 1)
  | _ => None
  end.

(** What the 401 branch prints and asks before it reads the answer. *)
Definition invalid_key_line : out :=
  Line [Lit (ESC ++ "[")%string; Lit "40"; Lit ";"; Lit "91m"; Lit " ";
        Lit "Invalid API key! Please check your API key.";
        Lit (ESC ++ "[0m")%string].

Definition retry_prompt : out :=
  Prompt (NL ++ "Would you like to enter a new API key? (y/n): ")%string.

(** A server that rejects every key. *)
Definition always_401 : nat -> Request -> Reply :=
  fun _ _ => Answer (mkResponse 401 "unauthorized" (inr "Expecting value")).

(** A string source counts when it is set and not empty ([if api_key:]). *)
Definition nonempty (o : option string) : option string :=
  match o with
  | Some s => if truthy (VStr s) then Some s else None
  | None => None
  end.

(** The settings entry counts when it is there and not [None]
    ([if api_key is None]); its value is not looked at. *)
Definition stored_key (d : list (string * pyval)) : option pyval :=
  match dict_lookup "api_key" d with
  | Some VNone => None
  | o => o
  end.

(** The object the constructor builds once the key is known. *)
Definition configured (args : Args) (key : pyval) : Perplexity :=
  mkPerplexity
    (mkApiConfig "https://api.perplexity.ai/chat/completions" key
                 (args_usage args) (args_citations args)
                 (Some (args_model args)))
    (args_glow args).

(** The claim's reading of the order: every source, the stored one
    included, counts only when it is a non-empty string; [None] sends the
    resolution to the prompt. *)
Definition highest_priority_nonempty (explicit env : option string)
    (d : list (string * pyval)) : option string :=
  match nonempty explicit with
  | Some k => Some k
  | None =>
      match nonempty env with
      | Some k => Some k
      | None =>
          match dict_lookup "api_key" d with
          | Some (VStr s) => nonempty (Some s)
          | _ => None
          end
      end
  end.

(** The header of a section, in either style. *)
Definition header_line (glow : bool) (title : string) : out :=
  if glow then Line [Lit ("# " ++ title)%string]
  else Line [Lit (ESC ++ "[1;")%string; Lit "44"; Lit ";"; Lit "93m"; Lit " ";
             Lit title; Lit (ESC ++ "[0m")%string].

(** The three sections, as [_show_citations], [_show_usage] and
    [_show_content] print them, and the notice that stands for the last. *)
Definition citations_section (glow : bool) (cs : list pyval) : list out :=
  header_line glow "Citations"
  :: map (fun e => Line [Lit "- "; Str e]) cs ++ [Line []].

Definition usage_section (glow : bool) (us : list (string * pyval)) : list out :=
  header_line glow "Tokens"
  :: map (fun '(t, v) => Line [Lit "- "; Str (VStr t); Lit ": "; Str v]) us
  ++ [Line []].

Definition content_section (glow : bool) (c : pyval) : list out :=
  [header_line glow "Content"; Line [Str c]].

Definition no_content_notice : out :=
  Line [Lit (ESC ++ "[")%string; Lit "40"; Lit ";"; Lit "93m"; Lit " ";
        Lit "No response content received"; Lit (ESC ++ "[0m")%string].

(** The text [get_response] prints as content: [message.content] of the
    first choice, when the reply has one. *)
Definition response_content (d : list (string * pyval)) : option pyval :=
  match dict_lookup "choices" d with
  | Some (VList (VDict c :: _)) =>
      match dict_lookup "message" c with
      | Some (VDict m) => dict_lookup "content" m
      | _ => None
      end
  | _ => None
  end.

(** ["choices"] is missing, or there and false ([[]], [null], ...). *)
Definition no_choices (d : list (string * pyval)) : bool :=
  match dict_lookup "choices" d with
  | Some v => negb (truthy v)
  | None => true
  end.

(** The 200 branch of [get_response], from the parsed body on, in its
    three parts. *)
Definition citations_part (self : Perplexity) (result : pyval) : M unit :=
  if citations (config self) then
    present <- py_in "citations" result ;;
    if present then
      c <- py_getitem result "citations" ;;
      _show_citations c (use_glow self)
    else ret tt
  else ret tt.

Definition usage_part (self : Perplexity) (result : pyval) : M unit :=
  if usage (config self) then
    present <- py_in "usage" result ;;
    if present then
      u <- py_getitem result "usage" ;;
      _show_usage u (use_glow self)
    else ret tt
  else ret tt.

Definition content_part (self : Perplexity) (result : pyval) : M unit :=
  present <- py_in "choices" result ;;
  choices_ok <- (if present then
                   choices <- py_getitem result "choices" ;;
                   ret (truthy choices)
                 else ret false) ;;
  if choices_ok then
    choices <- py_getitem result "choices" ;;
    first <- py_getitem0 choices ;;
    message' <- py_getitem first "message" ;;
    content <- py_getitem message' "content" ;;
    _show_content self content
  else
    display [Lit "No response content received"] yellow.

Definition render (self : Perplexity) (result : pyval) : M unit :=
  citations_part self result ;;
  usage_part self result ;;
  content_part self result.

(** A line of a list: a dash, then the item. *)
Definition item_line (o : out) : Prop := exists t, o = Line (Lit "- " :: t).

(** A section: its header, then item lines and blank lines only. *)
Definition section_of (glow : bool) (title : string) (l : list out) : Prop :=
  exists body,
    l = header_line glow title :: body /\
    Forall (fun o => item_line o \/ o = Line []) body.

(** The reply is a mapping that has the field. *)
Definition has_field (key : string) (result : pyval) : Prop :=
  exists d v, result = VDict d /\ dict_lookup key d = Some v.

(** What each part of the rendering may print: nothing, or its section. *)
Definition citations_printed (self : Perplexity) (result : pyval)
    (l : list out) : Prop :=
  l = [] \/
  (citations (config self) = true /\ has_field "citations" result /\
   section_of (use_glow self) "Citations" l).

Definition usage_printed (self : Perplexity) (result : pyval)
    (l : list out) : Prop :=
  l = [] \/
  (usage (config self) = true /\ has_field "usage" result /\
   section_of (use_glow self) "Tokens" l).

Definition content_printed (self : Perplexity) (l : list out) : Prop :=
  l = [] \/ l = [no_content_notice] \/
  exists c, l = content_section (use_glow self) c.

(** [m] keeps the relation [P] between the world it starts from and the
    world it ends in. *)
Definition preserves (P : World -> World -> Prop) {A} (m : M A) : Prop :=
  forall w, P w (snd (m w)).

(** An answer to a yes/no prompt that the program takes for a yes. *)
Definition confirms (line : string) : bool :=
  String.eqb (lower (strip line)) "y".

(** How many lines of the pending input are such answers. *)
Definition confirmations (l : list string) : nat :=
  length (filter confirms l).

(** Nothing was posted, and no confirmation was added to the input. *)
Definition quiet (w w' : World) : Prop :=
  sent w' = sent w /\
  network w' = network w /\
  confirmations (stdin w') <= confirmations (stdin w).

(** The input of a user who confirms [n] times, types a key and declines
    to save it each time, and then gives up. *)
Fixpoint insisting (n : nat) : list string :=
  match n with
  | O => ["n"]
  | S n' => "y" :: "another-key" :: "n" :: insisting n'
  end.

(** Two lines agree when they are the same line, or the header of the
    same section in the glow and in the plain style. *)
Definition same_but_style (g p : out) : Prop :=
  g = p \/ exists title, g = header_line true title /\ p = header_line false title.

Definition outputs_agree (g p : list out) : Prop := Forall2 same_but_style g p.

(** Two worlds that differ in what was printed only, and there only in
    the style of the headers. *)
Definition alike (wg wp : World) : Prop :=
  exists lp, wp = set_stdout lp wg /\ outputs_agree (stdout wg) lp.

(** Two computations that, from alike worlds, end the same way in alike
    worlds. *)
Definition alikeM {A} (mg mp : M A) : Prop :=
  forall wg wp, alike wg wp ->
    fst (mg wg) = fst (mp wp) /\ alike (snd (mg wg)) (snd (mp wp)).

(** ** Vocabulary of the further properties *)

(** The line [display(message, color)] prints. *)
Definition display_line (message : fstring) (c : color) : out :=
  Line ([Lit (ESC ++ "[")%string; Lit (bg_colors bg_black); Lit ";";
         Lit (colors c); Lit " "] ++ message ++ [Lit (ESC ++ "[0m")%string]).

(** What [prompt_for_api_key] writes up to the point where it reads the
    key, and the lines it may write after. *)
Definition prompt_intro : list out :=
  [display_line [Lit "No API key found. Please enter your Perplexity API key:"]
                yellow;
   display_line [Lit "You can get one from: https://docs.perplexity.ai"] blue;
   Prompt "API Key: "].

Definition save_prompt : out :=
  Prompt (NL ++ "Save this API key for future use? (y/n): ")%string.

Definition empty_key_line : out :=
  display_line [Lit "API key cannot be empty!"] red.

Definition key_saved_line : out :=
  display_line [Lit "API key saved successfully!"] green.

Definition save_error_entry (err : string) : fstring :=
  [Lit "Error saving config: "; StrExn (OSError err)].

(** The value is a [dict]. *)
Definition is_mapping (v : pyval) : bool :=
  match v with VDict _ => true | _ => false end.

(** A computation that leaves the process does so with status 1. *)
Definition exits_with_1 {A} (m : M A) : Prop :=
  forall w c w', m w = (SysExit c, w') -> c = 1%Z.

(** The request of a run: the fixed endpoint and headers, the model and
    the query of the command line, and some key as the bearer token. *)
Definition asks (args : Args) (query : string) (r : Request) : Prop :=
  req_url r = "https://api.perplexity.ai/chat/completions" /\
  req_accept r = "application/json" /\
  req_content_type r = "application/json" /\
  (exists key, req_authorization r = [Lit "Bearer "; Str key]) /\
  req_model r = Some (args_model args) /\
  req_messages r = [("system", "Be precise and concise."); ("user", query)].

(** The world keeps its record of requests, and every request it adds is
    one that [Q] admits. *)
Definition posts_only (Q : Request -> Prop) (w w' : World) : Prop :=
  exists added, sent w' = sent w ++ added /\ Forall Q added.



(** The text is the single letter [y], in either case. *)
Definition is_y (s : string) : bool :=
  String.eqb s "y" || String.eqb s "Y".

(** Whether the clearing of the settings raises, and with what: the
    existence test, then, for a file that is there, its removal. *)
Definition clearing_fails (w : World) : option string :=
  match exists_error w with
  | Some err => Some err
  | None =>
      match config_file w with
      | Absent => None
      | _ => unlink_error w
      end
  end.

(** What [load_config] returns for a state of the settings file. *)
Definition settings_of (f : file_state) : pyval :=
  match f with
  | Document j => j
  | _ => VDict []
  end.

(** The two reports of [--clear-config]. *)
Definition cleared_line : out :=
  display_line [Lit "Configuration cleared!"] green.

Definition nothing_to_clear_line : out :=
  display_line [Lit "No configuration to clear"] yellow.

(** The reports of a transport failure and of a status that is neither
    200 nor 401. *)
Definition network_error_line (msg : string) : out :=
  display_line [Lit "Network error: "; StrExn (RequestException msg)] red.

Definition http_error_line (r : Response) : out :=
  display_line [Lit "Error "; Str (VInt (status_code r)); Lit ": ";
                Str (VStr (text r))] red.

(** ** Sample arguments, replies and worlds *)

(** An empty, writable store; nothing in the environment, no input. *)
Definition tmp_store : World :=
  mkWorld None Absent 420 None None [] (fun _ _ => Failure "unreachable")
          [] [] []
          None None None None None.

Definition stored_settings : list (string * pyval) :=
  [("theme", VStr "dark"); ("api_key", VStr "old"); ("retries", VInt 3)].

Definition store_with_settings : World :=
  mkWorld None (Document (VDict stored_settings)) 384 None None []
          (fun _ _ => Failure "unreachable") [] [] []
          None None None None None.

(** The same settings in a file that cannot be opened for writing. *)
Definition read_only_store : World :=
  mkWorld None (Document (VDict stored_settings)) 384 None
          (Some "Permission denied") [] (fun _ _ => Failure "unreachable")
          [] [] []
          None None None None None.


(** A settings file that is there and empty: [json.load] raises. *)
Definition garbled_store : World :=
  mkWorld None (Malformed "Expecting value: line 1 column 1 (char 0)") 384
          None None [] (fun _ _ => Failure "unreachable") [] [] []
          None None None None None.

Definition args_bad_model : Args :=
  mkArgs (Some "hello") false false false false (Some "X") "not-a-real-model"
         false.

Definition self_with_key (key : string) : Perplexity :=
  mkPerplexity
    (mkApiConfig "https://api.perplexity.ai/chat/completions" (VStr key)
                 false false (Some "sonar-pro"))
    false.

(** A session against [always_401] in which the user types [answers]. *)
Definition world_rejecting (answers : list string) : World :=
  mkWorld None Absent 420 None None answers always_401 [] [] []
          None None None None None.

Definition args_explicit_X : Args :=
  mkArgs (Some "hello") false false false false (Some "X") "sonar-pro" false.

(** PERPLEXITY_API_KEY=Y and settings [{"api_key": "S"}]. *)
Definition world_env_Y : World :=
  mkWorld (Some "Y") (Document (VDict [("api_key", VStr "S")])) 384 None None
          [] always_401 [] [] []
          None None None None None.

Definition args_no_key : Args :=
  mkArgs (Some "hello") false false false false None "sonar-pro" false.

(** Settings whose ["api_key"] entry is the empty string, nothing in the
    environment, and a user ready to type the key ["Z"]. *)
Definition world_empty_stored_key : World :=
  mkWorld None (Document (VDict [("api_key", VStr "")])) 384 None None
          ["Z"; "n"] always_401 [] [] []
          None None None None None.

(** citations=["a","b"], usage={"total":5}, content="hi". *)
Definition reply_full : list (string * pyval) :=
  [("citations", VList [VStr "a"; VStr "b"]);
   ("usage", VDict [("total", VInt 5)]);
   ("choices", VList [VDict [("message", VDict [("content", VStr "hi")])]])].

(** A session in which every request is answered 200 with [body]. *)
Definition world_answering (body : pyval) : World :=
  mkWorld None Absent 420 None None []
          (fun _ _ => Answer (mkResponse 200 "" (inl body))) [] [] []
          None None None None None.

Definition self_with_flags : Perplexity :=
  mkPerplexity
    (mkApiConfig "https://api.perplexity.ai/chat/completions" (VStr "X")
                 true true (Some "sonar-pro"))
    false.

(** A reply whose only choice carries a message without ["content"]. *)
Definition reply_without_content : pyval :=
  VDict [("id", VStr "r1");
         ("choices",
          VList [VDict [("index", VInt 0);
                        ("finish_reason", VStr "stop");
                        ("message", VDict [("role", VStr "assistant")])]])].

(** * Properties *)

(** ** Running the monad *)

Lemma bind_run {A B} (m : M A) (k : A -> M B) (w w' : World) (o : outcome A) :
  m w = (o, w') ->
  bind m k w =
  match o with
  | Return a => k a w'
  | Raise e => (Raise e, w')
  | SysExit c => (SysExit c, w')
  end.
Proof. intros H. unfold bind. rewrite H. destruct o; reflexivity. Qed.

Lemma try_except_run {A} (m : M A) (h : exn -> option (M A)) (w w' : World)
    (o : outcome A) :
  m w = (o, w') ->
  try_except m h w =
  match o with
  | Raise e => match h e with Some k => k w' | None => (Raise e, w') end
  | _ => (o, w')
  end.
Proof. intros H. unfold try_except. rewrite H. destruct o; reflexivity. Qed.

Lemma bind_ret_l {A B} (a : A) (k : A -> M B) : bind (ret a) k = k a.
Proof. reflexivity. Qed.

(** In a goal [bind m k w = _], run [m] first: the caller states where it
    ends and proves it, then the goal goes on with [k]. *)
Ltac bind_step rhs :=
  match goal with
  | |- bind ?m ?k ?w = _ =>
      let H := fresh "Hstep" in
      assert (H : m w = rhs);
      [ | rewrite (bind_run _ _ _ _ _ H); clear H; cbv beta iota ]
  end.

(** ** Dictionaries *)

Lemma dict_lookup_store_same (k : string) (v : pyval) (d : list (string * pyval)) :
  dict_lookup k (dict_store k v d) = Some v.
Proof.
  induction d as [|[k' v'] d IH]; simpl.
  - now rewrite String.eqb_refl.
  - destruct (String.eqb k k') eqn:E; simpl; rewrite E; [reflexivity | exact IH].
Qed.

Lemma dict_lookup_store_other (k k' : string) (v : pyval)
    (d : list (string * pyval)) :
  k' <> k -> dict_lookup k' (dict_store k v d) = dict_lookup k' d.
Proof.
  intros Hne. induction d as [|[k0 v0] d IH]; simpl.
  - destruct (String.eqb_spec k' k); [contradiction | reflexivity].
  - destruct (String.eqb_spec k k0) as [->|Hk]; simpl.
    + destruct (String.eqb_spec k' k0); [contradiction | reflexivity].
    + destruct (String.eqb k' k0); [reflexivity | exact IH].
Qed.

Lemma dict_keys_store_present (k : string) (v : pyval)
    (d : list (string * pyval)) :
  In k (dict_keys d) -> dict_keys (dict_store k v d) = dict_keys d.
Proof.
  induction d as [|[k0 v0] d IH]; simpl; [tauto|].
  intros Hin. destruct (String.eqb_spec k k0) as [->|Hk]; simpl; [reflexivity|].
  f_equal. apply IH. destruct Hin as [->|Hin]; [contradiction | exact Hin].
Qed.

(** ** Settings store *)

Section SettingsStore.

Import ConfigManager.

Variable w : World.

(** What [load_config] does: the existence test raises, or the call
    returns by the state of the settings file. *)
Lemma load_config_cases :
  load_config w =
  match exists_error w with
  | Some err => (Raise (OSError err), w)
  | None =>
      match config_file w with
      | Absent => (Return (VDict []), w)
      | Unreadable err =>
          (Return (VDict []),
           set_error_log
             (error_log w ++
                [[Lit "Error loading config: "; StrExn (OSError err)]])
             w)
      | Malformed err =>
          (Return (VDict []),
           set_error_log
             (error_log w ++
                [[Lit "Error loading config: "; StrExn (JSONDecodeError err)]])
             w)
      | Document j => (Return j, w)
      end
  end.
Proof.
  unfold load_config, bind, config_file_exists.
  destruct (exists_error w); [reflexivity|].
  destruct (config_file w) eqn:E; unfold try_except, read_config_file;
    rewrite ?E; reflexivity.
Qed.

(** Once the existence test answers, [load_config] neither raises nor
    leaves the process. *)
Lemma load_config_returns :
  exists_error w = None ->
  exists j w', load_config w = (Return j, w') /\
               stdout w' = stdout w /\ stdin w' = stdin w /\
               sent w' = sent w /\ config_file w' = config_file w.
Proof.
  intros Hex. rewrite load_config_cases, Hex.
  destruct (config_file w) eqn:E; eexists; eexists; (split; [reflexivity|]);
    simpl; auto.
Qed.

(** What [save_config] does, by what the file system lets it do: [mkdir]
    raises to the caller; a failure of [open], of [json.dump] or of [chmod]
    is logged, and it leaves the file as it was, damaged, or written with
    the permissions it had. *)
Lemma save_config_cases (config : pyval) :
  save_config config w =
  match mkdir_error w with
  | Some err => (Raise (OSError err), w)
  | None =>
      match open_w_error w with
      | Some err =>
          (Return tt,
           set_error_log
             (error_log w ++ [[Lit "Error saving config: "; StrExn (OSError err)]])
             w)
      | None =>
          match dump_error w with
          | Some (e, damaged) =>
              (Return tt,
               set_error_log
                 (error_log w ++ [[Lit "Error saving config: "; StrExn e]])
                 (set_config_file damaged w))
          | None =>
              match chmod_error w with
              | Some err =>
                  (Return tt,
                   set_error_log
                     (error_log w ++
                        [[Lit "Error saving config: "; StrExn (OSError err)]])
                     (set_config_file (Document config) w))
              | None =>
                  (Return tt,
                   set_config_mode 384 (set_config_file (Document config) w))
              end
          end
      end
  end.
Proof.
  unfold save_config, bind, config_dir_mkdir.
  destruct (mkdir_error w); [reflexivity|].
  unfold try_except, write_config_file, config_file_chmod.
  destruct (open_w_error w); [reflexivity|].
  destruct (dump_error w) as [[e damaged]|]; [reflexivity|].
  simpl. destruct (chmod_error w); reflexivity.
Qed.

End SettingsStore.

(** C8.  When the existence test answers, [load_config] returns an empty
    mapping for a settings file that is absent, and for one that is there
    but cannot be opened or parsed; in the last two cases the failure is
    recorded with [logger.error], for an absent file nothing is; in none
    of them does the call raise or touch anything but the log. *)
Theorem load_config_empty_on_failure (w : World) :
  exists_error w = None ->
  match config_file w with
  | Absent =>
      ConfigManager.load_config w = (Return (VDict []), w)
  | Unreadable err =>
      ConfigManager.load_config w =
      (Return (VDict []),
       set_error_log
         (error_log w ++ [[Lit "Error loading config: "; StrExn (OSError err)]])
         w)
  | Malformed err =>
      ConfigManager.load_config w =
      (Return (VDict []),
       set_error_log
         (error_log w ++
            [[Lit "Error loading config: "; StrExn (JSONDecodeError err)]])
         w)
  | Document j =>
      ConfigManager.load_config w = (Return j, w)
  end.
Proof.
  intros Hex. rewrite load_config_cases, Hex.
  destruct (config_file w); reflexivity.
Qed.

Lemma load_config_empty_on_failure_witness :
  ConfigManager.load_config garbled_store
  = (Return (VDict []),
     set_error_log
       [[Lit "Error loading config: ";
         StrExn (JSONDecodeError "Expecting value: line 1 column 1 (char 0)")]]
       garbled_store).
Proof. exact (load_config_empty_on_failure garbled_store eq_refl). Defined.

(** C8, as stated, fails for the absent file: the empty mapping is
    returned, but no failure is logged. *)
Lemma absent_file_is_not_logged :
  config_file tmp_store = Absent /\
  fst (ConfigManager.load_config tmp_store) = Return (VDict []) /\
  error_log (snd (ConfigManager.load_config tmp_store)) = [].
Proof. repeat split; reflexivity. Qed.




(** [load_config] leaves the file system as it is. *)
Lemma load_config_store (w w1 : World) (o : outcome pyval) :
  ConfigManager.load_config w = (o, w1) ->
  mkdir_error w1 = mkdir_error w /\ open_w_error w1 = open_w_error w /\
  config_file w1 = config_file w /\ dump_error w1 = dump_error w /\
  chmod_error w1 = chmod_error w /\ exists_error w1 = exists_error w.
Proof.
  rewrite load_config_cases. intros H.
  assert (Hw : w1 = w \/ exists l, w1 = set_error_log l w).
  { destruct (exists_error w); [injection H as _ <-; now left|].
    destruct (config_file w); injection H as _ <-; eauto. }
  destruct Hw as [->|(l & ->)]; simpl; auto 10.
Qed.

(** C10.  On a store that can be read and written (the existence test
    answers, the file holds the mapping [S], the directory can be created,
    the file can be opened and written), [save_api_key] stores [S] with
    ["api_key"] set to the new key: every other key keeps its value (and
    its place). *)
Theorem save_api_key_frame (w : World) (S : list (string * pyval))
    (key : string) :
  config_file w = Document (VDict S) ->
  exists_error w = None ->
  mkdir_error w = None ->
  open_w_error w = None ->
  dump_error w = None ->
  exists w',
    ConfigManager.save_api_key key w = (Return tt, w') /\
    config_file w' = Document (VDict (dict_store "api_key" (VStr key) S)) /\
    dict_lookup "api_key" (dict_store "api_key" (VStr key) S)
      = Some (VStr key) /\
    (forall k, k <> "api_key" ->
       dict_lookup k (dict_store "api_key" (VStr key) S) = dict_lookup k S) /\
    (In "api_key" (dict_keys S) ->
       dict_keys (dict_store "api_key" (VStr key) S) = dict_keys S).
Proof.
  intros Hfile Hex Hdir Hopen Hdump.
  assert (Hload : ConfigManager.load_config w = (Return (VDict S), w))
    by (rewrite load_config_cases, Hex, Hfile; reflexivity).
  assert (Hrun : exists w',
    ConfigManager.save_api_key key w = (Return tt, w') /\
    config_file w' = Document (VDict (dict_store "api_key" (VStr key) S))).
  { unfold ConfigManager.save_api_key.
    rewrite (bind_run _ _ _ _ _ Hload). unfold py_setitem. rewrite bind_ret_l.
    rewrite save_config_cases, Hdir, Hopen, Hdump.
    destruct (chmod_error w); eexists; split; reflexivity. }
  destruct Hrun as (w' & Hrun & Hstored).
  exists w'. split; [exact Hrun|]. split; [exact Hstored|].
  split; [apply dict_lookup_store_same|].
  split; [intros k Hk; now apply dict_lookup_store_other|].
  apply dict_keys_store_present.
Qed.

Lemma save_api_key_frame_witness :
  exists w',
    ConfigManager.save_api_key "new" store_with_settings = (Return tt, w') /\
    config_file w' =
      Document (VDict [("theme", VStr "dark"); ("api_key", VStr "new");
                       ("retries", VInt 3)]).
Proof.
  destruct (save_api_key_frame store_with_settings stored_settings "new"
              eq_refl eq_refl eq_refl eq_refl eq_refl)
    as (w' & Hrun & Hfile & _).
  exists w'. split; [exact Hrun | exact Hfile].
Defined.

(** C10, as stated, fails on a store whose file cannot be opened for
    writing: the failure is logged and the stored mapping stays what it
    was, with the old key. *)
Lemma save_api_key_to_read_only_store :
  config_file read_only_store = Document (VDict stored_settings) /\
  fst (ConfigManager.save_api_key "new" read_only_store) = Return tt /\
  config_file (snd (ConfigManager.save_api_key "new" read_only_store))
  = Document (VDict stored_settings) /\
  dict_lookup "api_key" stored_settings = Some (VStr "old") /\
  error_log (snd (ConfigManager.save_api_key "new" read_only_store))
  = [[Lit "Error saving config: "; StrExn (OSError "Permission denied")]].
Proof. repeat split; reflexivity. Qed.

(** ** Model validation *)

Lemma validate_spec (m : string) :
  ModelValidator.validate m = true <-> In m AVAILABLE_MODELS.
Proof.
  unfold ModelValidator.validate. rewrite existsb_exists. split.
  - intros (x & Hin & Heq). apply String.eqb_eq in Heq. now subst.
  - intros Hin. exists m. split; [exact Hin | apply String.eqb_refl].
Qed.

Lemma validate_false (m : string) :
  ~ In m AVAILABLE_MODELS -> ModelValidator.validate m = false.
Proof.
  intros Hn. destruct (ModelValidator.validate m) eqn:E; [|reflexivity].
  apply validate_spec in E. contradiction.
Qed.

(** C4.  A model outside the four allowed identifiers makes the
    constructor raise [InvalidSelectedModelException], whose message names
    the value and lists the valid ones, and leaves the world as it was: no
    request has been posted.  [main] then prints that message and exits
    with status 1, still without a request. *)
Theorem invalid_model_rejected (args : Args) (w : World) :
  ~ In (args_model args)
       ["sonar-reasoning-pro"; "sonar-reasoning"; "sonar-pro"; "sonar"] ->
  let e :=
    InvalidSelectedModelException
      ("Invalid model: " ++ args_model args ++ NL ++
       "Available models: ['sonar-reasoning-pro', 'sonar-reasoning', 'sonar-pro', 'sonar']")%string in
  __init__ args w = (Raise e, w) /\
  forall depth query,
    args_clear_config args = false ->
    args_query args = Some query ->
    query <> "" ->
    main depth args w = (SysExit 1, set_stdout (stdout w ++ [error_line e]) w) /\
    sent (snd (main depth args w)) = sent w.
Proof.
  intros Hbad e.
  assert (Hinit : __init__ args w = (Raise e, w)).
  { unfold __init__. rewrite (validate_false _ Hbad). reflexivity. }
  split; [exact Hinit|].
  intros depth query Hclear Hquery Hne.
  assert (Hmain : main depth args w
                  = (SysExit 1, set_stdout (stdout w ++ [error_line e]) w)).
  { unfold main. rewrite Hclear, Hquery.
    assert (Ht : truthy (VStr query) = true).
    { simpl. destruct (String.eqb_spec query ""); [contradiction | reflexivity]. }
    rewrite Ht. cbn [negb].
    rewrite (try_except_run _ _ _ _ _ (bind_run _ _ _ _ _ Hinit)).
    reflexivity. }
  rewrite Hmain. split; reflexivity.
Qed.

Lemma invalid_model_rejected_witness :
  fst (__init__ args_bad_model tmp_store) =
    Raise (InvalidSelectedModelException
      ("Invalid model: not-a-real-model" ++ NL ++
       "Available models: ['sonar-reasoning-pro', 'sonar-reasoning', 'sonar-pro', 'sonar']")%string)
  /\ sent (snd (main 0 args_bad_model tmp_store)) = [].
Proof.
  assert (Hbad : ~ In (args_model args_bad_model)
                   ["sonar-reasoning-pro"; "sonar-reasoning"; "sonar-pro"; "sonar"]).
  { simpl. intuition discriminate. }
  destruct (invalid_model_rejected args_bad_model tmp_store Hbad) as [Hinit Hmain].
  split.
  - rewrite Hinit. reflexivity.
  - destruct (Hmain 0%nat "hello" eq_refl eq_refl) as [_ Hsent];
      [discriminate | exact Hsent].
Defined.

(** ** The request/response cycle *)

Lemma get_response_unfold (depth : nat) (self : Perplexity) (message : string) :
  get_response depth self message =
  get_response_body
    (fun self' =>
       match depth with
       | O => raise RecursionError
       | S depth' => get_response depth' self' message
       end)
    self message.
Proof. destruct depth; reflexivity. Qed.

Lemma post_answered (w : World) (req : Request) (r : Response) :
  network w (length (sent w)) req = Answer r ->
  try_except (requests_post req) network_error_handler w
  = (Return r, set_sent (sent w ++ [req]) w).
Proof.
  intros Hnet. unfold try_except, requests_post. rewrite Hnet. reflexivity.
Qed.

(** [get_response] with its three branches named. *)
Lemma get_response_branches (depth : nat) (self : Perplexity) (message : string) :
  get_response depth self message =
  (response <- try_except (requests_post (build_request self message))
                 network_error_handler ;;
   if Z.eqb (status_code response) 200 then
     result <- response_json response ;; render self result
   else if Z.eqb (status_code response) 401 then
     display [Lit "Invalid API key! Please check your API key."] red ;;
     line <- input (NL ++ "Would you like to enter a new API key? (y/n): ")%string ;;
     if confirms line then
       new_key <- ConfigManager.prompt_for_api_key ;;
       match depth with
       | O => raise RecursionError
       | S depth' =>
           get_response depth'
             (mkPerplexity (set_api_key (VStr new_key) (config self))
                           (use_glow self)) message
       end
     else sys_exit 1
   else
     display [Lit "Error "; Str (VInt (status_code response)); Lit ": ";
              Str (VStr (text response))] red ;;
     sys_exit 1).
Proof. destruct depth; reflexivity. Qed.

(** The 401 branch when the answer to the retry prompt is not a yes. *)
Lemma get_response_declined (depth : nat) (self : Perplexity)
    (message : string) (w : World) (r : Response) (line : string)
    (rest : list string) :
  network w (length (sent w)) (build_request self message) = Answer r ->
  status_code r = 401%Z ->
  stdin w = line :: rest ->
  lower (strip line) <> "y" ->
  get_response depth self message w =
  (SysExit 1,
   set_stdin rest
     (set_stdout (stdout w ++ [invalid_key_line; retry_prompt])
        (set_sent (sent w ++ [build_request self message]) w))).
Proof.
  intros Hnet Hstatus Hin Hno.
  rewrite get_response_unfold. unfold get_response_body.
  fold network_error_handler.
  rewrite (bind_run _ _ _ _ _ (post_answered _ _ _ Hnet)), Hstatus.
  simpl Z.eqb. cbv iota.
  unfold bind, display, display_full, print, input. simpl.
  rewrite Hin.
  destruct (String.eqb_spec (lower (strip line)) "y"); [contradiction|].
  unfold sys_exit, set_stdin, set_stdout, set_sent. simpl.
  rewrite <- app_assoc. reflexivity.
Qed.

(** C6.  When the request is answered with 401 and the line the user
    types at the retry prompt is anything but a (case-insensitive,
    blank-trimmed) [y], [get_response] leaves through [sys.exit(1)] having
    posted that one request only; [main] lets the exit through, so the
    process status is 1. *)
Theorem declined_retry_exits (depth : nat) (self : Perplexity)
    (message : string) (w : World) (r : Response) (line : string)
    (rest : list string) :
  network w (length (sent w)) (build_request self message) = Answer r ->
  status_code r = 401%Z ->
  stdin w = line :: rest ->
  lower (strip line) <> "y" ->
  let w' :=
    set_stdin rest
      (set_stdout (stdout w ++ [invalid_key_line; retry_prompt])
         (set_sent (sent w ++ [build_request self message]) w)) in
  get_response depth self message w = (SysExit 1, w') /\
  sent w' = sent w ++ [build_request self message] /\
  forall args w0,
    args_clear_config args = false ->
    args_query args = Some message ->
    message <> "" ->
    __init__ args w0 = (Return self, w) ->
    main depth args w0 = (SysExit 1, w') /\
    exit_status (fst (main depth args w0)) = 1%Z.
Proof.
  intros Hnet Hstatus Hin Hno w'.
  assert (Hrun : get_response depth self message w = (SysExit 1, w'))
    by exact (get_response_declined depth self message w r line rest
                Hnet Hstatus Hin Hno).
  split; [exact Hrun|]. split; [reflexivity|].
  intros args w0 Hclear Hquery Hne Hinit.
  assert (Hmain : main depth args w0 = (SysExit 1, w')).
  { unfold main. rewrite Hclear, Hquery.
    assert (Ht : truthy (VStr message) = true).
    { simpl. destruct (String.eqb_spec message ""); [contradiction | reflexivity]. }
    rewrite Ht. cbn [negb].
    rewrite (try_except_run _ _ _ w' (SysExit 1));
      [reflexivity | now rewrite (bind_run _ _ _ _ _ Hinit)]. }
  rewrite Hmain. split; reflexivity.
Qed.

Lemma declined_retry_exits_witness :
  fst (get_response 0 (self_with_key "X") "hi" (world_rejecting ["n"]))
    = SysExit 1 /\
  length (sent (snd (get_response 0 (self_with_key "X") "hi"
                       (world_rejecting ["n"])))) = 1%nat.
Proof.
  assert (Hno : lower (strip "n") <> "y") by (vm_compute; discriminate).
  destruct (declined_retry_exits 0 (self_with_key "X") "hi"
              (world_rejecting ["n"]) (mkResponse 401 "unauthorized" (inr "Expecting value"))
              "n" [] eq_refl eq_refl eq_refl Hno) as (Hrun & _ & _).
  rewrite Hrun. split; reflexivity.
Defined.

(** ** Credential resolution *)

Lemma get_api_key_cases (w w1 : World) (d : list (string * pyval)) :
  ConfigManager.load_config w = (Return (VDict d), w1) ->
  ConfigManager.get_api_key w =
  match nonempty (environ w) with
  | Some k => (Return (VStr k), w)
  | None =>
      (Return (match dict_lookup "api_key" d with Some x => x | None => VNone end),
       w1)
  end.
Proof.
  intros Hload. unfold ConfigManager.get_api_key, bind at 1, environ_get, nonempty.
  destruct (environ w) as [k|].
  - destruct (truthy (VStr k)); [reflexivity|].
    now rewrite (bind_run _ _ _ _ _ Hload).
  - now rewrite (bind_run _ _ _ _ _ Hload).
Qed.

(** The order of the sources as the code has it, for settings that load
    as a mapping.  The constructor takes the key from the first source
    that applies: the command-line override when it is not empty, else
    the environment variable when it is set and not empty, else the
    ["api_key"] entry of the settings when it is present and not null
    (whatever its value), else the interactive prompt. *)
Theorem credential_precedence (args : Args) (w w1 : World)
    (d : list (string * pyval)) :
  In (args_model args) AVAILABLE_MODELS ->
  ConfigManager.load_config w = (Return (VDict d), w1) ->
  __init__ args w =
  match nonempty (args_api_key args) with
  | Some k => (Return (configured args (VStr k)), w)
  | None =>
      match nonempty (environ w) with
      | Some k => (Return (configured args (VStr k)), w)
      | None =>
          match stored_key d with
          | Some v => (Return (configured args v), w1)
          | None =>
              (k <- ConfigManager.prompt_for_api_key ;;
               ret (configured args (VStr k))) w1
          end
      end
  end.
Proof.
  intros Hmodel Hload. apply validate_spec in Hmodel.
  pose proof (get_api_key_cases _ _ _ Hload) as Hkey.
  assert (Hrest :
    (key <- ConfigManager.get_api_key ;;
     key' <- (if is_none key then
                k' <- ConfigManager.prompt_for_api_key ;; ret (VStr k')
              else ret key) ;;
     ret (mkPerplexity
            (set_api_key key'
               (mkApiConfig (api_url ApiConfig_default) (api_key ApiConfig_default)
                  (args_usage args) (args_citations args) (Some (args_model args))))
            (args_glow args))) w =
    match nonempty (environ w) with
    | Some k => (Return (configured args (VStr k)), w)
    | None =>
        match stored_key d with
        | Some v => (Return (configured args v), w1)
        | None =>
            (k <- ConfigManager.prompt_for_api_key ;;
             ret (configured args (VStr k))) w1
        end
    end).
  { destruct (nonempty (environ w)) as [k|].
    - rewrite (bind_run _ _ _ _ _ Hkey). reflexivity.
    - rewrite (bind_run _ _ _ _ _ Hkey). unfold stored_key.
      destruct (dict_lookup "api_key" d) as [[]|]; try reflexivity.
      + unfold bind. cbn [is_none]. cbv beta iota.
        destruct (ConfigManager.prompt_for_api_key w1) as [[k| |] w2]; reflexivity.
      + unfold bind. cbn [is_none]. cbv beta iota.
        destruct (ConfigManager.prompt_for_api_key w1) as [[k| |] w2]; reflexivity. }
  unfold __init__. rewrite Hmodel. cbn [negb]. unfold nonempty at 1.
  destruct (args_api_key args) as [k|]; [|exact Hrest].
  destruct (truthy (VStr k)); [reflexivity | exact Hrest].
Qed.

Lemma credential_precedence_witness :
  __init__ args_explicit_X world_env_Y
  = (Return (configured args_explicit_X (VStr "X")), world_env_Y).
Proof.
  assert (Hmodel : In (args_model args_explicit_X) AVAILABLE_MODELS)
    by (simpl; auto).
  exact (credential_precedence args_explicit_X world_env_Y world_env_Y
           [("api_key", VStr "S")] Hmodel eq_refl).
Defined.

(** C1.  The code at the failing input: the settings hold the empty
    string under ["api_key"], there is no override and no environment
    variable.  No source is non-empty, so the claim sends the resolution
    to the prompt, which would give ["Z"]; the constructor keeps the empty
    stored key instead and never prompts, although it skips an empty
    override and an empty environment variable and the prompt refuses an
    empty key. *)
Theorem stored_empty_key_is_returned :
  highest_priority_nonempty (args_api_key args_no_key)
    (environ world_empty_stored_key) [("api_key", VStr "")] = None /\
  fst (ConfigManager.prompt_for_api_key world_empty_stored_key) = Return "Z" /\
  __init__ args_no_key world_empty_stored_key
  = (Return (configured args_no_key (VStr "")), world_empty_stored_key) /\
  truthy (api_key (config (configured args_no_key (VStr "")))) = false.
Proof. repeat split; reflexivity. Qed.

(** A key that comes from the prompt is never empty. *)
Lemma prompt_for_api_key_nonempty (w w' : World) (k : string) :
  ConfigManager.prompt_for_api_key w = (Return k, w') -> k <> "".
Proof.
  unfold ConfigManager.prompt_for_api_key.
  unfold bind at 1 2 3. unfold display, display_full, print, input. cbn.
  destruct (stdin w) as [|line rest]; [discriminate|].
  destruct (String.eqb_spec (strip line) "") as [He|Hne]; cbn.
  - discriminate.
  - intros H Hk. apply Hne.
    unfold bind in H. cbn in H.
    destruct rest as [|line' rest']; [discriminate|].
    match type of H with
    | (let (_, _) := ?m in _) = _ => destruct m as [[[]| |] w2]
    end; try discriminate.
    injection H as Hk' _. congruence.
Qed.

(** ** Rendering a successful response *)

Lemma set_stdout_same (w : World) : set_stdout (stdout w) w = w.
Proof. destruct w; reflexivity. Qed.

Lemma set_stdout_twice (l l' : list out) (w : World) :
  set_stdout l (set_stdout l' w) = set_stdout l w.
Proof. reflexivity. Qed.

Lemma print_run (t : fstring) (w : World) :
  print t w = (Return tt, set_stdout (stdout w ++ [Line t]) w).
Proof. reflexivity. Qed.

Lemma for_each_print {A} (l : list A) (f : A -> fstring) (w : World) :
  for_each l (fun x => print (f x)) w
  = (Return tt, set_stdout (stdout w ++ map (fun x => Line (f x)) l) w).
Proof.
  revert w. induction l as [|x l IH]; intros w; simpl.
  - now rewrite app_nil_r, set_stdout_same.
  - rewrite (bind_run _ _ _ _ _ (print_run (f x) w)), IH. simpl.
    now rewrite <- app_assoc.
Qed.

Lemma header_run (glow : bool) (title : string) (w : World) :
  (if glow then glow_header title else plain_header title) w
  = (Return tt, set_stdout (stdout w ++ [header_line glow title]) w).
Proof. destruct glow; reflexivity. Qed.

Lemma show_citations_list (cs : list pyval) (glow : bool) (w : World) :
  _show_citations (VList cs) glow w
  = (Return tt, set_stdout (stdout w ++ citations_section glow cs) w).
Proof.
  unfold _show_citations.
  rewrite (bind_run _ _ _ _ _ (header_run glow "Citations" w)).
  unfold py_iter. unfold bind at 1, ret at 1.
  rewrite (bind_run _ _ _ _ _ (for_each_print cs _ _)).
  rewrite print_run. simpl. unfold citations_section.
  now rewrite <- !app_assoc.
Qed.

Lemma for_each_usage (us : list (string * pyval)) (w : World) :
  for_each us (fun '(token, value) =>
    print [Lit "- "; Str (VStr token); Lit ": "; Str value]) w
  = (Return tt,
     set_stdout
       (stdout w ++
        map (fun '(t, v) => Line [Lit "- "; Str (VStr t); Lit ": "; Str v]) us)
       w).
Proof.
  revert w. induction us as [|[t v] us IH]; intros w; simpl.
  - now rewrite app_nil_r, set_stdout_same.
  - rewrite (bind_run _ _ _ _ _ (print_run _ w)), IH. simpl.
    now rewrite <- app_assoc.
Qed.

Lemma show_usage_dict (us : list (string * pyval)) (glow : bool) (w : World) :
  _show_usage (VDict us) glow w
  = (Return tt, set_stdout (stdout w ++ usage_section glow us) w).
Proof.
  unfold _show_usage.
  rewrite (bind_run _ _ _ _ _ (header_run glow "Tokens" w)).
  unfold py_items. unfold bind at 1, ret at 1.
  pose proof (for_each_usage us
                (set_stdout (stdout w ++ [header_line glow "Tokens"]) w)) as Hloop.
  rewrite (bind_run _ _ _ _ _ Hloop).
  rewrite print_run. simpl. unfold usage_section.
  now rewrite <- !app_assoc.
Qed.

Lemma show_content_run (self : Perplexity) (c : pyval) (w : World) :
  _show_content self c w
  = (Return tt, set_stdout (stdout w ++ content_section (use_glow self) c) w).
Proof.
  unfold _show_content.
  rewrite (bind_run _ _ _ _ _ (header_run (use_glow self) "Content" w)).
  rewrite print_run. simpl. now rewrite <- app_assoc.
Qed.

Lemma dict_has_key (k : string) (d : list (string * pyval)) :
  existsb (String.eqb k) (dict_keys d)
  = match dict_lookup k d with Some _ => true | None => false end.
Proof.
  induction d as [|[k' v] d IH]; simpl; [reflexivity|].
  destruct (String.eqb k k'); [reflexivity | exact IH].
Qed.

(** The last part of the 200 branch, on a reply that has content or has
    no choices at all. *)
Lemma show_content_or_notice (self : Perplexity) (d : list (string * pyval))
    (w : World) :
  (response_content d = None -> no_choices d = true) ->
  content_part self (VDict d) w
  = (Return tt,
     set_stdout
       (stdout w ++
        match response_content d with
        | Some c => content_section (use_glow self) c
        | None => [no_content_notice]
        end) w).
Proof.
  intros Hshape. unfold content_part, py_in.
  rewrite bind_ret_l, dict_has_key.
  unfold response_content, no_choices in *. unfold py_getitem at 1 2.
  destruct (dict_lookup "choices" d) as [v|]; [|reflexivity].
  rewrite ?bind_ret_l.
  destruct (truthy v) eqn:Ht.
  - destruct v as [| | | | |[|[| | | | | |c] l]|];
      try (now specialize (Hshape eq_refl)).
    rewrite ?bind_ret_l. unfold py_getitem0. rewrite ?bind_ret_l.
    unfold py_getitem at 1.
    destruct (dict_lookup "message" c) as [[| | | | | |m]|];
      try (now specialize (Hshape eq_refl)).
    rewrite ?bind_ret_l. unfold py_getitem.
    destruct (dict_lookup "content" m) as [content|];
      [|now specialize (Hshape eq_refl)].
    rewrite ?bind_ret_l. apply show_content_run.
  - destruct v as [| | | | |[|[] l]|]; try reflexivity; simpl in Ht;
      try discriminate; reflexivity.
Qed.

(** On a 200 reply, [get_response] is the rendering of the parsed body. *)
Lemma get_response_200 (depth : nat) (self : Perplexity) (message : string)
    (w : World) (r : Response) :
  network w (length (sent w)) (build_request self message) = Answer r ->
  status_code r = 200%Z ->
  get_response depth self message w =
  (result <- response_json r ;; render self result)
    (set_sent (sent w ++ [build_request self message]) w).
Proof.
  intros Hnet Hstatus. rewrite get_response_branches.
  rewrite (bind_run _ _ _ _ _ (post_answered _ _ _ Hnet)), Hstatus.
  reflexivity.
Qed.

(** What is printed for a reply of the expected shape: a mapping with a
    list under ["citations"] and a mapping under ["usage"] (each when
    present), and with content or no choices. *)
Lemma sections_exact (depth : nat) (self : Perplexity) (message : string)
    (w : World) (r : Response) (d : list (string * pyval))
    (cs : option (list pyval)) (us : option (list (string * pyval))) :
  network w (length (sent w)) (build_request self message) = Answer r ->
  status_code r = 200%Z ->
  json r = inl (VDict d) ->
  dict_lookup "citations" d = option_map VList cs ->
  dict_lookup "usage" d = option_map VDict us ->
  (response_content d = None -> no_choices d = true) ->
  get_response depth self message w =
  (Return tt,
   set_stdout
     (stdout w ++
      (match cs with
       | Some l =>
           if citations (config self)
           then citations_section (use_glow self) l else []
       | None => []
       end) ++
      (match us with
       | Some l =>
           if usage (config self) then usage_section (use_glow self) l else []
       | None => []
       end) ++
      (match response_content d with
       | Some c => content_section (use_glow self) c
       | None => [no_content_notice]
       end))
     (set_sent (sent w ++ [build_request self message]) w)).
Proof.
  intros Hnet Hstatus Hjson Hcs Hus Hshape.
  rewrite (get_response_200 depth self message w r Hnet Hstatus).
  unfold response_json. rewrite Hjson, bind_ret_l. unfold render.
  set (w1 := set_sent (sent w ++ [build_request self message]) w).
  set (C := match cs with
            | Some l => if citations (config self)
                        then citations_section (use_glow self) l else []
            | None => []
            end).
  set (U := match us with
            | Some l => if usage (config self)
                        then usage_section (use_glow self) l else []
            | None => []
            end).
  bind_step (Return tt, set_stdout (stdout w1 ++ C) w1).
  { unfold C, citations_part. destruct (citations (config self)).
    - unfold py_in. rewrite bind_ret_l, dict_has_key.
      unfold py_getitem. rewrite Hcs.
      destruct cs as [l|]; cbn [option_map]; rewrite ?bind_ret_l.
      + apply show_citations_list.
      + now rewrite app_nil_r, set_stdout_same.
    - destruct cs; now rewrite app_nil_r, set_stdout_same. }
  bind_step (Return tt, set_stdout (stdout w1 ++ C ++ U) w1).
  { unfold U, usage_part. destruct (usage (config self)).
    - unfold py_in. rewrite bind_ret_l, dict_has_key.
      unfold py_getitem. rewrite Hus.
      destruct us as [l|]; cbn [option_map]; rewrite ?bind_ret_l.
      + rewrite show_usage_dict. simpl.
        now rewrite <- app_assoc.
      + now rewrite !app_nil_r.
    - destruct us; now rewrite !app_nil_r. }
  rewrite (show_content_or_notice self d _ Hshape). simpl.
  now rewrite <- !app_assoc.
Qed.

(** What two computations in sequence print: what the first prints, then
    what the second prints, if it is reached. *)
Lemma bind_printed {A B} (m : M A) (k : A -> M B) (w : World)
    (R1 R2 : list out -> Prop) :
  (exists l, stdout (snd (m w)) = stdout w ++ l /\ R1 l) ->
  (forall a w1, exists l, stdout (snd (k a w1)) = stdout w1 ++ l /\ R2 l) ->
  R2 [] ->
  exists l1 l2,
    stdout (snd (bind m k w)) = stdout w ++ l1 ++ l2 /\ R1 l1 /\ R2 l2.
Proof.
  intros (l1 & H1 & HR1) Hk Hnil. unfold bind.
  destruct (m w) as [[a|e|c] w1]; simpl in *.
  - destruct (Hk a w1) as (l2 & H2 & HR2). exists l1, l2.
    rewrite H2, H1, app_assoc. auto.
  - exists l1, []. rewrite app_nil_r. auto.
  - exists l1, []. rewrite app_nil_r. auto.
Qed.

Lemma printed_nothing {A} (m : M A) (w : World) (R : list out -> Prop) :
  snd (m w) = w -> R [] ->
  exists l, stdout (snd (m w)) = stdout w ++ l /\ R l.
Proof. intros -> HR. exists []. now rewrite app_nil_r. Qed.

(** [_show_citations] prints the header, then items and a blank line, or
    stops after the header when its argument cannot be iterated. *)
Lemma show_citations_prints (v : pyval) (glow : bool) (w : World) :
  exists l,
    stdout (snd (_show_citations v glow w)) = stdout w ++ l /\
    section_of glow "Citations" l.
Proof.
  unfold _show_citations.
  rewrite (bind_run _ _ _ _ _ (header_run glow "Citations" w)).
  assert (Hiter : (exists l', py_iter v = ret l') \/
                  (exists e, py_iter v = raise e))
    by (destruct v; simpl; eauto).
  destruct Hiter as [[l' ->]|[e ->]].
  - rewrite bind_ret_l, (bind_run _ _ _ _ _ (for_each_print l' _ _)), print_run.
    simpl.
    exists (header_line glow "Citations"
            :: map (fun e => Line [Lit "- "; Str e]) l' ++ [Line []]).
    split; [now rewrite <- !app_assoc|].
    eexists. split; [reflexivity|]. apply Forall_app. split.
    + apply Forall_forall. intros o Ho. apply in_map_iff in Ho.
      destruct Ho as (x & <- & _). left. eexists. reflexivity.
    + constructor; [now right | constructor].
  - exists [header_line glow "Citations"]. split; [reflexivity|].
    exists []. split; [reflexivity | constructor].
Qed.

Lemma show_usage_prints (v : pyval) (glow : bool) (w : World) :
  exists l,
    stdout (snd (_show_usage v glow w)) = stdout w ++ l /\
    section_of glow "Tokens" l.
Proof.
  unfold _show_usage.
  rewrite (bind_run _ _ _ _ _ (header_run glow "Tokens" w)).
  assert (Hitems : (exists l', py_items v = ret l') \/
                   (exists e, py_items v = raise e))
    by (destruct v; simpl; eauto).
  destruct Hitems as [[l' ->]|[e ->]].
  - rewrite bind_ret_l, (bind_run _ _ _ _ _ (for_each_usage l' _)), print_run.
    simpl.
    exists (header_line glow "Tokens"
            :: map (fun '(t, x) => Line [Lit "- "; Str (VStr t); Lit ": "; Str x])
                   l' ++ [Line []]).
    split; [now rewrite <- !app_assoc|].
    eexists. split; [reflexivity|]. apply Forall_app. split.
    + apply Forall_forall. intros o Ho. apply in_map_iff in Ho.
      destruct Ho as ([t x] & <- & _). left. eexists. reflexivity.
    + constructor; [now right | constructor].
  - exists [header_line glow "Tokens"]. split; [reflexivity|].
    exists []. split; [reflexivity | constructor].
Qed.

Lemma citations_part_prints (self : Perplexity) (result : pyval) (w : World) :
  exists l,
    stdout (snd (citations_part self result w)) = stdout w ++ l /\
    citations_printed self result l.
Proof.
  unfold citations_part, citations_printed.
  destruct (citations (config self)) eqn:Hflag;
    [|apply printed_nothing; [reflexivity | now left]].
  destruct result as [| | | |s|l|d]; unfold py_in, py_getitem;
    rewrite ?bind_ret_l;
    try (apply printed_nothing; [reflexivity | now left]).
  - destruct (str_contains "citations" s);
      apply printed_nothing; first [reflexivity | now left].
  - destruct (existsb (is_VStr "citations") l);
      apply printed_nothing; first [reflexivity | now left].
  - rewrite dict_has_key.
    destruct (dict_lookup "citations" d) as [v|] eqn:Hv;
      [|apply printed_nothing; [reflexivity | now left]].
    rewrite bind_ret_l.
    destruct (show_citations_prints v (use_glow self) w) as (l & Hl & Hs).
    exists l. split; [exact Hl|]. right. repeat split; [|exact Hs].
    now exists d, v.
Qed.

Lemma usage_part_prints (self : Perplexity) (result : pyval) (w : World) :
  exists l,
    stdout (snd (usage_part self result w)) = stdout w ++ l /\
    usage_printed self result l.
Proof.
  unfold usage_part, usage_printed.
  destruct (usage (config self)) eqn:Hflag;
    [|apply printed_nothing; [reflexivity | now left]].
  destruct result as [| | | |s|l|d]; unfold py_in, py_getitem;
    rewrite ?bind_ret_l;
    try (apply printed_nothing; [reflexivity | now left]).
  - destruct (str_contains "usage" s);
      apply printed_nothing; first [reflexivity | now left].
  - destruct (existsb (is_VStr "usage") l);
      apply printed_nothing; first [reflexivity | now left].
  - rewrite dict_has_key.
    destruct (dict_lookup "usage" d) as [v|] eqn:Hv;
      [|apply printed_nothing; [reflexivity | now left]].
    rewrite bind_ret_l.
    destruct (show_usage_prints v (use_glow self) w) as (l & Hl & Hs).
    exists l. split; [exact Hl|]. right. repeat split; [|exact Hs].
    now exists d, v.
Qed.


(** When ["choices"] is there and true but the path
    [choices[0]["message"]["content"]] is not, the lookup raises: neither
    the content nor the notice is printed. *)
Lemma show_content_raises (self : Perplexity) (d : list (string * pyval))
    (w : World) :
  no_choices d = false ->
  response_content d = None ->
  exists e,
    content_part self (VDict d) w = (Raise e, w).
Proof.
  unfold no_choices, response_content, content_part, py_in.
  rewrite bind_ret_l, dict_has_key. unfold py_getitem at 1 2.
  destruct (dict_lookup "choices" d) as [v|]; [|discriminate].
  rewrite ?bind_ret_l. intros Ht Hc.
  apply negb_false_iff in Ht. rewrite Ht.
  destruct v as [| | | |s|[|x l]|]; try discriminate;
    try (eexists; reflexivity).
  - destruct s; [discriminate | eexists; reflexivity].
  - destruct x as [| | | | | |c]; try (eexists; reflexivity).
    unfold py_getitem0. rewrite bind_ret_l. unfold py_getitem at 1.
    destruct (dict_lookup "message" c) as [[| | | | | |m]|];
      try (eexists; reflexivity).
    rewrite bind_ret_l. unfold py_getitem.
    destruct (dict_lookup "content" m); [discriminate | eexists; reflexivity].
Qed.

Lemma content_part_prints (self : Perplexity) (result : pyval) (w : World) :
  exists l,
    stdout (snd (content_part self result w)) = stdout w ++ l /\
    content_printed self l.
Proof.
  unfold content_printed.
  destruct result as [| | | |s|l|d];
    try (apply printed_nothing; [reflexivity | now left]).
  - unfold content_part, py_in, py_getitem. rewrite bind_ret_l.
    destruct (str_contains "choices" s).
    + apply printed_nothing; [reflexivity | now left].
    + exists [no_content_notice]. split; [reflexivity | right; now left].
  - unfold content_part, py_in, py_getitem. rewrite bind_ret_l.
    destruct (existsb (is_VStr "choices") l).
    + apply printed_nothing; [reflexivity | now left].
    + exists [no_content_notice]. split; [reflexivity | right; now left].
  - destruct (response_content d) as [c|] eqn:Hc.
    + assert (Hshape : response_content d = None -> no_choices d = true)
        by (rewrite Hc; discriminate).
      rewrite (show_content_or_notice self d w Hshape), Hc. simpl.
      eexists. split; [reflexivity|]. right. right. now exists c.
    + destruct (no_choices d) eqn:Hn.
      * rewrite (show_content_or_notice self d w (fun _ => Hn)), Hc. simpl.
        eexists. split; [reflexivity|]. right. now left.
      * destruct (show_content_raises self d w Hn Hc) as (e & ->).
        apply printed_nothing; [reflexivity | now left].
Qed.

(** The rendering prints its three parts in their order, whatever the
    reply holds. *)
Lemma render_prints (self : Perplexity) (result : pyval) (w : World) :
  exists C U K,
    stdout (snd (render self result w)) = stdout w ++ C ++ U ++ K /\
    citations_printed self result C /\
    usage_printed self result U /\
    content_printed self K.
Proof.
  unfold render.
  destruct (bind_printed (citations_part self result)
              (fun _ => usage_part self result ;; content_part self result) w
              (citations_printed self result)
              (fun l => exists U K, l = U ++ K /\
                                    usage_printed self result U /\
                                    content_printed self K))
    as (C & UK & H & HC & (U & K & -> & HU & HK)).
  - apply citations_part_prints.
  - intros _ w1.
    destruct (bind_printed (usage_part self result)
                (fun _ => content_part self result) w1
                (usage_printed self result) (content_printed self))
      as (U & K & H & HU & HK).
    + apply usage_part_prints.
    + intros _ w2. apply content_part_prints.
    + now left.
    + exists (U ++ K). split; [exact H|]. now exists U, K.
  - exists [], []. repeat split; now left.
  - now exists C, U, K.
Qed.

(** C5.  For every 200 reply with a JSON body, what [get_response] prints
    is a citations part, then a usage part, then a content part.  The
    citations part is empty or is a section under the citations header,
    and it is a section only when the flag is set and the reply has a
    ["citations"] field; likewise the usage part; the content part is the
    content under its header, the notice, or nothing.  For a reply of the
    expected shape (a list of citations, a mapping of usage, content or no
    choices) the three parts are the full sections, each there exactly when
    its flag is set and its field present. *)
Theorem sections_in_order (depth : nat) (self : Perplexity) (message : string)
    (w : World) (r : Response) (result : pyval) :
  network w (length (sent w)) (build_request self message) = Answer r ->
  status_code r = 200%Z ->
  json r = inl result ->
  (exists C U K,
      stdout (snd (get_response depth self message w)) = stdout w ++ C ++ U ++ K /\
      citations_printed self result C /\
      usage_printed self result U /\
      content_printed self K) /\
  (forall d cs us,
      result = VDict d ->
      dict_lookup "citations" d = option_map VList cs ->
      dict_lookup "usage" d = option_map VDict us ->
      (response_content d = None -> no_choices d = true) ->
      fst (get_response depth self message w) = Return tt /\
      stdout (snd (get_response depth self message w)) =
      stdout w ++
      (match cs with
       | Some l =>
           if citations (config self)
           then citations_section (use_glow self) l else []
       | None => []
       end) ++
      (match us with
       | Some l =>
           if usage (config self) then usage_section (use_glow self) l else []
       | None => []
       end) ++
      (match response_content d with
       | Some c => content_section (use_glow self) c
       | None => [no_content_notice]
       end)).
Proof.
  intros Hnet Hstatus Hjson. split.
  - rewrite (get_response_200 depth self message w r Hnet Hstatus).
    unfold response_json. rewrite Hjson, bind_ret_l.
    apply (render_prints self result
             (set_sent (sent w ++ [build_request self message]) w)).
  - intros d cs us -> Hcs Hus Hshape.
    rewrite (sections_exact depth self message w r d cs us
               Hnet Hstatus Hjson Hcs Hus Hshape).
    split; reflexivity.
Qed.

Lemma sections_in_order_witness :
  stdout (snd (get_response 0 self_with_flags "hi"
                 (world_answering (VDict reply_full))))
  = citations_section false [VStr "a"; VStr "b"]
    ++ usage_section false [("total", VInt 5)]
    ++ content_section false (VStr "hi").
Proof.
  destruct (sections_in_order 0 self_with_flags "hi"
              (world_answering (VDict reply_full))
              (mkResponse 200 "" (inl (VDict reply_full))) (VDict reply_full)
              eq_refl eq_refl eq_refl) as [_ Hexact].
  assert (Hshape : response_content reply_full = None ->
                   no_choices reply_full = true) by discriminate.
  destruct (Hexact reply_full (Some [VStr "a"; VStr "b"])
              (Some [("total", VInt 5)]) eq_refl eq_refl eq_refl Hshape)
    as [_ Hout].
  exact Hout.
Defined.

(** C3, where the code departs from it.  A 200 reply whose first choice
    has a message without ["content"] makes [get_response] raise
    [KeyError('content')] after the request; [main] reports the exception
    and exits with status 1; the notice is not printed. *)
Theorem missing_content_raises :
  get_response 0 (configured args_explicit_X (VStr "X")) "hello"
    (world_answering reply_without_content)
  = (Raise (KeyError (VStr "content")),
     set_sent [build_request (configured args_explicit_X (VStr "X")) "hello"]
       (world_answering reply_without_content)) /\
  fst (main 0 args_explicit_X (world_answering reply_without_content))
  = SysExit 1 /\
  stdout (snd (main 0 args_explicit_X (world_answering reply_without_content)))
  = [error_line (KeyError (VStr "content"))] /\
  ~ In no_content_notice
       (stdout (snd (main 0 args_explicit_X
                       (world_answering reply_without_content)))).
Proof.
  repeat split; try reflexivity.
  simpl. intros [H|[]]. discriminate H.
Qed.

(** ** What a call leaves alone *)

(** A relation [P] between the world before and after a call that holds
    across every effect except posting a request is kept by every function
    of the program that posts none. *)
Section Frame.

Variable P : World -> World -> Prop.
Hypothesis P_refl : forall w, P w w.
Hypothesis P_trans : forall w1 w2 w3, P w1 w2 -> P w2 w3 -> P w1 w3.
Hypothesis P_stdout : forall l w, P w (set_stdout l w).
Hypothesis P_read_line :
  forall line rest w, stdin w = line :: rest -> P w (set_stdin rest w).
Hypothesis P_log : forall l w, P w (set_error_log l w).
Hypothesis P_file : forall f w, P w (set_config_file f w).
Hypothesis P_mode : forall m w, P w (set_config_mode m w).

Lemma preserves_ret {A} (a : A) : preserves P (ret a).
Proof. intros w. apply P_refl. Qed.

Lemma preserves_raise {A} (e : exn) : preserves P (@raise A e).
Proof. intros w. apply P_refl. Qed.

Lemma preserves_exit {A} (c : Z) : preserves P (@sys_exit A c).
Proof. intros w. apply P_refl. Qed.

Lemma preserves_bind {A B} (m : M A) (k : A -> M B) :
  preserves P m -> (forall a, preserves P (k a)) -> preserves P (bind m k).
Proof.
  intros Hm Hk w. unfold bind. specialize (Hm w).
  destruct (m w) as [[a|e|c] w1]; simpl in *; [|exact Hm|exact Hm].
  eapply P_trans; [exact Hm | apply Hk].
Qed.

Lemma preserves_try {A} (m : M A) (h : exn -> option (M A)) :
  preserves P m -> (forall e k, h e = Some k -> preserves P k) ->
  preserves P (try_except m h).
Proof.
  intros Hm Hh w. unfold try_except. specialize (Hm w).
  destruct (m w) as [[a|e|c] w1]; simpl in *; [exact Hm| |exact Hm].
  destruct (h e) as [k|] eqn:E; [|exact Hm].
  eapply P_trans; [exact Hm | now apply (Hh e k)].
Qed.

Lemma preserves_for_each {A} (l : list A) (body : A -> M unit) :
  (forall x, preserves P (body x)) -> preserves P (for_each l body).
Proof.
  intros Hb. induction l as [|x l IH]; simpl.
  - apply preserves_ret.
  - apply preserves_bind; [apply Hb | intros _; exact IH].
Qed.

Lemma preserves_print (t : fstring) : preserves P (print t).
Proof. intros w. apply P_stdout. Qed.

Lemma preserves_input (prompt : string) : preserves P (input prompt).
Proof.
  intros w. unfold input.
  destruct (stdin w) as [|line rest] eqn:E; simpl.
  - apply P_stdout.
  - eapply P_trans; [apply P_stdout | apply (P_read_line line); exact E].
Qed.

Lemma preserves_logger_error (t : fstring) : preserves P (logger_error t).
Proof. intros w. apply P_log. Qed.

Lemma preserves_display_full (t : fstring) (c : color) (b : bool) (bg : bg_color) :
  preserves P (display_full t c b bg).
Proof. unfold display_full. destruct b; apply preserves_print. Qed.

Lemma preserves_display (t : fstring) (c : color) : preserves P (display t c).
Proof. apply preserves_display_full. Qed.

Lemma preserves_header (glow : bool) (title : string) :
  preserves P (if glow then glow_header title else plain_header title).
Proof.
  destruct glow; [apply preserves_print | apply preserves_display_full].
Qed.

Lemma preserves_load_config : preserves P ConfigManager.load_config.
Proof.
  intros w. rewrite load_config_cases.
  destruct (exists_error w); [apply P_refl|].
  destruct (config_file w); simpl; auto.
Qed.

Lemma preserves_save_config (c : pyval) : preserves P (ConfigManager.save_config c).
Proof.
  intros w. rewrite save_config_cases.
  destruct (mkdir_error w); [apply P_refl|].
  destruct (open_w_error w); simpl; [apply P_log|].
  destruct (dump_error w) as [[e damaged]|]; simpl;
    [eapply P_trans; [apply P_file | apply P_log]|].
  destruct (chmod_error w); simpl;
    [eapply P_trans; [apply P_file | apply P_log]|].
  eapply P_trans; [apply P_file | apply P_mode].
Qed.

Lemma preserves_py_setitem (v : pyval) (k : string) (x : pyval) :
  preserves P (py_setitem v k x).
Proof. destruct v; first [apply preserves_ret | apply preserves_raise]. Qed.

Lemma preserves_save_api_key (key : string) :
  preserves P (ConfigManager.save_api_key key).
Proof.
  unfold ConfigManager.save_api_key.
  apply preserves_bind; [apply preserves_load_config | intros c].
  apply preserves_bind; [apply preserves_py_setitem | intros c'].
  apply preserves_save_config.
Qed.

Lemma preserves_prompt_for_api_key : preserves P ConfigManager.prompt_for_api_key.
Proof.
  unfold ConfigManager.prompt_for_api_key.
  apply preserves_bind; [apply preserves_display | intros _].
  apply preserves_bind; [apply preserves_display | intros _].
  apply preserves_bind; [apply preserves_input | intros line].
  destruct (negb (truthy (VStr (strip line)))).
  - apply preserves_bind; [apply preserves_display | intros _].
    apply preserves_exit.
  - apply preserves_bind; [apply preserves_input | intros line'].
    apply preserves_bind; [|intros _; apply preserves_ret].
    destruct (String.eqb (lower (strip line')) "y"); [|apply preserves_ret].
    apply preserves_bind; [apply preserves_save_api_key | intros _].
    apply preserves_display.
Qed.

Lemma preserves_show_citations (v : pyval) (glow : bool) :
  preserves P (_show_citations v glow).
Proof.
  unfold _show_citations.
  apply preserves_bind; [apply preserves_header | intros _].
  apply preserves_bind;
    [destruct v; first [apply preserves_ret | apply preserves_raise] | intros l].
  apply preserves_bind; [|intros _; apply preserves_print].
  apply preserves_for_each. intros x. apply preserves_print.
Qed.

Lemma preserves_show_usage (v : pyval) (glow : bool) :
  preserves P (_show_usage v glow).
Proof.
  unfold _show_usage.
  apply preserves_bind; [apply preserves_header | intros _].
  apply preserves_bind;
    [destruct v; first [apply preserves_ret | apply preserves_raise] | intros l].
  apply preserves_bind; [|intros _; apply preserves_print].
  apply preserves_for_each. intros [t x]. apply preserves_print.
Qed.

Lemma preserves_show_content (self : Perplexity) (v : pyval) :
  preserves P (_show_content self v).
Proof.
  unfold _show_content.
  apply preserves_bind; [apply preserves_header | intros _].
  apply preserves_print.
Qed.

Lemma preserves_py_in (k : string) (v : pyval) : preserves P (py_in k v).
Proof. destruct v; first [apply preserves_ret | apply preserves_raise]. Qed.

Lemma preserves_py_getitem (v : pyval) (k : string) : preserves P (py_getitem v k).
Proof.
  destruct v; try apply preserves_raise. simpl.
  destruct (dict_lookup k d); [apply preserves_ret | apply preserves_raise].
Qed.

Lemma preserves_py_getitem0 (v : pyval) : preserves P (py_getitem0 v).
Proof.
  destruct v as [| | | |[|]|[|]|];
    first [apply preserves_ret | apply preserves_raise].
Qed.

Lemma preserves_render (self : Perplexity) (result : pyval) :
  preserves P (render self result).
Proof.
  unfold render, citations_part, usage_part, content_part.
  apply preserves_bind; [|intros _].
  { destruct (citations (config self)); [|apply preserves_ret].
    apply preserves_bind; [apply preserves_py_in | intros [|]];
      [|apply preserves_ret].
    apply preserves_bind; [apply preserves_py_getitem | intros c].
    apply preserves_show_citations. }
  apply preserves_bind; [|intros _].
  { destruct (usage (config self)); [|apply preserves_ret].
    apply preserves_bind; [apply preserves_py_in | intros [|]];
      [|apply preserves_ret].
    apply preserves_bind; [apply preserves_py_getitem | intros c].
    apply preserves_show_usage. }
  apply preserves_bind; [apply preserves_py_in | intros present].
  apply preserves_bind; [|intros [|]].
  { destruct present; [|apply preserves_ret].
    apply preserves_bind; [apply preserves_py_getitem | intros c].
    apply preserves_ret. }
  - apply preserves_bind; [apply preserves_py_getitem | intros c].
    apply preserves_bind; [apply preserves_py_getitem0 | intros f].
    apply preserves_bind; [apply preserves_py_getitem | intros m].
    apply preserves_bind; [apply preserves_py_getitem | intros x].
    apply preserves_show_content.
  - apply preserves_display.
Qed.

End Frame.

(** ** Retrying after a 401 *)

Lemma quiet_refl (w : World) : quiet w w.
Proof. repeat split; auto. Qed.

Lemma quiet_trans (w1 w2 w3 : World) : quiet w1 w2 -> quiet w2 w3 -> quiet w1 w3.
Proof.
  intros (Hs & Hn & Hc) (Hs' & Hn' & Hc'). repeat split; try congruence. lia.
Qed.

Lemma quiet_read_line (line : string) (rest : list string) (w : World) :
  stdin w = line :: rest -> quiet w (set_stdin rest w).
Proof.
  intros E. repeat split. simpl. rewrite E. unfold confirmations. simpl.
  destruct (confirms line); simpl; lia.
Qed.

Lemma quiet_prompt (w : World) :
  quiet w (snd (ConfigManager.prompt_for_api_key w)).
Proof.
  apply (preserves_prompt_for_api_key quiet quiet_refl quiet_trans);
    first [exact quiet_read_line | intros; repeat split; simpl; auto].
Qed.

Lemma quiet_render (self : Perplexity) (result : pyval) (w : World) :
  quiet w (snd (render self result w)).
Proof.
  apply (preserves_render quiet quiet_refl quiet_trans).
  intros; repeat split; simpl; auto.
Qed.

Lemma post_failed (w : World) (req : Request) (msg : string) :
  network w (length (sent w)) req = Failure msg ->
  try_except (requests_post req) network_error_handler w
  = (SysExit 1,
     set_stdout
       (stdout w ++
        [Line [Lit (ESC ++ "[")%string; Lit "40"; Lit ";"; Lit "91m"; Lit " ";
               Lit "Network error: "; StrExn (RequestException msg);
               Lit (ESC ++ "[0m")%string]])
       (set_sent (sent w ++ [req]) w)).
Proof.
  intros Hnet. unfold try_except, requests_post. rewrite Hnet. reflexivity.
Qed.


(** Every call posts its request; the requests that follow are retries,
    at most one per confirmation read and one per level of nesting. *)
Lemma requests_posted (depth : nat) :
  forall (self : Perplexity) (message : string) (w w' : World)
         (o : outcome unit),
    get_response depth self message w = (o, w') ->
    exists retries,
      sent w' = sent w ++ build_request self message :: retries /\
      length retries <= confirmations (stdin w) /\
      length retries <= depth.
Proof.
  induction depth as [|depth IH]; intros self message w w' o Hrun;
    rewrite get_response_branches in Hrun;
    (destruct (network w (length (sent w)) (build_request self message))
       as [r|err] eqn:Hnet;
     [ rewrite (bind_run _ _ _ _ _ (post_answered _ _ _ Hnet)) in Hrun
     | rewrite (bind_run _ _ _ _ _ (post_failed _ _ _ Hnet)) in Hrun;
       injection Hrun as <- <-; exists []; simpl; repeat split; lia ]);
    (destruct (Z.eqb (status_code r) 200);
     [ match type of Hrun with
       | bind ?m ?k ?w1 = _ => assert (Hq : quiet w1 (snd (bind m k w1)))
       end;
       [ apply (preserves_bind quiet quiet_trans);
         [ intros w0; unfold response_json; destruct (json r); apply quiet_refl
         | intros result w0; apply quiet_render ]
       | rewrite Hrun in Hq; destruct Hq as (Hs & _ & _); simpl in Hs;
         exists []; rewrite Hs; simpl; repeat split; lia ]
     | ]);
    (destruct (Z.eqb (status_code r) 401);
     [ | injection Hrun as <- <-; exists []; simpl; repeat split; lia ]);
    unfold bind at 1 2, display, display_full, print, input in Hrun;
    simpl in Hrun;
    (destruct (stdin w) as [|line rest];
     [ injection Hrun as <- <-; exists []; simpl; repeat split; lia | ]);
    unfold confirmations; simpl;
    (destruct (confirms line);
     [ | injection Hrun as <- <-; exists []; simpl; repeat split; lia ]);
    match type of Hrun with
    | bind ConfigManager.prompt_for_api_key ?k ?w1 = _ =>
        pose proof (quiet_prompt w1) as (Hs & _ & Hc);
        unfold bind in Hrun;
        destruct (ConfigManager.prompt_for_api_key w1) as [[key|e|c] w2]
    end;
    simpl in Hs, Hc;
    try (injection Hrun as <- <-; exists []; rewrite Hs; simpl;
         repeat split; lia).
  apply IH in Hrun. destruct Hrun as (retries & Hsent & Hconf & Hdepth).
  exists (build_request
            (mkPerplexity (set_api_key (VStr key) (config self)) (use_glow self))
            message :: retries).
  rewrite Hsent, Hs, <- app_assoc. unfold confirmations in *. simpl.
  repeat split; lia.
Qed.

(** A confirmed retry is the same call again, from the world the prompt
    left, with the key just typed in place of the rejected one. *)
Lemma retry_with_new_key (depth : nat) (self : Perplexity) (message : string)
    (w w2 : World) (r : Response) (line key : string) (rest : list string) :
  network w (length (sent w)) (build_request self message) = Answer r ->
  status_code r = 401%Z ->
  stdin w = line :: rest ->
  confirms line = true ->
  ConfigManager.prompt_for_api_key
    (set_stdin rest
       (set_stdout (stdout w ++ [invalid_key_line; retry_prompt])
          (set_sent (sent w ++ [build_request self message]) w)))
  = (Return key, w2) ->
  get_response (S depth) self message w
  = get_response depth
      (mkPerplexity (set_api_key (VStr key) (config self)) (use_glow self))
      message w2.
Proof.
  intros Hnet Hstatus Hin Hyes Hprompt.
  rewrite (get_response_branches (S depth)).
  rewrite (bind_run _ _ _ _ _ (post_answered _ _ _ Hnet)), Hstatus.
  change (401 =? 200)%Z with false. change (401 =? 401)%Z with true.
  cbv iota.
  unfold bind at 1 2, display, display_full, print, input. simpl.
  rewrite Hin, Hyes.
  match goal with
  | |- bind _ _ ?w1 = _ =>
      replace w1 with
        (set_stdin rest
           (set_stdout (stdout w ++ [invalid_key_line; retry_prompt])
              (set_sent (sent w ++ [build_request self message]) w)))
  end.
  - now rewrite (bind_run _ _ _ _ _ Hprompt).
  - unfold set_stdin, set_stdout, set_sent. simpl.
    now rewrite <- app_assoc.
Qed.

Lemma retries_unbounded (n : nat) :
  forall (self : Perplexity) (message : string) (w : World),
    network w = always_401 ->
    stdin w = insisting n ->
    exists w',
      get_response n self message w = (SysExit 1, w') /\
      length (sent w') = length (sent w) + 1 + n.
Proof.
  induction n as [|n IH]; intros self message w Hnet Hin.
  - assert (Hno : lower (strip "n") <> "y") by (vm_compute; discriminate).
    assert (Hreply : network w (length (sent w)) (build_request self message)
                     = Answer (mkResponse 401 "unauthorized" (inr "Expecting value")))
      by now rewrite Hnet.
    eexists. split.
    + exact (get_response_declined 0 self message w _ "n" [] Hreply eq_refl
               Hin Hno).
    + simpl. rewrite length_app. simpl. lia.
  - assert (Hreply : network w (length (sent w)) (build_request self message)
                     = Answer (mkResponse 401 "unauthorized" (inr "Expecting value")))
      by now rewrite Hnet.
    set (self' := mkPerplexity (set_api_key (VStr "another-key") (config self))
                               (use_glow self)).
    set (w1 := set_stdin ("another-key" :: "n" :: insisting n)
                 (set_stdout (stdout w ++ [invalid_key_line; retry_prompt])
                    (set_sent (sent w ++ [build_request self message]) w))).
    destruct (ConfigManager.prompt_for_api_key w1) as [o w2] eqn:Hprompt.
    assert (Hw2 : o = Return "another-key" /\ network w2 = always_401 /\
                  stdin w2 = insisting n /\
                  sent w2 = sent w ++ [build_request self message]).
    { unfold ConfigManager.prompt_for_api_key, bind, display, display_full,
        print, input in Hprompt.
      simpl in Hprompt. injection Hprompt as <- <-. simpl. auto. }
    destruct Hw2 as (-> & Hnet2 & Hin2 & Hsent2).
    destruct (IH self' message w2 Hnet2 Hin2) as (w' & Hrun & Hlen).
    exists w'. split.
    + rewrite (retry_with_new_key n self message w w2 _ "y" "another-key"
                 ("another-key" :: "n" :: insisting n) Hreply eq_refl Hin
                 eq_refl Hprompt).
      exact Hrun.
    + rewrite Hlen, Hsent2, length_app. simpl. lia.
Qed.

(** C2, as the code has it.  Each confirmed re-entry after a 401 re-issues
    the request with the key just typed; nothing caps the retries at one:
    the requests of a call are the first one followed by at most one retry
    per confirmation read from the user (and per level of nesting the
    interpreter admits), and [n] confirmations against a server that keeps
    answering 401 do give [n] retries. *)
Theorem retries_follow_confirmations :
  (forall depth self message w w' o,
      get_response depth self message w = (o, w') ->
      exists retries,
        sent w' = sent w ++ build_request self message :: retries /\
        length retries <= confirmations (stdin w) /\
        length retries <= depth)
  /\
  (forall depth self message w w2 r line key rest,
      network w (length (sent w)) (build_request self message) = Answer r ->
      status_code r = 401%Z ->
      stdin w = line :: rest ->
      confirms line = true ->
      ConfigManager.prompt_for_api_key
        (set_stdin rest
           (set_stdout (stdout w ++ [invalid_key_line; retry_prompt])
              (set_sent (sent w ++ [build_request self message]) w)))
      = (Return key, w2) ->
      let self' := mkPerplexity (set_api_key (VStr key) (config self))
                                (use_glow self) in
      get_response (S depth) self message w
        = get_response depth self' message w2 /\
      sent w2 = sent w ++ [build_request self message] /\
      req_authorization (build_request self' message)
        = [Lit "Bearer "; Str (VStr key)])
  /\
  (forall n self message w,
      network w = always_401 ->
      stdin w = insisting n ->
      exists w',
        get_response n self message w = (SysExit 1, w') /\
        length (sent w') = length (sent w) + 1 + n).
Proof.
  split; [|split].
  - intros depth. apply requests_posted.
  - intros depth self message w w2 r line key rest Hnet Hstatus Hin Hyes
           Hprompt self'.
    split; [|split].
    + now apply (retry_with_new_key depth self message w w2 r line key rest).
    + pose proof (quiet_prompt
        (set_stdin rest
           (set_stdout (stdout w ++ [invalid_key_line; retry_prompt])
              (set_sent (sent w ++ [build_request self message]) w))))
        as (Hs & _).
      rewrite Hprompt in Hs. exact Hs.
    + reflexivity.
  - intros n. apply retries_unbounded.
Qed.

(** C2, as stated, fails: two confirmations against a server that keeps
    answering 401 give two retries after the first request, each with the
    key typed before it. *)
Lemma two_retries_after_two_confirmations :
  fst (main 1000 args_explicit_X
         (world_rejecting ["y"; "k1"; "n"; "y"; "k2"; "n"; "n"]))
  = SysExit 1 /\
  map req_authorization
      (sent (snd (main 1000 args_explicit_X
                    (world_rejecting ["y"; "k1"; "n"; "y"; "k2"; "n"; "n"]))))
  = [[Lit "Bearer "; Str (VStr "X")];
     [Lit "Bearer "; Str (VStr "k1")];
     [Lit "Bearer "; Str (VStr "k2")]].
Proof. split; vm_compute; reflexivity. Qed.

(** ** The two header styles *)

Lemma outputs_agree_refl (l : list out) : outputs_agree l l.
Proof. induction l; constructor; [now left | assumption]. Qed.

Lemma alike_refl (w : World) : alike w w.
Proof.
  exists (stdout w). split; [now rewrite set_stdout_same | apply outputs_agree_refl].
Qed.

Lemma outputs_agree_line (g p : list out) (x : out) :
  outputs_agree g p -> outputs_agree (g ++ [x]) (p ++ [x]).
Proof.
  intros H. apply Forall2_app; [exact H|]. constructor; [now left | constructor].
Qed.

Lemma outputs_agree_header (g p : list out) (title : string) :
  outputs_agree g p ->
  outputs_agree (g ++ [header_line true title]) (p ++ [header_line false title]).
Proof.
  intros H. apply Forall2_app; [exact H|].
  constructor; [right; now exists title | constructor].
Qed.

Section Alike.

Context {A B : Type}.

Lemma alikeM_ret (a : A) : alikeM (ret a) (ret a).
Proof. intros wg wp H. now split. Qed.

Lemma alikeM_raise (e : exn) : alikeM (@raise A e) (raise e).
Proof. intros wg wp H. now split. Qed.

Lemma alikeM_exit (c : Z) : alikeM (@sys_exit A c) (sys_exit c).
Proof. intros wg wp H. now split. Qed.

Lemma alikeM_bind (mg mp : M A) (kg kp : A -> M B) :
  alikeM mg mp -> (forall a, alikeM (kg a) (kp a)) ->
  alikeM (bind mg kg) (bind mp kp).
Proof.
  intros Hm Hk wg wp H. unfold bind. destruct (Hm wg wp H) as [Ho Hw].
  destruct (mg wg) as [og wg'], (mp wp) as [op wp']. simpl in Ho, Hw. subst op.
  destruct og as [a|e|c]; [now apply Hk | now split | now split].
Qed.

Lemma alikeM_try (mg mp : M A) (hg hp : exn -> option (M A)) :
  alikeM mg mp ->
  (forall e, match hg e, hp e with
             | Some kg, Some kp => alikeM kg kp
             | None, None => True
             | _, _ => False
             end) ->
  alikeM (try_except mg hg) (try_except mp hp).
Proof.
  intros Hm Hh wg wp H. unfold try_except. destruct (Hm wg wp H) as [Ho Hw].
  destruct (mg wg) as [og wg'], (mp wp) as [op wp']. simpl in Ho, Hw. subst op.
  destruct og as [a|e|c]; [now split | | now split].
  specialize (Hh e). destruct (hg e), (hp e); try contradiction;
    [now apply Hh | now split].
Qed.

End Alike.

Lemma alikeM_for_each {A} (l : list A) (bg bp : A -> M unit) :
  (forall x, alikeM (bg x) (bp x)) -> alikeM (for_each l bg) (for_each l bp).
Proof.
  intros Hb. induction l as [|x l IH]; simpl.
  - apply alikeM_ret.
  - apply alikeM_bind; [apply Hb | intros _; exact IH].
Qed.

(** Effects that do not look at what was printed act alike. *)
Ltac alike_effect :=
  let lp := fresh "lp" in
  let Hout := fresh "Hout" in
  intros ? ? (lp & -> & Hout); simpl;
  repeat match goal with
         | |- context [match ?x with _ => _ end] => destruct x
         end;
  (split; [reflexivity|]);
  eexists; (split; [reflexivity|]); simpl;
  first [ exact Hout
        | apply outputs_agree_line; exact Hout
        | apply outputs_agree_header; exact Hout ].

Lemma alikeM_print (t : fstring) : alikeM (print t) (print t).
Proof. unfold print. alike_effect. Qed.

Lemma alikeM_header (title : string) :
  alikeM (glow_header title) (plain_header title).
Proof.
  unfold glow_header, plain_header, display_full, print. alike_effect.
Qed.

Lemma alikeM_input (prompt : string) : alikeM (input prompt) (input prompt).
Proof. unfold input. simpl. alike_effect. Qed.

Lemma alikeM_logger_error (t : fstring) :
  alikeM (logger_error t) (logger_error t).
Proof. unfold logger_error. alike_effect. Qed.

Lemma alikeM_environ_get : alikeM environ_get environ_get.
Proof. unfold environ_get. alike_effect. Qed.

Lemma alikeM_config_file_exists : alikeM config_file_exists config_file_exists.
Proof. unfold config_file_exists. simpl. alike_effect. Qed.

Lemma alikeM_read_config_file : alikeM read_config_file read_config_file.
Proof. unfold read_config_file. simpl. alike_effect. Qed.

Lemma alikeM_config_dir_mkdir : alikeM config_dir_mkdir config_dir_mkdir.
Proof. unfold config_dir_mkdir. simpl. alike_effect. Qed.

Lemma alikeM_write_config_file (c : pyval) :
  alikeM (write_config_file c) (write_config_file c).
Proof. unfold write_config_file. simpl. alike_effect. Qed.

Lemma alikeM_config_file_chmod (m : Z) :
  alikeM (config_file_chmod m) (config_file_chmod m).
Proof. unfold config_file_chmod. alike_effect. Qed.

Lemma alikeM_requests_post (r : Request) :
  alikeM (requests_post r) (requests_post r).
Proof. unfold requests_post. simpl. alike_effect. Qed.

Create HintDb alike.

#[local] Hint Resolve alikeM_print alikeM_header alikeM_input
  alikeM_logger_error alikeM_environ_get alikeM_config_file_exists
  alikeM_read_config_file alikeM_config_dir_mkdir alikeM_write_config_file
  alikeM_config_file_chmod alikeM_requests_post : alike.

(** Goes through a piece of code that reads the same on both sides. *)
Ltac alike_code :=
  repeat first
    [ solve [auto with alike]
    | apply alikeM_ret
    | apply alikeM_raise
    | apply alikeM_exit
    | apply alikeM_bind; [|intros ?]
    | apply alikeM_for_each; intros ?
    | match goal with
      | |- alikeM (if ?b then _ else _) (if ?b then _ else _) => destruct b
      | |- alikeM (match ?x with _ => _ end) (match ?x with _ => _ end) =>
          destruct x
      | |- alikeM (let '(_, _) := ?x in _) (let '(_, _) := ?x in _) =>
          destruct x
      end ].

Lemma alikeM_display_full (t : fstring) (c : color) (b : bool) (bg : bg_color) :
  alikeM (display_full t c b bg) (display_full t c b bg).
Proof. unfold display_full. alike_code. Qed.

Lemma alikeM_display (t : fstring) (c : color) :
  alikeM (display t c) (display t c).
Proof. apply alikeM_display_full. Qed.

#[local] Hint Resolve alikeM_display_full alikeM_display : alike.

Lemma alikeM_py_in (k : string) (v : pyval) : alikeM (py_in k v) (py_in k v).
Proof. unfold py_in. alike_code. Qed.

Lemma alikeM_py_getitem (v : pyval) (k : string) :
  alikeM (py_getitem v k) (py_getitem v k).
Proof. unfold py_getitem. alike_code. Qed.

Lemma alikeM_py_getitem0 (v : pyval) : alikeM (py_getitem0 v) (py_getitem0 v).
Proof. unfold py_getitem0. alike_code. Qed.

Lemma alikeM_py_setitem (v : pyval) (k : string) (x : pyval) :
  alikeM (py_setitem v k x) (py_setitem v k x).
Proof. unfold py_setitem. alike_code. Qed.

Lemma alikeM_py_items (v : pyval) : alikeM (py_items v) (py_items v).
Proof. unfold py_items. alike_code. Qed.

Lemma alikeM_py_iter (v : pyval) : alikeM (py_iter v) (py_iter v).
Proof. unfold py_iter. alike_code. Qed.

Lemma alikeM_response_json (r : Response) :
  alikeM (response_json r) (response_json r).
Proof. unfold response_json. alike_code. Qed.

#[local] Hint Resolve alikeM_py_in alikeM_py_getitem alikeM_py_getitem0
  alikeM_py_setitem alikeM_py_items alikeM_py_iter alikeM_response_json : alike.

Lemma alikeM_load_config :
  alikeM ConfigManager.load_config ConfigManager.load_config.
Proof.
  unfold ConfigManager.load_config.
  apply alikeM_bind; [auto with alike | intros [|]]; [|apply alikeM_ret].
  apply alikeM_try; [auto with alike | intros e]. simpl. alike_code.
Qed.

Lemma alikeM_save_config (c : pyval) :
  alikeM (ConfigManager.save_config c) (ConfigManager.save_config c).
Proof.
  unfold ConfigManager.save_config.
  apply alikeM_bind; [auto with alike | intros _].
  apply alikeM_try; [alike_code | intros e]. simpl. alike_code.
Qed.

#[local] Hint Resolve alikeM_load_config alikeM_save_config : alike.

Lemma alikeM_save_api_key (k : string) :
  alikeM (ConfigManager.save_api_key k) (ConfigManager.save_api_key k).
Proof. unfold ConfigManager.save_api_key. alike_code. Qed.

#[local] Hint Resolve alikeM_save_api_key : alike.

Lemma alikeM_prompt_for_api_key :
  alikeM ConfigManager.prompt_for_api_key ConfigManager.prompt_for_api_key.
Proof. unfold ConfigManager.prompt_for_api_key. alike_code. Qed.

#[local] Hint Resolve alikeM_prompt_for_api_key : alike.

Lemma alikeM_show_citations (v : pyval) :
  alikeM (_show_citations v true) (_show_citations v false).
Proof. unfold _show_citations. alike_code. Qed.

Lemma alikeM_show_usage (v : pyval) :
  alikeM (_show_usage v true) (_show_usage v false).
Proof. unfold _show_usage. alike_code. Qed.

Lemma alikeM_show_content (c : ApiConfig) (v : pyval) :
  alikeM (_show_content (mkPerplexity c true) v)
         (_show_content (mkPerplexity c false) v).
Proof. unfold _show_content. simpl. alike_code. Qed.

#[local] Hint Resolve alikeM_show_citations alikeM_show_usage
  alikeM_show_content : alike.

Lemma alikeM_render (c : ApiConfig) (result : pyval) :
  alikeM (render (mkPerplexity c true) result)
         (render (mkPerplexity c false) result).
Proof.
  unfold render, citations_part, usage_part, content_part. simpl. alike_code.
Qed.

Lemma alikeM_get_response (depth : nat) :
  forall (c : ApiConfig) (message : string),
    alikeM (get_response depth (mkPerplexity c true) message)
           (get_response depth (mkPerplexity c false) message).
Proof.
  induction depth as [|depth IH]; intros c message;
    rewrite !get_response_branches;
    (apply alikeM_bind;
     [ apply alikeM_try;
       [ apply alikeM_requests_post
       | intros e; destruct e; simpl; trivial; alike_code ]
     | intros response ]);
    (destruct (Z.eqb (status_code response) 200);
     [ apply alikeM_bind; [auto with alike | intros result];
       apply alikeM_render | ]);
    (destruct (Z.eqb (status_code response) 401); [|alike_code]);
    (apply alikeM_bind; [auto with alike | intros _]);
    (apply alikeM_bind; [auto with alike | intros line]);
    (destruct (confirms line); [|apply alikeM_exit]);
    (apply alikeM_bind; [auto with alike | intros key]); simpl.
  - apply alikeM_raise.
  - apply IH.
Qed.

(** C9.  Run with the same reply, flags and surroundings, the glow style
    and the plain style end the same way and leave the same world, and what
    they print agrees line by line: each line is the same in both, or is
    the header of the same section in its two styles.  Citation lines,
    usage lines and the content are therefore identical. *)
Theorem header_style_only (depth : nat) (c : ApiConfig) (message : string)
    (w : World) :
  let g := get_response depth (mkPerplexity c true) message w in
  let p := get_response depth (mkPerplexity c false) message w in
  fst g = fst p /\
  set_stdout [] (snd g) = set_stdout [] (snd p) /\
  Forall2 same_but_style (stdout (snd g)) (stdout (snd p)).
Proof.
  intros g p.
  destruct (alikeM_get_response depth c message w w (alike_refl w))
    as (Hout & lp & Hw & Hlines).
  fold g p in Hout, Hw, Hlines.
  split; [exact Hout|]. rewrite Hw. split; [reflexivity | exact Hlines].
Qed.

(** * Further properties *)

(** Two worlds with the same components are the same world. *)
Lemma world_eq (a b : World) :
  environ a = environ b -> config_file a = config_file b ->
  config_mode a = config_mode b -> mkdir_error a = mkdir_error b ->
  open_w_error a = open_w_error b -> stdin a = stdin b ->
  network a = network b -> sent a = sent b -> stdout a = stdout b ->
  error_log a = error_log b -> exists_error a = exists_error b ->
  dump_error a = dump_error b -> chmod_error a = chmod_error b ->
  unlink_error a = unlink_error b -> create_error a = create_error b ->
  a = b.
Proof. destruct a, b; simpl; intros; subst; reflexivity. Qed.

(** ** Answers to the yes/no prompts *)

Lemma lower_ascii_y (c : ascii) :
  lower_ascii c = "y"%char -> c = "y"%char \/ c = "Y"%char.
Proof.
  destruct c as [[|] [|] [|] [|] [|] [|] [|] [|]]; vm_compute; intros H;
    try discriminate H; auto.
Qed.

Lemma lower_is_y (s : string) : lower s = "y" <-> s = "y" \/ s = "Y".
Proof.
  split.
  - destruct s as [|c s']; simpl; [discriminate|].
    intros H. injection H as Hc Hs.
    destruct s' as [|c' s'']; [|discriminate Hs].
    destruct (lower_ascii_y c Hc) as [-> | ->]; auto.
  - intros [-> | ->]; reflexivity.
Qed.

(** ** Failures of the settings store *)

Lemma load_config_world (w w1 : World) (o : outcome pyval) :
  ConfigManager.load_config w = (o, w1) ->
  w1 = set_error_log (error_log w1) w.
Proof.
  rewrite load_config_cases.
  destruct (exists_error w);
    [intros H; injection H as <- <-; destruct w; reflexivity|].
  destruct (config_file w) eqn:E; intros H; injection H as <- <-;
    destruct w; reflexivity.
Qed.

(** The outcome of [load_config] depends on the settings file and on its
    existence test only. *)
Lemma load_config_value (w w' : World) :
  exists_error w' = exists_error w ->
  config_file w' = config_file w ->
  fst (ConfigManager.load_config w') = fst (ConfigManager.load_config w).
Proof.
  intros Hex E. rewrite !load_config_cases, E, Hex.
  destruct (exists_error w); [reflexivity|].
  destruct (config_file w); reflexivity.
Qed.

(** X2.  When the settings file cannot be opened for writing,
    [save_config] does not raise: it logs the error and returns, the file
    and its permissions stay as they were, and a later [load_config] gives
    what it gave before. *)
Theorem failed_write_is_swallowed (w : World) (config : pyval) (err : string) :
  mkdir_error w = None ->
  open_w_error w = Some err ->
  ConfigManager.save_config config w
    = (Return tt, set_error_log (error_log w ++ [save_error_entry err]) w) /\
  fst ((ConfigManager.save_config config ;; ConfigManager.load_config) w)
    = fst (ConfigManager.load_config w).
Proof.
  intros Hdir Hopen.
  assert (Hsave : ConfigManager.save_config config w
            = (Return tt,
               set_error_log (error_log w ++ [save_error_entry err]) w))
    by (rewrite save_config_cases, Hdir, Hopen; reflexivity).
  split; [exact Hsave|].
  rewrite (bind_run _ _ _ _ _ Hsave). now apply load_config_value.
Qed.

Lemma failed_write_is_swallowed_witness :
  fst ((ConfigManager.save_config (VDict [("api_key", VStr "K")]) ;;
        ConfigManager.load_config) read_only_store)
  = Return (VDict stored_settings).
Proof.
  destruct (failed_write_is_swallowed read_only_store
              (VDict [("api_key", VStr "K")]) "Permission denied"
              eq_refl eq_refl) as [_ H].
  rewrite H. reflexivity.
Defined.

(** ** Entering a key at the prompt *)

Lemma display_run (t : fstring) (c : color) (w : World) :
  display t c w = (Return tt, set_stdout (stdout w ++ [display_line t c]) w).
Proof. reflexivity. Qed.

(** [prompt_for_api_key] up to the key it read. *)
Lemma prompt_reads_key (w : World) (line : string) (rest : list string) :
  stdin w = line :: rest ->
  ConfigManager.prompt_for_api_key w =
  (if negb (truthy (VStr (strip line))) then
     display [Lit "API key cannot be empty!"] red ;; sys_exit 1
   else
     line' <- input (NL ++ "Save this API key for future use? (y/n): ")%string ;;
     (if confirms line' then
        ConfigManager.save_api_key (strip line) ;;
        display [Lit "API key saved successfully!"] green
      else ret tt) ;;
     ret (strip line))
    (set_stdin rest (set_stdout (stdout w ++ prompt_intro) w)).
Proof.
  intros Hin. unfold ConfigManager.prompt_for_api_key.
  rewrite (bind_run _ _ _ _ _ (display_run _ _ w)).
  rewrite (bind_run _ _ _ _ _ (display_run _ _ _)).
  unfold bind at 1, input at 1. simpl. rewrite Hin.
  unfold prompt_intro. rewrite <- !app_assoc. reflexivity.
Qed.

(** X3.  An empty key (nothing but blanks) typed at the prompt is fatal:
    the program says so and leaves with status 1 without asking whether to
    save; the settings are not touched. *)
Theorem empty_key_is_fatal (w : World) (line : string) (rest : list string) :
  stdin w = line :: rest ->
  strip line = "" ->
  ConfigManager.prompt_for_api_key w =
  (SysExit 1,
   set_stdin rest
     (set_stdout (stdout w ++ prompt_intro ++ [empty_key_line]) w)).
Proof.
  intros Hin Hempty. rewrite (prompt_reads_key w line rest Hin), Hempty.
  change (negb (truthy (VStr ""))) with true. cbv iota.
  rewrite (bind_run _ _ _ _ _ (display_run _ _ _)).
  unfold sys_exit, empty_key_line. f_equal.
  unfold set_stdin, set_stdout. simpl. now rewrite <- app_assoc.
Qed.

Lemma empty_key_is_fatal_witness :
  fst (ConfigManager.prompt_for_api_key
         (world_rejecting ["   "; "y"])) = SysExit 1 /\
  stdin (snd (ConfigManager.prompt_for_api_key
                (world_rejecting ["   "; "y"]))) = ["y"].
Proof.
  rewrite (empty_key_is_fatal (world_rejecting ["   "; "y"]) "   " ["y"]
             eq_refl eq_refl).
  split; reflexivity.
Defined.

Lemma bind_returns {A B} (m : M A) (k : A -> M B) (w w' : World) (b : B) :
  bind m k w = (Return b, w') ->
  exists a w1, m w = (Return a, w1) /\ k a w1 = (Return b, w').
Proof.
  unfold bind. destruct (m w) as [[a|e|c] w1]; intros H; try discriminate H.
  now exists a, w1.
Qed.

Lemma prompt_at_eof (w : World) :
  stdin w = [] ->
  ConfigManager.prompt_for_api_key w =
  (Raise EOFError, set_stdout (stdout w ++ prompt_intro) w).
Proof.
  intros Hin. unfold ConfigManager.prompt_for_api_key.
  rewrite (bind_run _ _ _ _ _ (display_run _ _ w)).
  rewrite (bind_run _ _ _ _ _ (display_run _ _ _)).
  unfold bind at 1, input at 1. simpl. rewrite Hin.
  unfold prompt_intro. rewrite <- !app_assoc. reflexivity.
Qed.

(** X4.  A key that [prompt_for_api_key] returns is the first line of the
    input with its blanks trimmed, and it is not empty. *)
Theorem prompted_key_is_trimmed (w w' : World) (k : string) :
  ConfigManager.prompt_for_api_key w = (Return k, w') ->
  exists line rest, stdin w = line :: rest /\ k = strip line /\ k <> "".
Proof.
  intros H. destruct (stdin w) as [|line rest] eqn:Hin.
  - rewrite (prompt_at_eof w Hin) in H. discriminate H.
  - exists line, rest. split; [reflexivity|].
    rewrite (prompt_reads_key w line rest Hin) in H. unfold truthy in H.
    destruct (String.eqb_spec (strip line) "") as [E|E]; cbn [negb] in H.
    + rewrite (bind_run _ _ _ _ _ (display_run _ _ _)) in H. discriminate H.
    + apply bind_returns in H. destruct H as (line' & w1 & _ & H).
      apply bind_returns in H. destruct H as (u & w2 & _ & H).
      injection H as Hk _. subst k. split; [reflexivity | exact E].
Qed.

Lemma prompted_key_is_trimmed_witness :
  exists line rest,
    stdin (world_rejecting ["  sk-1 "; "n"]) = line :: rest /\
    "sk-1" = strip line /\ "sk-1" <> "".
Proof.
  exact (prompted_key_is_trimmed (world_rejecting ["  sk-1 "; "n"]) _ "sk-1"
           eq_refl).
Defined.

Lemma input_run (prompt line : string) (rest : list string) (w : World) :
  stdin w = line :: rest ->
  input prompt w
  = (Return line, set_stdin rest (set_stdout (stdout w ++ [Prompt prompt]) w)).
Proof. intros Hin. unfold input. rewrite Hin. reflexivity. Qed.

Lemma load_config_settings (w : World) :
  exists_error w = None ->
  exists w1,
    ConfigManager.load_config w = (Return (settings_of (config_file w)), w1) /\
    (exists l, w1 = set_error_log (error_log w ++ l) w).
Proof.
  intros Hex. rewrite load_config_cases, Hex.
  destruct (config_file w); eexists; (split; [reflexivity|]);
    try (eexists; reflexivity);
    exists []; rewrite app_nil_r; destruct w; reflexivity.
Qed.

(** What [save_api_key] does, by what the file system lets it do, when the
    settings load as a mapping. *)
Lemma save_api_key_cases (w : World) (d : list (string * pyval)) (key : string) :
  exists_error w = None ->
  settings_of (config_file w) = VDict d ->
  exists l,
    ConfigManager.save_api_key key w =
    match mkdir_error w with
    | Some err => (Raise (OSError err), set_error_log (error_log w ++ l) w)
    | None =>
        match open_w_error w with
        | Some err =>
            (Return tt,
             set_error_log (error_log w ++ l ++ [save_error_entry err]) w)
        | None =>
            match dump_error w with
            | Some (e, damaged) =>
                (Return tt,
                 set_error_log
                   (error_log w ++ l ++ [[Lit "Error saving config: "; StrExn e]])
                   (set_config_file damaged w))
            | None =>
                match chmod_error w with
                | Some err =>
                    (Return tt,
                     set_error_log
                       (error_log w ++ l ++ [save_error_entry err])
                       (set_config_file
                          (Document
                             (VDict (dict_store "api_key" (VStr key) d))) w))
                | None =>
                    (Return tt,
                     set_config_mode 384
                       (set_config_file
                          (Document
                             (VDict (dict_store "api_key" (VStr key) d)))
                          (set_error_log (error_log w ++ l) w)))
                end
            end
        end
    end.
Proof.
  intros Hex Hd. destruct (load_config_settings w Hex) as (w1 & Hload & l & ->).
  exists l. unfold ConfigManager.save_api_key.
  rewrite (bind_run _ _ _ _ _ Hload), Hd. unfold py_setitem.
  rewrite bind_ret_l, save_config_cases. simpl.
  destruct (mkdir_error w); [reflexivity|].
  destruct (open_w_error w);
    [unfold save_error_entry; now rewrite <- app_assoc|].
  destruct (dump_error w) as [[e damaged]|];
    [unfold set_error_log, set_config_file; simpl; now rewrite <- app_assoc|].
  destruct (chmod_error w); [|reflexivity].
  unfold save_error_entry, set_error_log, set_config_file; simpl.
  now rewrite <- app_assoc.
Qed.

(** [prompt_for_api_key] from the answer to the save question on. *)
Lemma prompt_reads_answer (w : World) (line answer : string)
    (rest : list string) :
  stdin w = line :: answer :: rest ->
  strip line <> "" ->
  ConfigManager.prompt_for_api_key w =
  ((if confirms answer then
      ConfigManager.save_api_key (strip line) ;;
      display [Lit "API key saved successfully!"] green
    else ret tt) ;;
   ret (strip line))
    (set_stdin rest
       (set_stdout (stdout w ++ prompt_intro ++ [save_prompt]) w)).
Proof.
  intros Hin Hkey.
  rewrite (prompt_reads_key w line (answer :: rest) Hin). unfold truthy.
  destruct (String.eqb_spec (strip line) ""); [contradiction|]. cbn [negb].
  rewrite (bind_run _ _ _ _ _
             (input_run _ answer rest
                (set_stdin (answer :: rest)
                   (set_stdout (stdout w ++ prompt_intro) w)) eq_refl)).
  unfold save_prompt, set_stdin, set_stdout. simpl.
  now rewrite <- app_assoc.
Qed.

Lemma confirms_is_y (line : string) : confirms line = is_y (strip line).
Proof.
  unfold confirms, is_y.
  destruct (String.eqb_spec (lower (strip line)) "y") as [E|E].
  - apply lower_is_y in E. destruct E as [-> | ->]; reflexivity.
  - destruct (String.eqb_spec (strip line) "y") as [Ey|_];
      [exfalso; apply E; apply lower_is_y; now left|].
    destruct (String.eqb_spec (strip line) "Y") as [EY|_];
      [exfalso; apply E; apply lower_is_y; now right | reflexivity].
Qed.

(** X1.  What counts as a yes at the two yes/no prompts.  After a 401,
    [get_response] goes on to ask for a new key exactly when the line
    typed at [Would you like to enter a new API key?] is, blanks trimmed,
    the single letter [y] or [Y], and leaves with status 1 for any other
    line; and [prompt_for_api_key] saves the key exactly when the line
    typed at [Save this API key for future use?] is such a line.  A
    spelled-out yes is a no at both. *)
Theorem only_y_confirms (depth : nat) (self : Perplexity) (message : string)
    (w : World) (r : Response) (line : string) (rest : list string) :
  network w (length (sent w)) (build_request self message) = Answer r ->
  status_code r = 401%Z ->
  stdin w = line :: rest ->
  get_response depth self message w =
  (if is_y (strip line) then
     new_key <- ConfigManager.prompt_for_api_key ;;
     match depth with
     | O => raise RecursionError
     | S depth' =>
         get_response depth'
           (mkPerplexity (set_api_key (VStr new_key) (config self))
                         (use_glow self)) message
     end
   else sys_exit 1)
    (set_stdin rest
       (set_stdout (stdout w ++ [invalid_key_line; retry_prompt])
          (set_sent (sent w ++ [build_request self message]) w))) /\
  (forall (w0 : World) (keyline : string) (rest0 : list string),
     stdin w0 = keyline :: line :: rest0 ->
     strip keyline <> "" ->
     ConfigManager.prompt_for_api_key w0 =
     ((if is_y (strip line) then
         ConfigManager.save_api_key (strip keyline) ;;
         display [Lit "API key saved successfully!"] green
       else ret tt) ;;
      ret (strip keyline))
       (set_stdin rest0
          (set_stdout (stdout w0 ++ prompt_intro ++ [save_prompt]) w0))).
Proof.
  intros Hnet Hstatus Hin. split.
  - rewrite get_response_branches.
    rewrite (bind_run _ _ _ _ _ (post_answered _ _ _ Hnet)), Hstatus.
    change (401 =? 200)%Z with false. change (401 =? 401)%Z with true.
    cbv iota.
    rewrite (bind_run _ _ _ _ _ (display_run _ _ _)).
    rewrite (bind_run _ _ _ _ _
               (input_run _ line rest
                  (set_stdout _ (set_sent _ w)) Hin)).
    rewrite confirms_is_y. f_equal.
    apply world_eq; simpl; rewrite <- ?app_assoc; reflexivity.
  - intros w0 keyline rest0 Hin0 Hkey.
    rewrite (prompt_reads_answer w0 keyline line rest0 Hin0 Hkey).
    now rewrite confirms_is_y.
Qed.

Lemma only_y_confirms_witness :
  get_response 3 (self_with_key "X") "hi" (world_rejecting [" yes "; "k"])
  = (SysExit 1,
     set_stdin ["k"]
       (set_stdout [invalid_key_line; retry_prompt]
          (set_sent [build_request (self_with_key "X") "hi"]
             (world_rejecting [" yes "; "k"])))).
Proof.
  destruct (only_y_confirms 3 (self_with_key "X") "hi"
              (world_rejecting [" yes "; "k"])
              (mkResponse 401 "unauthorized" (inr "Expecting value"))
              " yes " ["k"] eq_refl eq_refl eq_refl) as [Hrun _].
  exact Hrun.
Defined.

(** X5.  When the answer to the save question is not a yes,
    [prompt_for_api_key] returns the key and leaves the settings file, its
    permissions and the log as they were: the key lives for this run
    only. *)
Theorem unsaved_key_leaves_store (w : World) (line answer : string)
    (rest : list string) :
  stdin w = line :: answer :: rest ->
  strip line <> "" ->
  confirms answer = false ->
  ConfigManager.prompt_for_api_key w =
  (Return (strip line),
   set_stdin rest (set_stdout (stdout w ++ prompt_intro ++ [save_prompt]) w)).
Proof.
  intros Hin Hkey Hno.
  rewrite (prompt_reads_answer w line answer rest Hin Hkey), Hno.
  reflexivity.
Qed.

Lemma unsaved_key_leaves_store_witness :
  fst (ConfigManager.prompt_for_api_key (world_rejecting [" sk-1"; "no"]))
    = Return "sk-1" /\
  config_file (snd (ConfigManager.prompt_for_api_key
                      (world_rejecting [" sk-1"; "no"]))) = Absent.
Proof.
  assert (Hkey : strip " sk-1" <> "") by (vm_compute; discriminate).
  rewrite (unsaved_key_leaves_store (world_rejecting [" sk-1"; "no"])
             " sk-1" "no" [] eq_refl Hkey eq_refl).
  split; reflexivity.
Defined.

Lemma get_api_key_stored (w : World) (d : list (string * pyval)) :
  nonempty (environ w) = None ->
  exists_error w = None ->
  config_file w = Document (VDict d) ->
  ConfigManager.get_api_key w =
  (Return (match dict_lookup "api_key" d with Some x => x | None => VNone end),
   w).
Proof.
  intros Henv Hex Hfile.
  assert (Hload : ConfigManager.load_config w = (Return (VDict d), w))
    by (rewrite load_config_cases, Hex, Hfile; reflexivity).
  now rewrite (get_api_key_cases w w d Hload), Henv.
Qed.

(** X6.  When the answer to the save question is a yes and the store
    works (the existence test answers, the directory can be created, the
    file can be opened and written, and [chmod] succeeds),
    [prompt_for_api_key] returns the key, stores it beside the other
    settings with permissions 0o600 and says so; with no key in the
    environment, the next [get_api_key] gives that key back. *)
Theorem saved_key_is_found_again (w : World) (line answer : string)
    (rest : list string) (d : list (string * pyval)) :
  stdin w = line :: answer :: rest ->
  strip line <> "" ->
  confirms answer = true ->
  settings_of (config_file w) = VDict d ->
  exists_error w = None ->
  mkdir_error w = None ->
  open_w_error w = None ->
  dump_error w = None ->
  chmod_error w = None ->
  nonempty (environ w) = None ->
  exists w',
    ConfigManager.prompt_for_api_key w = (Return (strip line), w') /\
    config_file w' =
      Document (VDict (dict_store "api_key" (VStr (strip line)) d)) /\
    config_mode w' = 384%Z /\
    stdout w' = stdout w ++ prompt_intro ++ [save_prompt; key_saved_line] /\
    stdin w' = rest /\
    ConfigManager.get_api_key w' = (Return (VStr (strip line)), w').
Proof.
  intros Hin Hkey Hyes Hd Hex Hdir Hopen Hdump Hmod Henv.
  rewrite (prompt_reads_answer w line answer rest Hin Hkey), Hyes.
  set (w0 := set_stdin rest
               (set_stdout (stdout w ++ prompt_intro ++ [save_prompt]) w)).
  destruct (save_api_key_cases w0 d (strip line) Hex Hd) as (l & Hsave).
  change (mkdir_error w0) with (mkdir_error w) in Hsave.
  change (open_w_error w0) with (open_w_error w) in Hsave.
  change (dump_error w0) with (dump_error w) in Hsave.
  change (chmod_error w0) with (chmod_error w) in Hsave.
  rewrite Hdir, Hopen, Hdump, Hmod in Hsave.
  rewrite (bind_run _ _ _ _ _
             (bind_run _ (fun _ => display _ green) _ _ _ Hsave)).
  eexists. split; [reflexivity|].
  split; [reflexivity|]. split; [reflexivity|].
  split; [simpl; now rewrite <- !app_assoc|]. split; [reflexivity|].
  rewrite (get_api_key_stored _ (dict_store "api_key" (VStr (strip line)) d));
    [now rewrite dict_lookup_store_same | exact Henv | exact Hex
    | reflexivity].
Qed.

Lemma saved_key_is_found_again_witness :
  exists w',
    ConfigManager.prompt_for_api_key
      (set_stdin ["sk-2"; " Y "] store_with_settings) = (Return "sk-2", w') /\
    config_file w' =
      Document (VDict [("theme", VStr "dark"); ("api_key", VStr "sk-2");
                       ("retries", VInt 3)]) /\
    ConfigManager.get_api_key w' = (Return (VStr "sk-2"), w').
Proof.
  assert (Hkey : strip "sk-2" <> "") by (vm_compute; discriminate).
  destruct (saved_key_is_found_again
              (set_stdin ["sk-2"; " Y "] store_with_settings)
              "sk-2" " Y " [] stored_settings eq_refl Hkey eq_refl eq_refl
              eq_refl eq_refl eq_refl eq_refl eq_refl eq_refl)
    as (w' & Hrun & Hfile & _ & _ & _ & Hget).
  exists w'. split; [exact Hrun|]. split; [exact Hfile | exact Hget].
Defined.

(** X7.  When the file cannot be opened for writing, the failure is only
    logged: [prompt_for_api_key] still prints [API key saved
    successfully!] and returns the key, although the settings file is as
    it was.  (The settings load as a mapping: the existence test answers.) *)
Theorem failed_save_reports_success (w : World) (line answer err : string)
    (rest : list string) (d : list (string * pyval)) :
  stdin w = line :: answer :: rest ->
  strip line <> "" ->
  confirms answer = true ->
  settings_of (config_file w) = VDict d ->
  exists_error w = None ->
  mkdir_error w = None ->
  open_w_error w = Some err ->
  exists w',
    ConfigManager.prompt_for_api_key w = (Return (strip line), w') /\
    config_file w' = config_file w /\
    config_mode w' = config_mode w /\
    stdout w' = stdout w ++ prompt_intro ++ [save_prompt; key_saved_line] /\
    In (save_error_entry err) (error_log w').
Proof.
  intros Hin Hkey Hyes Hd Hex Hdir Hopen.
  rewrite (prompt_reads_answer w line answer rest Hin Hkey), Hyes.
  set (w0 := set_stdin rest
               (set_stdout (stdout w ++ prompt_intro ++ [save_prompt]) w)).
  destruct (save_api_key_cases w0 d (strip line) Hex Hd) as (l & Hsave).
  change (mkdir_error w0) with (mkdir_error w) in Hsave.
  change (open_w_error w0) with (open_w_error w) in Hsave.
  rewrite Hdir, Hopen in Hsave.
  rewrite (bind_run _ _ _ _ _
             (bind_run _ (fun _ => display _ green) _ _ _ Hsave)).
  eexists. split; [reflexivity|].
  split; [reflexivity|]. split; [reflexivity|].
  split; [simpl; now rewrite <- !app_assoc|].
  simpl. rewrite !in_app_iff. right. right. now left.
Qed.

Lemma failed_save_reports_success_witness :
  exists w',
    ConfigManager.prompt_for_api_key
      (set_stdin ["sk-3"; "y"] read_only_store) = (Return "sk-3", w') /\
    config_file w' = Document (VDict stored_settings) /\
    In key_saved_line (stdout w').
Proof.
  assert (Hkey : strip "sk-3" <> "") by (vm_compute; discriminate).
  destruct (failed_save_reports_success
              (set_stdin ["sk-3"; "y"] read_only_store)
              "sk-3" "y" "Permission denied" [] stored_settings
              eq_refl Hkey eq_refl eq_refl eq_refl eq_refl eq_refl)
    as (w' & Hrun & Hfile & _ & Hout & _).
  exists w'. split; [exact Hrun|]. split; [exact Hfile|].
  rewrite Hout. simpl. auto 10.
Defined.

(** X8.  When the settings directory cannot be created, the exception of
    [mkdir] is not caught on the way: [prompt_for_api_key] raises it
    instead of returning the key just typed, and nothing is stored.  (The
    settings load as a mapping: the existence test answers.) *)
Theorem failed_mkdir_loses_key (w : World) (line answer err : string)
    (rest : list string) (d : list (string * pyval)) :
  stdin w = line :: answer :: rest ->
  strip line <> "" ->
  confirms answer = true ->
  settings_of (config_file w) = VDict d ->
  exists_error w = None ->
  mkdir_error w = Some err ->
  exists w',
    ConfigManager.prompt_for_api_key w = (Raise (OSError err), w') /\
    config_file w' = config_file w /\
    stdout w' = stdout w ++ prompt_intro ++ [save_prompt].
Proof.
  intros Hin Hkey Hyes Hd Hex Hdir.
  rewrite (prompt_reads_answer w line answer rest Hin Hkey), Hyes.
  set (w0 := set_stdin rest
               (set_stdout (stdout w ++ prompt_intro ++ [save_prompt]) w)).
  destruct (save_api_key_cases w0 d (strip line) Hex Hd) as (l & Hsave).
  change (mkdir_error w0) with (mkdir_error w) in Hsave.
  rewrite Hdir in Hsave.
  rewrite (bind_run _ _ _ _ _
             (bind_run _ (fun _ => display _ green) _ _ _ Hsave)).
  eexists. split; [reflexivity|]. split; reflexivity.
Qed.

Definition store_without_directory : World :=
  mkWorld None Absent 420 (Some "Permission denied") None ["sk-4"; "y"]
          always_401 [] [] []
          None None None None None.

Lemma failed_mkdir_loses_key_witness :
  exists w',
    ConfigManager.prompt_for_api_key store_without_directory
      = (Raise (OSError "Permission denied"), w') /\
    config_file w' = Absent.
Proof.
  assert (Hkey : strip "sk-4" <> "") by (vm_compute; discriminate).
  destruct (failed_mkdir_loses_key store_without_directory
              "sk-4" "y" "Permission denied" [] [] eq_refl Hkey eq_refl
              eq_refl eq_refl eq_refl)
    as (w' & Hrun & Hfile & _).
  exists w'. split; [exact Hrun | exact Hfile].
Defined.

(** ** What [main] does around the query *)

Lemma bind_assoc {A B C} (m : M A) (k : A -> M B) (k' : B -> M C) (w : World) :
  bind (bind m k) k' w = bind m (fun a => bind (k a) k') w.
Proof. unfold bind. destruct (m w) as [[a|e|c] w1]; reflexivity. Qed.

(** [main] once it is past the two early exits. *)
Lemma main_runs_query (depth : nat) (args : Args) (query : string) :
  args_clear_config args = false ->
  args_query args = Some query ->
  query <> "" ->
  main depth args =
  try_except
    (perplexity <- __init__ args ;; get_response depth perplexity query)
    (any_exception (fun e =>
       display [Lit "Error: "; StrExn e] red ;; sys_exit 1)).
Proof.
  intros Hclear Hquery Hne. unfold main. rewrite Hclear, Hquery.
  unfold truthy. destruct (String.eqb_spec query ""); [contradiction|].
  reflexivity.
Qed.

(** An exception on the way is reported and turned into status 1. *)
Lemma main_reports (depth : nat) (args : Args) (query : string) (w w1 : World)
    (e : exn) :
  args_clear_config args = false ->
  args_query args = Some query ->
  query <> "" ->
  (perplexity <- __init__ args ;; get_response depth perplexity query) w
    = (Raise e, w1) ->
  main depth args w = (SysExit 1, set_stdout (stdout w1 ++ [error_line e]) w1).
Proof.
  intros Hclear Hquery Hne Hrun.
  rewrite (main_runs_query depth args query Hclear Hquery Hne).
  now rewrite (try_except_run _ _ _ _ _ Hrun).
Qed.

(** The constructor when the command line gives no key. *)
Lemma init_without_override (args : Args) :
  In (args_model args) AVAILABLE_MODELS ->
  nonempty (args_api_key args) = None ->
  __init__ args =
  (key <- ConfigManager.get_api_key ;;
   key' <- (if is_none key then
              k' <- ConfigManager.prompt_for_api_key ;; ret (VStr k')
            else ret key) ;;
   ret (configured args key')).
Proof.
  intros Hmodel Hkey. apply validate_spec in Hmodel.
  unfold __init__. rewrite Hmodel. cbn [negb]. unfold nonempty in Hkey.
  destruct (args_api_key args) as [k|]; [|reflexivity].
  destruct (truthy (VStr k)); [discriminate | reflexivity].
Qed.

(** X9.  A settings file that holds valid JSON which is not an object (a
    list, a string, null) is returned as it is by [load_config] (the
    existence test answers) and breaks its users: [get_api_key] raises
    [AttributeError] when it gets to the file, [save_api_key] raises
    [TypeError] without writing, and a run that needs the stored key ends
    with status 1 before any request. *)
Theorem non_mapping_settings_break (w : World) (j : pyval) :
  config_file w = Document j ->
  is_mapping j = false ->
  exists_error w = None ->
  (nonempty (environ w) = None ->
   ConfigManager.get_api_key w = (Raise AttributeError, w)) /\
  (forall key, ConfigManager.save_api_key key w = (Raise TypeError, w)) /\
  (forall depth args query,
      nonempty (environ w) = None ->
      nonempty (args_api_key args) = None ->
      In (args_model args) AVAILABLE_MODELS ->
      args_clear_config args = false ->
      args_query args = Some query ->
      query <> "" ->
      main depth args w =
      (SysExit 1, set_stdout (stdout w ++ [error_line AttributeError]) w)).
Proof.
  intros Hfile Hj Hex.
  assert (Hload : ConfigManager.load_config w = (Return j, w))
    by (rewrite load_config_cases, Hex, Hfile; reflexivity).
  assert (Hget : nonempty (environ w) = None ->
                 ConfigManager.get_api_key w = (Raise AttributeError, w)).
  { intros Henv. unfold ConfigManager.get_api_key, bind at 1, environ_get.
    unfold nonempty in Henv.
    assert (Hfile' : (config <- ConfigManager.load_config ;;
                      py_get config "api_key") w = (Raise AttributeError, w)).
    { rewrite (bind_run _ _ _ _ _ Hload). destruct j; try reflexivity.
      discriminate Hj. }
    destruct (environ w) as [k|]; [|exact Hfile'].
    destruct (truthy (VStr k)); [discriminate | exact Hfile']. }
  split; [exact Hget|]. split.
  - intros key. unfold ConfigManager.save_api_key.
    rewrite (bind_run _ _ _ _ _ Hload). destruct j; try reflexivity.
    discriminate Hj.
  - intros depth args query Henv Hkey Hmodel Hclear Hquery Hne.
    apply (main_reports depth args query w w AttributeError Hclear Hquery Hne).
    rewrite (init_without_override args Hmodel Hkey).
    now rewrite (bind_run _ _ _ _ _
                   (bind_run _ _ _ _ _ (Hget Henv))).
Qed.

Definition store_with_list : World :=
  mkWorld None (Document (VList [VStr "api_key"])) 384 None None []
          always_401 [] [] []
          None None None None None.

Lemma non_mapping_settings_break_witness :
  ConfigManager.get_api_key store_with_list
    = (Raise AttributeError, store_with_list) /\
  ConfigManager.save_api_key "sk-5" store_with_list
    = (Raise TypeError, store_with_list).
Proof.
  destruct (non_mapping_settings_break store_with_list
              (VList [VStr "api_key"]) eq_refl eq_refl eq_refl)
    as (Hget & Hsave & _).
  split; [exact (Hget eq_refl) | exact (Hsave "sk-5")].
Defined.

(** X10.  With no key on the command line, none in the environment, none
    in the settings (which load as a mapping: the existence test answers)
    and no input to read, the run ends with status 1: the prompt meets
    the end of the input, [main] reports the [EOFError], and no request is
    posted. *)
Theorem no_key_no_input_fails (depth : nat) (args : Args) (query : string)
    (w : World) (d : list (string * pyval)) :
  args_clear_config args = false ->
  args_query args = Some query ->
  query <> "" ->
  In (args_model args) AVAILABLE_MODELS ->
  nonempty (args_api_key args) = None ->
  nonempty (environ w) = None ->
  exists_error w = None ->
  settings_of (config_file w) = VDict d ->
  stored_key d = None ->
  stdin w = [] ->
  exists w',
    main depth args w = (SysExit 1, w') /\
    sent w' = sent w /\
    config_file w' = config_file w /\
    exists log, stdout w' = stdout w ++ prompt_intro ++ [error_line EOFError]
                /\ error_log w' = error_log w ++ log.
Proof.
  intros Hclear Hquery Hne Hmodel Hkey Henv Hex Hd Hstored Hin.
  destruct (load_config_settings w Hex) as (w1 & Hload & l & Hw1).
  rewrite Hd in Hload.
  pose proof (get_api_key_cases w w1 d Hload) as Hget. rewrite Henv in Hget.
  assert (Hnone : is_none (match dict_lookup "api_key" d with
                           | Some x => x | None => VNone end) = true).
  { unfold stored_key in Hstored.
    destruct (dict_lookup "api_key" d) as [[]|]; try discriminate Hstored;
      reflexivity. }
  assert (Hin1 : stdin w1 = []) by (rewrite Hw1; exact Hin).
  assert (Hrun : (perplexity <- __init__ args ;;
                  get_response depth perplexity query) w
                 = (Raise EOFError, set_stdout (stdout w1 ++ prompt_intro) w1)).
  { rewrite (init_without_override args Hmodel Hkey).
    rewrite bind_assoc, (bind_run _ _ _ _ _ Hget), Hnone.
    rewrite !bind_assoc.
    now rewrite (bind_run _ _ _ _ _ (prompt_at_eof w1 Hin1)). }
  rewrite (main_reports depth args query w _ EOFError Hclear Hquery Hne Hrun).
  eexists. split; [reflexivity|]. rewrite Hw1. simpl.
  split; [reflexivity|]. split; [reflexivity|].
  exists l. split; [now rewrite <- app_assoc | reflexivity].
Qed.

Lemma no_key_no_input_fails_witness :
  fst (main 0 args_no_key tmp_store) = SysExit 1 /\
  sent (snd (main 0 args_no_key tmp_store)) = [].
Proof.
  assert (Hne : "hello" <> "") by discriminate.
  assert (Hmodel : In (args_model args_no_key) AVAILABLE_MODELS)
    by (simpl; auto).
  destruct (no_key_no_input_fails 0 args_no_key "hello" tmp_store []
              eq_refl eq_refl Hne Hmodel eq_refl eq_refl eq_refl eq_refl
              eq_refl eq_refl) as (w' & Hrun & Hsent & _).
  rewrite Hrun. split; [reflexivity | exact Hsent].
Defined.

(** X11.  With [--clear-config], when the existence test answers and the
    file, if there is one, can be removed, [main] does nothing but clear:
    it removes the settings file when there is one, says which of the two
    it did and leaves with status 0, whatever the other arguments are (no
    query, an unknown model); no key is resolved, no input read, no
    request posted.  Clearing again finds nothing to clear. *)
Theorem clear_config_only_clears (depth : nat) (args : Args) (w : World) :
  args_clear_config args = true ->
  exists_error w = None ->
  config_file w = Absent \/ unlink_error w = None ->
  let w' := snd (main depth args w) in
  main depth args w =
  (SysExit 0,
   match config_file w with
   | Absent => set_stdout (stdout w ++ [nothing_to_clear_line]) w
   | _ =>
       set_stdout (stdout w ++ [cleared_line])
         (set_open_w_error (create_error w) (set_config_file Absent w))
   end) /\
  config_file w' = Absent /\
  sent w' = sent w /\ stdin w' = stdin w /\ error_log w' = error_log w /\
  main depth args w'
  = (SysExit 0, set_stdout (stdout w' ++ [nothing_to_clear_line]) w').
Proof.
  intros Hclear Hex Hrm.
  assert (Habsent : forall w0,
    exists_error w0 = None -> config_file w0 = Absent ->
    main depth args w0 =
    (SysExit 0, set_stdout (stdout w0 ++ [nothing_to_clear_line]) w0)).
  { intros w0 Hex0 Hfile0. unfold main. rewrite Hclear.
    unfold bind at 1 2, config_file_exists. rewrite Hex0, Hfile0.
    reflexivity. }
  assert (Hmain :
    main depth args w =
    (SysExit 0,
     match config_file w with
     | Absent => set_stdout (stdout w ++ [nothing_to_clear_line]) w
     | _ =>
         set_stdout (stdout w ++ [cleared_line])
           (set_open_w_error (create_error w) (set_config_file Absent w))
     end)).
  { destruct (config_file w) eqn:E; [now apply Habsent| | |];
      (destruct Hrm as [Hrm|Hrm]; [discriminate Hrm|]);
      unfold main; rewrite Hclear;
      unfold bind at 1 2, config_file_exists; rewrite Hex, E;
      unfold bind, config_file_unlink; rewrite Hrm; reflexivity. }
  intros w'. subst w'. rewrite Hmain. cbn [snd].
  split; [reflexivity|].
  split; [destruct (config_file w) eqn:E; simpl; auto|].
  split; [destruct (config_file w); reflexivity|].
  split; [destruct (config_file w); reflexivity|].
  split; [destruct (config_file w); reflexivity|].
  apply Habsent; destruct (config_file w) eqn:E; simpl; auto.
Qed.

Definition args_clear : Args :=
  mkArgs None false false false false None "no-such-model" true.

Lemma clear_config_only_clears_witness :
  main 0 args_clear store_with_settings
  = (SysExit 0,
     set_stdout [cleared_line] (set_config_file Absent store_with_settings)).
Proof.
  destruct (clear_config_only_clears 0 args_clear store_with_settings eq_refl
              eq_refl (or_intror eq_refl))
    as (Hrun & _).
  exact Hrun.
Defined.

(** X12.  Without [--clear-config] and without a query (none given, or an
    empty one), [main] leaves with status 2 at once: nothing is printed on
    the standard output, no key is resolved and no request is posted, even
    if the model is unknown. *)
Theorem missing_query_exits_2 (depth : nat) (args : Args) (w : World) :
  args_clear_config args = false ->
  nonempty (args_query args) = None ->
  main depth args w = (SysExit 2, w).
Proof.
  intros Hclear Hquery. unfold main. rewrite Hclear. unfold nonempty in Hquery.
  destruct (args_query args) as [q|]; [|reflexivity].
  destruct (truthy (VStr q)); [discriminate | reflexivity].
Qed.

Definition args_empty_query : Args :=
  mkArgs (Some "") false true true false (Some "X") "no-such-model" false.

Lemma missing_query_exits_2_witness :
  main 0 args_empty_query tmp_store = (SysExit 2, tmp_store).
Proof.
  exact (missing_query_exits_2 0 args_empty_query tmp_store eq_refl eq_refl).
Defined.

(** ** The other ends of a request *)

(** X13.  A transport failure is not retried: [get_response] reports the
    network error and leaves with status 1 after the one request, without
    reading any input. *)
Theorem transport_failure_exits (depth : nat) (self : Perplexity)
    (message : string) (w : World) (msg : string) :
  network w (length (sent w)) (build_request self message) = Failure msg ->
  get_response depth self message w =
  (SysExit 1,
   set_stdout (stdout w ++ [network_error_line msg])
     (set_sent (sent w ++ [build_request self message]) w)).
Proof.
  intros Hnet. rewrite get_response_branches.
  now rewrite (bind_run _ _ _ _ _ (post_failed _ _ _ Hnet)).
Qed.

Definition world_offline : World :=
  mkWorld None Absent 420 None None ["y"; "k"; "n"]
          (fun _ _ => Failure "Connection refused") [] [] []
          None None None None None.

Lemma transport_failure_exits_witness :
  fst (get_response 3 (self_with_key "X") "hi" world_offline) = SysExit 1 /\
  length (sent (snd (get_response 3 (self_with_key "X") "hi" world_offline)))
    = 1%nat /\
  stdin (snd (get_response 3 (self_with_key "X") "hi" world_offline))
    = ["y"; "k"; "n"].
Proof.
  rewrite (transport_failure_exits 3 (self_with_key "X") "hi" world_offline
             "Connection refused" eq_refl).
  repeat split.
Defined.

(** X14.  A status other than 200 and 401 ends the run: [get_response]
    prints the status and the text of the response and leaves with status
    1 after the one request; the body is not parsed and no input is
    read. *)
Theorem other_status_exits (depth : nat) (self : Perplexity)
    (message : string) (w : World) (r : Response) :
  network w (length (sent w)) (build_request self message) = Answer r ->
  status_code r <> 200%Z ->
  status_code r <> 401%Z ->
  get_response depth self message w =
  (SysExit 1,
   set_stdout (stdout w ++ [http_error_line r])
     (set_sent (sent w ++ [build_request self message]) w)).
Proof.
  intros Hnet H200 H401. rewrite get_response_branches.
  rewrite (bind_run _ _ _ _ _ (post_answered _ _ _ Hnet)).
  destruct (Z.eqb_spec (status_code r) 200); [contradiction|].
  destruct (Z.eqb_spec (status_code r) 401); [contradiction|].
  reflexivity.
Qed.

Definition world_overloaded : World :=
  mkWorld None Absent 420 None None ["y"]
          (fun _ _ => Answer (mkResponse 503 "Service Unavailable"
                                (inl (VDict reply_full)))) [] [] []
          None None None None None.

Lemma other_status_exits_witness :
  get_response 3 (self_with_key "X") "hi" world_overloaded
  = (SysExit 1,
     set_stdout
       [http_error_line (mkResponse 503 "Service Unavailable"
                           (inl (VDict reply_full)))]
       (set_sent [build_request (self_with_key "X") "hi"] world_overloaded)).
Proof.
  assert (H200 : 503%Z <> 200%Z) by discriminate.
  assert (H401 : 503%Z <> 401%Z) by discriminate.
  exact (other_status_exits 3 (self_with_key "X") "hi" world_overloaded
           (mkResponse 503 "Service Unavailable" (inl (VDict reply_full)))
           eq_refl H200 H401).
Defined.

(** The constructor when the command line gives a key. *)
Lemma init_with_override (args : Args) (key : string) (w : World) :
  In (args_model args) AVAILABLE_MODELS ->
  nonempty (args_api_key args) = Some key ->
  __init__ args w = (Return (configured args (VStr key)), w).
Proof.
  intros Hmodel Hkey. apply validate_spec in Hmodel.
  unfold __init__. rewrite Hmodel. cbn [negb]. unfold nonempty in Hkey.
  destruct (args_api_key args) as [k|]; [|discriminate].
  destruct (truthy (VStr k)); [|discriminate].
  injection Hkey as ->. reflexivity.
Qed.

(** X15.  The whole of a successful run: with a key on the command line, a
    known model and a query, a 200 reply of the expected shape makes [main]
    post one request that carries the key, the model and the query, print
    the sections the flags ask for and return, so the process status is 0;
    the environment, the settings and the input are not touched. *)
Theorem query_succeeds (depth : nat) (args : Args) (query key : string)
    (w : World) (r : Response) (d : list (string * pyval))
    (cs : option (list pyval)) (us : option (list (string * pyval))) :
  args_clear_config args = false ->
  args_query args = Some query ->
  query <> "" ->
  In (args_model args) AVAILABLE_MODELS ->
  nonempty (args_api_key args) = Some key ->
  network w (length (sent w))
    (mkRequest "https://api.perplexity.ai/chat/completions"
       "application/json" "application/json" [Lit "Bearer "; Str (VStr key)]
       (Some (args_model args))
       [("system", "Be precise and concise."); ("user", query)]) = Answer r ->
  status_code r = 200%Z ->
  json r = inl (VDict d) ->
  dict_lookup "citations" d = option_map VList cs ->
  dict_lookup "usage" d = option_map VDict us ->
  (response_content d = None -> no_choices d = true) ->
  main depth args w =
  (Return tt,
   set_stdout
     (stdout w ++
      (match cs with
       | Some l =>
           if args_citations args
           then citations_section (args_glow args) l else []
       | None => []
       end) ++
      (match us with
       | Some l =>
           if args_usage args then usage_section (args_glow args) l else []
       | None => []
       end) ++
      (match response_content d with
       | Some c => content_section (args_glow args) c
       | None => [no_content_notice]
       end))
     (set_sent
        (sent w ++
         [mkRequest "https://api.perplexity.ai/chat/completions"
            "application/json" "application/json"
            [Lit "Bearer "; Str (VStr key)] (Some (args_model args))
            [("system", "Be precise and concise."); ("user", query)]])
        w)) /\
  exit_status (fst (main depth args w)) = 0%Z.
Proof.
  intros Hclear Hquery Hne Hmodel Hkey Hnet Hstatus Hjson Hcs Hus Hshape.
  assert (Hmain : main depth args w =
                  get_response depth (configured args (VStr key)) query w).
  { rewrite (main_runs_query depth args query Hclear Hquery Hne).
    pose proof (sections_exact depth (configured args (VStr key)) query w r d
                  cs us Hnet Hstatus Hjson Hcs Hus Hshape) as Hrun.
    rewrite (try_except_run _ _ _ _ _
               (eq_trans
                  (bind_run _ _ _ _ _ (init_with_override args key w Hmodel Hkey))
                  Hrun)).
    now rewrite Hrun. }
  rewrite Hmain.
  rewrite (sections_exact depth (configured args (VStr key)) query w r d
             cs us Hnet Hstatus Hjson Hcs Hus Hshape).
  split; reflexivity.
Qed.

Lemma query_succeeds_witness :
  fst (main 0 args_explicit_X (world_answering (VDict reply_full)))
    = Return tt /\
  stdout (snd (main 0 args_explicit_X (world_answering (VDict reply_full))))
    = content_section false (VStr "hi").
Proof.
  assert (Hne : "hello" <> "") by discriminate.
  assert (Hmodel : In (args_model args_explicit_X) AVAILABLE_MODELS)
    by (simpl; auto).
  assert (Hshape : response_content reply_full = None ->
                   no_choices reply_full = true) by discriminate.
  destruct (query_succeeds 0 args_explicit_X "hello" "X"
              (world_answering (VDict reply_full))
              (mkResponse 200 "" (inl (VDict reply_full))) reply_full
              (Some [VStr "a"; VStr "b"]) (Some [("total", VInt 5)])
              eq_refl eq_refl Hne Hmodel eq_refl eq_refl eq_refl eq_refl
              eq_refl eq_refl Hshape) as [Hrun _].
  rewrite Hrun. split; reflexivity.
Defined.

(** X16.  A rejected key replaced at the prompt: when the first request is
    answered 401, the user confirms, types a key and declines to save it,
    and the request with that key is answered 200 with a reply of the
    expected shape, then [get_response] returns having posted exactly the
    two requests, the second with the new key, and having printed the
    dialogue followed by the sections; the settings are not touched. *)
Theorem retry_then_success (depth : nat) (self : Perplexity) (message : string)
    (w : World) (r1 r2 : Response) (line keyline answer : string)
    (rest : list string) (d : list (string * pyval))
    (cs : option (list pyval)) (us : option (list (string * pyval))) :
  let self' := mkPerplexity (set_api_key (VStr (strip keyline)) (config self))
                            (use_glow self) in
  network w (length (sent w)) (build_request self message) = Answer r1 ->
  status_code r1 = 401%Z ->
  stdin w = line :: keyline :: answer :: rest ->
  confirms line = true ->
  strip keyline <> "" ->
  confirms answer = false ->
  network w (S (length (sent w))) (build_request self' message) = Answer r2 ->
  status_code r2 = 200%Z ->
  json r2 = inl (VDict d) ->
  dict_lookup "citations" d = option_map VList cs ->
  dict_lookup "usage" d = option_map VDict us ->
  (response_content d = None -> no_choices d = true) ->
  get_response (S depth) self message w =
  (Return tt,
   set_stdout
     (stdout w ++ [invalid_key_line; retry_prompt] ++ prompt_intro ++
      [save_prompt] ++
      (match cs with
       | Some l =>
           if citations (config self)
           then citations_section (use_glow self) l else []
       | None => []
       end) ++
      (match us with
       | Some l =>
           if usage (config self) then usage_section (use_glow self) l else []
       | None => []
       end) ++
      (match response_content d with
       | Some c => content_section (use_glow self) c
       | None => [no_content_notice]
       end))
     (set_stdin rest
        (set_sent
           (sent w ++ [build_request self message; build_request self' message])
           w))) /\
  req_authorization (build_request self' message)
    = [Lit "Bearer "; Str (VStr (strip keyline))].
Proof.
  intros self' Hnet1 H401 Hin Hyes Hkey Hno Hnet2 H200 Hjson Hcs Hus Hshape.
  split; [|reflexivity].
  set (w1 := set_stdin (keyline :: answer :: rest)
               (set_stdout (stdout w ++ [invalid_key_line; retry_prompt])
                  (set_sent (sent w ++ [build_request self message]) w))).
  assert (Hprompt : ConfigManager.prompt_for_api_key w1 =
            (Return (strip keyline),
             set_stdin rest
               (set_stdout (stdout w1 ++ prompt_intro ++ [save_prompt]) w1))).
  { rewrite (prompt_reads_answer w1 keyline answer rest eq_refl Hkey), Hno.
    reflexivity. }
  rewrite (retry_with_new_key depth self message w _ r1 line (strip keyline)
             (keyline :: answer :: rest) Hnet1 H401 Hin Hyes Hprompt).
  fold self'.
  set (w2 := set_stdin rest
               (set_stdout (stdout w1 ++ prompt_intro ++ [save_prompt]) w1)).
  assert (Hnet2' : network w2 (length (sent w2)) (build_request self' message)
                   = Answer r2).
  { unfold w2, w1. simpl. rewrite length_app, Nat.add_1_r. exact Hnet2. }
  rewrite (sections_exact depth self' message w2 r2 d cs us Hnet2' H200 Hjson
             Hcs Hus Hshape).
  subst w2 w1. f_equal.
  apply world_eq; simpl; rewrite <- ?app_assoc; reflexivity.
Qed.

Definition world_accepting_Z : World :=
  mkWorld None Absent 420 None None ["y"; "Z"; "n"]
          (fun n _ =>
             match n with
             | O => Answer (mkResponse 401 "unauthorized" (inr "Expecting value"))
             | _ => Answer (mkResponse 200 "" (inl (VDict reply_full)))
             end) [] [] []
          None None None None None.

Lemma retry_then_success_witness :
  fst (get_response 1 (self_with_key "X") "hi" world_accepting_Z) = Return tt /\
  map req_authorization
    (sent (snd (get_response 1 (self_with_key "X") "hi" world_accepting_Z)))
  = [[Lit "Bearer "; Str (VStr "X")]; [Lit "Bearer "; Str (VStr "Z")]].
Proof.
  assert (Hkey : strip "Z" <> "") by (vm_compute; discriminate).
  assert (Hshape : response_content reply_full = None ->
                   no_choices reply_full = true) by discriminate.
  destruct (retry_then_success 0 (self_with_key "X") "hi" world_accepting_Z
              (mkResponse 401 "unauthorized" (inr "Expecting value"))
              (mkResponse 200 "" (inl (VDict reply_full)))
              "y" "Z" "n" [] reply_full
              (Some [VStr "a"; VStr "b"]) (Some [("total", VInt 5)])
              eq_refl eq_refl eq_refl eq_refl Hkey eq_refl eq_refl eq_refl
              eq_refl eq_refl eq_refl Hshape) as [Hrun _].
  rewrite Hrun. split; reflexivity.
Defined.

(** ** What a whole run leaves alone *)

(** The frame lemmas go through [get_response] once the relation is also
    kept by the posting of a request and by the prompt for a key. *)
Section RunFrame.

Variable P : World -> World -> Prop.
Variable message : string.
(** The objects the run may hold: a set closed under the change of key. *)
Variable mine : Perplexity -> Prop.

Hypothesis P_refl : forall w, P w w.
Hypothesis P_trans : forall w1 w2 w3, P w1 w2 -> P w2 w3 -> P w1 w3.
Hypothesis P_stdout : forall l w, P w (set_stdout l w).
Hypothesis P_read_line :
  forall line rest w, stdin w = line :: rest -> P w (set_stdin rest w).
Hypothesis P_prompt : preserves P ConfigManager.prompt_for_api_key.
Hypothesis mine_rekeyed :
  forall self key,
    mine self ->
    mine (mkPerplexity (set_api_key key (config self)) (use_glow self)).
Hypothesis P_post :
  forall self w,
    mine self -> P w (set_sent (sent w ++ [build_request self message]) w).

Lemma preserves_post (self : Perplexity) :
  mine self ->
  preserves P (try_except (requests_post (build_request self message))
                 network_error_handler).
Proof.
  intros Hmine w.
  destruct (network w (length (sent w)) (build_request self message))
    as [r|msg] eqn:Hnet.
  - rewrite (post_answered _ _ _ Hnet). now apply P_post.
  - rewrite (post_failed _ _ _ Hnet). simpl.
    eapply P_trans; [apply P_post; exact Hmine | apply P_stdout].
Qed.

Lemma preserves_get_response (depth : nat) :
  forall self, mine self -> preserves P (get_response depth self message).
Proof.
  induction depth as [|depth IH]; intros self Hmine;
    rewrite get_response_branches;
    (apply (preserves_bind P P_trans);
     [now apply preserves_post | intros response]);
    (destruct (Z.eqb (status_code response) 200);
     [ apply (preserves_bind P P_trans);
       [ unfold response_json; destruct (json response);
         [apply (preserves_ret P P_refl) | apply (preserves_raise P P_refl)]
       | intros result; apply (preserves_render P P_refl P_trans P_stdout) ]
     | ]);
    (destruct (Z.eqb (status_code response) 401);
     [ | apply (preserves_bind P P_trans);
         [ apply (preserves_display P P_stdout)
         | intros _; apply (preserves_exit P P_refl) ] ]);
    (apply (preserves_bind P P_trans);
     [apply (preserves_display P P_stdout) | intros _]);
    (apply (preserves_bind P P_trans);
     [apply (preserves_input P P_trans P_stdout P_read_line) | intros line]);
    (destruct (confirms line); [|apply (preserves_exit P P_refl)]);
    (apply (preserves_bind P P_trans); [apply P_prompt | intros key]).
  - apply (preserves_raise P P_refl).
  - apply IH. now apply mine_rekeyed.
Qed.

End RunFrame.

(** The constructor returns the object configured from the command line,
    with some key. *)
Lemma init_returns (args : Args) (w w' : World) (p : Perplexity) :
  __init__ args w = (Return p, w') -> exists key, p = configured args key.
Proof.
  unfold __init__. destruct (negb (ModelValidator.validate (args_model args)));
    [discriminate|].
  destruct (args_api_key args) as [k|]; [destruct (truthy (VStr k))|].
  - intros H. injection H as <- _. now exists (VStr k).
  - intros H. apply bind_returns in H. destruct H as (key & w1 & _ & H).
    apply bind_returns in H. destruct H as (key' & w2 & _ & H).
    injection H as <- _. now exists key'.
  - intros H. apply bind_returns in H. destruct H as (key & w1 & _ & H).
    apply bind_returns in H. destruct H as (key' & w2 & _ & H).
    injection H as <- _. now exists key'.
Qed.

(** The frame lemmas for [__init__] and [main]: the relation has to be kept
    by the posting of a request that the command line configures, whatever
    its key, and by the prompt for a key; for the clearing of the settings,
    by the removal of the file. *)
Section MainFrame.

Variable P : World -> World -> Prop.
Variable args : Args.

Hypothesis P_refl : forall w, P w w.
Hypothesis P_trans : forall w1 w2 w3, P w1 w2 -> P w2 w3 -> P w1 w3.
Hypothesis P_stdout : forall l w, P w (set_stdout l w).
Hypothesis P_read_line :
  forall line rest w, stdin w = line :: rest -> P w (set_stdin rest w).
Hypothesis P_log : forall l w, P w (set_error_log l w).
Hypothesis P_prompt : preserves P ConfigManager.prompt_for_api_key.
Hypothesis P_post :
  forall key query w,
    args_query args = Some query ->
    P w (set_sent (sent w ++ [build_request (configured args key) query]) w).

Lemma preserves_get_api_key : preserves P ConfigManager.get_api_key.
Proof.
  assert (Hfile : preserves P
            (config <- ConfigManager.load_config ;; py_get config "api_key")).
  { apply (preserves_bind P P_trans);
      [apply (preserves_load_config P P_refl P_log) | intros c].
    unfold py_get.
    destruct c; first [apply (preserves_ret P P_refl)
                      | apply (preserves_raise P P_refl)]. }
  unfold ConfigManager.get_api_key.
  apply (preserves_bind P P_trans);
    [intros w; apply P_refl | intros [k|]; [|exact Hfile]].
  destruct (truthy (VStr k)); [apply (preserves_ret P P_refl) | exact Hfile].
Qed.

Lemma preserves_init : preserves P (__init__ args).
Proof.
  assert (Hkey : forall k : pyval -> M Perplexity,
            (forall key, preserves P (k key)) ->
            preserves P
              (key <- ConfigManager.get_api_key ;;
               key' <- (if is_none key then
                          k' <- ConfigManager.prompt_for_api_key ;;
                          ret (VStr k')
                        else ret key) ;;
               k key')).
  { intros k Hk.
    apply (preserves_bind P P_trans); [apply preserves_get_api_key|].
    intros key. apply (preserves_bind P P_trans); [|exact Hk].
    destruct (is_none key); [|apply (preserves_ret P P_refl)].
    apply (preserves_bind P P_trans);
      [apply P_prompt | intros k'; apply (preserves_ret P P_refl)]. }
  unfold __init__.
  destruct (negb (ModelValidator.validate (args_model args)));
    [apply (preserves_raise P P_refl)|].
  destruct (args_api_key args) as [k|]; [destruct (truthy (VStr k))|].
  - apply (preserves_ret P P_refl).
  - apply Hkey. intros key. apply (preserves_ret P P_refl).
  - apply Hkey. intros key. apply (preserves_ret P P_refl).
Qed.

(** A run that does not clear the settings. *)
Lemma preserves_query_run (depth : nat) :
  args_clear_config args = false -> preserves P (main depth args).
Proof.
  intros Hclear. unfold main. rewrite Hclear.
  destruct (args_query args) as [query|] eqn:Hquery;
    [|apply (preserves_exit P P_refl)].
  destruct (negb (truthy (VStr query))); [apply (preserves_exit P P_refl)|].
  apply (preserves_try P P_trans).
  - intros w. unfold bind.
    pose proof (preserves_init w) as Hinit.
    destruct (__init__ args w) as [[p|e|c] w1] eqn:E;
      simpl in Hinit; [|exact Hinit|exact Hinit].
    apply init_returns in E. destruct E as (key & ->).
    eapply P_trans; [exact Hinit|].
    apply (preserves_get_response P query
             (fun self => exists key, self = configured args key)
             P_refl P_trans P_stdout P_read_line P_prompt).
    + intros self k (key' & ->). now exists k.
    + intros self w' (key' & ->). now apply P_post.
    + now exists key.
  - intros e k Hk. injection Hk as <-.
    apply (preserves_bind P P_trans);
      [ apply (preserves_display P P_stdout)
      | intros ?; apply (preserves_exit P P_refl) ].
Qed.

Lemma preserves_main (depth : nat) :
  (forall f w, P w (set_config_file f w)) ->
  (forall e w, P w (set_open_w_error e w)) ->
  preserves P (main depth args).
Proof.
  intros P_file P_open.
  destruct (args_clear_config args) eqn:Hclear;
    [|now apply preserves_query_run].
  unfold main. rewrite Hclear.
  apply (preserves_bind P P_trans);
    [ intros w; unfold config_file_exists;
      destruct (exists_error w); apply P_refl
    | intros b ].
  apply (preserves_bind P P_trans);
    [|intros ?; apply (preserves_exit P P_refl)].
  destruct b; [|apply (preserves_display P P_stdout)].
  apply (preserves_bind P P_trans);
    [|intros ?; apply (preserves_display P P_stdout)].
  intros w. unfold config_file_unlink.
  destruct (unlink_error w); simpl; [apply P_refl|].
  eapply P_trans; [apply P_file | apply P_open].
Qed.

End MainFrame.

Lemma posts_only_refl (Q : Request -> Prop) (w : World) : posts_only Q w w.
Proof. exists []. now rewrite app_nil_r. Qed.

Lemma posts_only_trans (Q : Request -> Prop) (w1 w2 w3 : World) :
  posts_only Q w1 w2 -> posts_only Q w2 w3 -> posts_only Q w1 w3.
Proof.
  intros (a & Ha & Fa) (b & Hb & Fb). exists (a ++ b). split.
  - now rewrite Hb, Ha, app_assoc.
  - apply Forall_app. now split.
Qed.

Lemma posts_only_same (Q : Request -> Prop) (w w' : World) :
  sent w' = sent w -> posts_only Q w w'.
Proof. intros H. exists []. now rewrite app_nil_r. Qed.

(** X17.  Every request that a run posts, the retries included, goes to
    the fixed endpoint with the fixed [accept] and [content-type] headers,
    names the model of the command line and carries the fixed system
    instruction followed by the query of the command line; only the key
    in the [Authorization] header can differ from one request to the
    next.  The requests already recorded are kept. *)
Theorem run_asks_one_question (depth : nat) (args : Args) (query : string)
    (w : World) :
  args_query args = Some query ->
  posts_only (asks args query) w (snd (main depth args w)).
Proof.
  intros Hquery.
  assert (Hout : forall l w0, posts_only (asks args query) w0 (set_stdout l w0))
    by (intros; now apply posts_only_same).
  assert (Hin : forall line rest w0,
            stdin w0 = line :: rest ->
            posts_only (asks args query) w0 (set_stdin rest w0))
    by (intros; now apply posts_only_same).
  assert (Hlog : forall l w0,
            posts_only (asks args query) w0 (set_error_log l w0))
    by (intros; now apply posts_only_same).
  apply (preserves_main (posts_only (asks args query)) args
           (posts_only_refl _) (posts_only_trans _) Hout Hin Hlog).
  - apply (preserves_prompt_for_api_key _ (posts_only_refl _)
             (posts_only_trans _) Hout Hin Hlog);
      intros; now apply posts_only_same.
  - intros key query' w0 Hq. rewrite Hquery in Hq. injection Hq as <-.
    exists [build_request (configured args key) query]. split; [reflexivity|].
    constructor; [|constructor].
    repeat split. now exists key.
  - intros f w0. now apply posts_only_same.
  - intros e w0. now apply posts_only_same.
Qed.

Lemma run_asks_one_question_witness :
  posts_only (asks args_no_key "hello") (world_rejecting (insisting 2))
    (snd (main 5 args_no_key (world_rejecting (insisting 2)))).
Proof. exact (run_asks_one_question 5 args_no_key "hello" _ eq_refl). Defined.








(** ** The status of the process *)

(** [exits_with_1] goes through the code as [preserves] does. *)
Lemma exits_ret {A} (a : A) : exits_with_1 (ret a).
Proof. intros w c w' H. discriminate H. Qed.

Lemma exits_raise {A} (e : exn) : exits_with_1 (@raise A e).
Proof. intros w c w' H. discriminate H. Qed.

Lemma exits_exit_1 {A} : exits_with_1 (@sys_exit A 1).
Proof. intros w c w' H. injection H as <- _. reflexivity. Qed.

Lemma exits_bind {A B} (m : M A) (k : A -> M B) :
  exits_with_1 m -> (forall a, exits_with_1 (k a)) -> exits_with_1 (bind m k).
Proof.
  intros Hm Hk w c w' H. unfold bind in H.
  destruct (m w) as [[a|e|c0] w1] eqn:E.
  - exact (Hk a _ _ _ H).
  - discriminate H.
  - injection H as <- _. exact (Hm _ _ _ E).
Qed.

Lemma exits_try {A} (m : M A) (h : exn -> option (M A)) :
  exits_with_1 m -> (forall e k, h e = Some k -> exits_with_1 k) ->
  exits_with_1 (try_except m h).
Proof.
  intros Hm Hh w c w' H. unfold try_except in H.
  destruct (m w) as [[a|e|c0] w1] eqn:E.
  - discriminate H.
  - destruct (h e) as [k|] eqn:Eh; [|discriminate H].
    exact (Hh e k Eh _ _ _ H).
  - injection H as <- _. exact (Hm _ _ _ E).
Qed.

Lemma exits_for_each {A} (l : list A) (body : A -> M unit) :
  (forall x, exits_with_1 (body x)) -> exits_with_1 (for_each l body).
Proof.
  intros Hb. induction l as [|x l IH]; simpl.
  - apply exits_ret.
  - apply exits_bind; [apply Hb | intros _; exact IH].
Qed.

(** A primitive effect returns or raises. *)
Ltac exits_effect :=
  let w := fresh "w" in
  let H := fresh "H" in
  intros w ? ? H;
  cbv beta delta [print input logger_error environ_get config_file_exists
                  read_config_file config_dir_mkdir write_config_file
                  config_file_chmod config_file_unlink requests_post] in H;
  repeat match type of H with
         | context [match ?x with _ => _ end] => destruct x
         end;
  discriminate H.

Lemma exits_print (t : fstring) : exits_with_1 (print t).
Proof. exits_effect. Qed.

Lemma exits_input (prompt : string) : exits_with_1 (input prompt).
Proof. exits_effect. Qed.

Lemma exits_logger_error (t : fstring) : exits_with_1 (logger_error t).
Proof. exits_effect. Qed.

Lemma exits_environ_get : exits_with_1 environ_get.
Proof. exits_effect. Qed.

Lemma exits_config_file_exists : exits_with_1 config_file_exists.
Proof. exits_effect. Qed.

Lemma exits_read_config_file : exits_with_1 read_config_file.
Proof. exits_effect. Qed.

Lemma exits_config_dir_mkdir : exits_with_1 config_dir_mkdir.
Proof. exits_effect. Qed.

Lemma exits_write_config_file (c : pyval) : exits_with_1 (write_config_file c).
Proof. exits_effect. Qed.

Lemma exits_config_file_chmod (m : Z) : exits_with_1 (config_file_chmod m).
Proof. exits_effect. Qed.

Lemma exits_requests_post (r : Request) : exits_with_1 (requests_post r).
Proof. exits_effect. Qed.

Create HintDb exits.

#[local] Hint Resolve exits_print exits_input exits_logger_error
  exits_environ_get exits_config_file_exists exits_read_config_file
  exits_config_dir_mkdir exits_write_config_file exits_config_file_chmod
  exits_requests_post : exits.

(** Goes through a piece of code made of calls already dealt with. *)
Ltac exits_code :=
  repeat first
    [ solve [auto with exits]
    | apply exits_ret
    | apply exits_raise
    | apply exits_exit_1
    | apply exits_bind; [|intros ?]
    | apply exits_for_each; intros ?
    | apply exits_try;
      [|let H := fresh "H" in
        intros ? ? H; unfold any_exception in H; injection H as <-]
    | match goal with
      | |- exits_with_1 (if ?b then _ else _) => destruct b
      | |- exits_with_1 (match ?x with _ => _ end) => destruct x
      | |- exits_with_1 (let '(_, _) := ?x in _) => destruct x
      end ].

Lemma exits_display_full (t : fstring) (c : color) (b : bool) (bg : bg_color) :
  exits_with_1 (display_full t c b bg).
Proof. unfold display_full. exits_code. Qed.

Lemma exits_display (t : fstring) (c : color) : exits_with_1 (display t c).
Proof. apply exits_display_full. Qed.

#[local] Hint Resolve exits_display_full exits_display : exits.

Lemma exits_load_config : exits_with_1 ConfigManager.load_config.
Proof. unfold ConfigManager.load_config. exits_code. Qed.

Lemma exits_save_config (c : pyval) : exits_with_1 (ConfigManager.save_config c).
Proof. unfold ConfigManager.save_config. exits_code. Qed.

#[local] Hint Resolve exits_load_config exits_save_config : exits.

Lemma exits_get_api_key : exits_with_1 ConfigManager.get_api_key.
Proof. unfold ConfigManager.get_api_key, py_get. exits_code. Qed.

Lemma exits_save_api_key (key : string) :
  exits_with_1 (ConfigManager.save_api_key key).
Proof. unfold ConfigManager.save_api_key, py_setitem. exits_code. Qed.

#[local] Hint Resolve exits_get_api_key exits_save_api_key : exits.

Lemma exits_prompt_for_api_key : exits_with_1 ConfigManager.prompt_for_api_key.
Proof. unfold ConfigManager.prompt_for_api_key. exits_code. Qed.

#[local] Hint Resolve exits_prompt_for_api_key : exits.

Lemma exits_init (args : Args) : exits_with_1 (__init__ args).
Proof. unfold __init__. exits_code. Qed.

Lemma exits_render (self : Perplexity) (result : pyval) :
  exits_with_1 (render self result).
Proof.
  unfold render, citations_part, usage_part, content_part, _show_citations,
    _show_usage, _show_content, glow_header, plain_header, py_in, py_getitem,
    py_getitem0, py_items, py_iter.
  exits_code.
Qed.

#[local] Hint Resolve exits_init exits_render : exits.

Lemma exits_post (r : Request) :
  exits_with_1 (try_except (requests_post r) network_error_handler).
Proof.
  apply exits_try; [apply exits_requests_post|].
  intros e k H. destruct e; try discriminate H.
  injection H as <-. exits_code.
Qed.

#[local] Hint Resolve exits_post : exits.

Lemma exits_get_response (depth : nat) (message : string) :
  forall self, exits_with_1 (get_response depth self message).
Proof.
  induction depth as [|depth IH]; intros self; rewrite get_response_branches;
    unfold response_json; exits_code.
Qed.

(** Settles a statement about the outcome of [main] once the outcome is
    known. *)
Ltac status_cases :=
  repeat split; intros;
  repeat match goal with
         | H : _ /\ _ |- _ => destruct H
         | H : exists _, _ |- _ => destruct H
         end;
  subst; try discriminate;
  repeat match goal with
         | H : Raise _ = Raise _ |- _ => inversion H; subst; clear H
         | H : SysExit _ = SysExit _ |- _ => inversion H; subst; clear H
         | H : Some _ = Some _ |- _ => inversion H; subst; clear H
         end;
  try congruence; eauto.

(** X19.  The ends of [main].  An exception leaves [main] only under
    [--clear-config], when the existence test or the removal of the file
    raises: both sit outside the [try].  In a query run no exception of
    the code leaves [main] ([KeyboardInterrupt] is outside the model).
    The process status is 0, 1 or 2: [main] ends with [sys.exit(0)]
    exactly when [--clear-config] is given and the clearing does not
    raise, with status 2 exactly when [--clear-config] is not given and
    the query is missing or empty, and otherwise it returns or ends with
    status 1, whatever the settings, the input and the network do. *)
Theorem main_exit_status (depth : nat) (args : Args) (w : World) :
  (forall e, fst (main depth args w) = Raise e <->
             args_clear_config args = true /\
             exists err, clearing_fails w = Some err /\ e = OSError err) /\
  (fst (main depth args w) = SysExit 0 <->
   args_clear_config args = true /\ clearing_fails w = None) /\
  (fst (main depth args w) = SysExit 2 <->
   args_clear_config args = false /\ nonempty (args_query args) = None) /\
  (forall c, fst (main depth args w) = SysExit c -> c = 0 \/ c = 1 \/ c = 2)%Z /\
  (forall u, fst (main depth args w) = Return u ->
             args_clear_config args = false /\
             nonempty (args_query args) <> None).
Proof.
  assert (Hquery : forall query,
    let o := fst (try_except
                    (perplexity <- __init__ args ;;
                     get_response depth perplexity query)
                    (any_exception (fun e =>
                       display [Lit "Error: "; StrExn e] red ;; sys_exit 1))
                    w) in
    (exists u, o = Return u) \/ o = SysExit 1%Z).
  { intros query. unfold try_except.
    destruct ((perplexity <- __init__ args ;;
               get_response depth perplexity query) w)
      as [[u|e|c] w1] eqn:E; simpl.
    - left. now exists u.
    - right. reflexivity.
    - right. f_equal.
      refine (exits_bind _ _ (exits_init args) _ _ _ _ E).
      intros p. apply exits_get_response. }
  unfold main, nonempty.
  destruct (args_clear_config args).
  - assert (H0 : fst ((file_exists <- config_file_exists ;;
                       (if file_exists then
                          config_file_unlink ;;
                          display [Lit "Configuration cleared!"] green
                        else display [Lit "No configuration to clear"] yellow) ;;
                       sys_exit 0) w)
                 = match clearing_fails w with
                   | Some err => Raise (OSError err)
                   | None => @SysExit unit 0%Z
                   end).
    { unfold clearing_fails, bind at 1 2, config_file_exists.
      destruct (exists_error w); [reflexivity|].
      destruct (config_file w); [reflexivity| | |];
        unfold bind, config_file_unlink;
        destruct (unlink_error w); reflexivity. }
    rewrite H0. destruct (clearing_fails w) as [err|]; status_cases.
  - destruct (args_query args) as [query|];
      [destruct (truthy (VStr query))|]; cbn [negb fst sys_exit];
      [destruct (Hquery query) as [(u & ->)| ->]| |]; status_cases.
Qed.

(** ** Replies that are not of the expected shape *)

(** X20.  A 200 reply whose body is not JSON is not rendered at all:
    [response.json()] raises outside the [try] of [get_response], [main]
    reports the error and the process ends with status 1 after the one
    request, with nothing else printed. *)
Theorem unparsable_reply_fails (depth : nat) (args : Args)
    (query key : string) (w : World) (r : Response) (msg : string) :
  args_clear_config args = false ->
  args_query args = Some query ->
  query <> "" ->
  In (args_model args) AVAILABLE_MODELS ->
  nonempty (args_api_key args) = Some key ->
  network w (length (sent w))
    (build_request (configured args (VStr key)) query) = Answer r ->
  status_code r = 200%Z ->
  json r = inr msg ->
  main depth args w =
  (SysExit 1,
   set_stdout (stdout w ++ [error_line (JSONDecodeError msg)])
     (set_sent
        (sent w ++ [build_request (configured args (VStr key)) query]) w)).
Proof.
  intros Hclear Hquery Hne Hmodel Hkey Hnet Hstatus Hjson.
  rewrite (main_reports depth args query w
             (set_sent
                (sent w ++ [build_request (configured args (VStr key)) query])
                w)
             (JSONDecodeError msg) Hclear Hquery Hne); [reflexivity|].
  rewrite (bind_run _ _ _ _ _ (init_with_override args key w Hmodel Hkey)).
  rewrite (get_response_200 _ _ _ _ _ Hnet Hstatus).
  unfold response_json. rewrite Hjson. reflexivity.
Qed.

Definition world_answering_html : World :=
  mkWorld None Absent 420 None None []
          (fun _ _ => Answer (mkResponse 200 "<html>"
                                (inr "Expecting value: line 1 column 1 (char 0)")))
          [] [] []
          None None None None None.

Lemma unparsable_reply_fails_witness :
  fst (main 0 args_explicit_X world_answering_html) = SysExit 1 /\
  stdout (snd (main 0 args_explicit_X world_answering_html))
  = [error_line (JSONDecodeError "Expecting value: line 1 column 1 (char 0)")].
Proof.
  assert (Hne : "hello" <> "") by discriminate.
  assert (Hmodel : In (args_model args_explicit_X) AVAILABLE_MODELS)
    by (simpl; auto).
  rewrite (unparsable_reply_fails 0 args_explicit_X "hello" "X"
             world_answering_html
             (mkResponse 200 "<html>"
                (inr "Expecting value: line 1 column 1 (char 0)"))
             "Expecting value: line 1 column 1 (char 0)"
             eq_refl eq_refl Hne Hmodel eq_refl eq_refl eq_refl eq_refl).
  split; reflexivity.
Defined.

(** X21.  A ["usage"] field that is not a mapping stops the rendering half
    way: with the usage flag set (and no citations to show),
    [get_response] prints the header of the usage section and then raises
    [AttributeError] at [result.items()], so that neither the content nor
    the notice is printed. *)
Theorem malformed_usage_stops_reply (depth : nat) (self : Perplexity)
    (message : string) (w : World) (r : Response)
    (d : list (string * pyval)) (u : pyval) :
  network w (length (sent w)) (build_request self message) = Answer r ->
  status_code r = 200%Z ->
  json r = inl (VDict d) ->
  usage (config self) = true ->
  citations (config self) = false \/ dict_lookup "citations" d = None ->
  dict_lookup "usage" d = Some u ->
  is_mapping u = false ->
  get_response depth self message w =
  (Raise AttributeError,
   set_stdout (stdout w ++ [header_line (use_glow self) "Tokens"])
     (set_sent (sent w ++ [build_request self message]) w)).
Proof.
  intros Hnet Hstatus Hjson Husage Hcit Hu Hmap.
  rewrite (get_response_200 _ _ _ _ _ Hnet Hstatus).
  unfold response_json. rewrite Hjson, bind_ret_l. unfold render.
  assert (Hc : forall w0, citations_part self (VDict d) w0 = (Return tt, w0)).
  { intros w0. unfold citations_part.
    destruct (citations (config self)); [|reflexivity].
    destruct Hcit as [Hcit|Hcit]; [discriminate|].
    unfold py_in. rewrite bind_ret_l, dict_has_key, Hcit. reflexivity. }
  rewrite (bind_run _ _ _ _ _ (Hc _)).
  assert (Hus : forall w0,
    usage_part self (VDict d) w0 =
    (Raise AttributeError,
     set_stdout (stdout w0 ++ [header_line (use_glow self) "Tokens"]) w0)).
  { intros w0. unfold usage_part. rewrite Husage.
    unfold py_in. rewrite bind_ret_l, dict_has_key, Hu.
    unfold py_getitem. rewrite Hu, bind_ret_l. unfold _show_usage.
    rewrite (bind_run _ _ _ _ _ (header_run (use_glow self) "Tokens" w0)).
    destruct u; try reflexivity. discriminate Hmap. }
  now rewrite (bind_run _ _ _ _ _ (Hus _)).
Qed.

Definition self_with_usage : Perplexity :=
  mkPerplexity
    (mkApiConfig "https://api.perplexity.ai/chat/completions" (VStr "X")
                 true false (Some "sonar-pro"))
    false.

Definition reply_with_usage_count : list (string * pyval) :=
  [("usage", VInt 5);
   ("choices", VList [VDict [("message", VDict [("content", VStr "hi")])]])].

Lemma malformed_usage_stops_reply_witness :
  fst (get_response 0 self_with_usage "hi"
         (world_answering (VDict reply_with_usage_count)))
  = Raise AttributeError /\
  stdout (snd (get_response 0 self_with_usage "hi"
                 (world_answering (VDict reply_with_usage_count))))
  = [header_line false "Tokens"].
Proof.
  rewrite (malformed_usage_stops_reply 0 self_with_usage "hi"
             (world_answering (VDict reply_with_usage_count))
             (mkResponse 200 "" (inl (VDict reply_with_usage_count)))
             reply_with_usage_count (VInt 5)
             eq_refl eq_refl eq_refl eq_refl (or_introl eq_refl) eq_refl
             eq_refl).
  split; reflexivity.
Defined.

Lemma chars_length (s : string) : length (chars s) = String.length s.
Proof. induction s as [|c s IH]; simpl; [reflexivity | now rewrite IH]. Qed.

(** X22.  [_show_citations] takes whatever can be iterated: citations
    that arrive as one string instead of a list of strings are listed one
    character to a line, between the header and the closing blank line,
    and the call returns. *)
Theorem citations_string_by_character (s : string) (glow : bool) (w : World) :
  _show_citations (VStr s) glow w
  = (Return tt, set_stdout (stdout w ++ citations_section glow (chars s)) w) /\
  length (citations_section glow (chars s)) = (String.length s + 2)%nat.
Proof.
  split.
  - unfold _show_citations.
    rewrite (bind_run _ _ _ _ _ (header_run glow "Citations" w)).
    unfold py_iter. unfold bind at 1, ret at 1.
    rewrite (bind_run _ _ _ _ _ (for_each_print (chars s) _ _)).
    rewrite print_run. simpl. unfold citations_section.
    now rewrite <- !app_assoc.
  - unfold citations_section. simpl.
    rewrite length_app, length_map, chars_length. simpl. lia.
Qed.

(** ** Failures of the store that the code does not guard *)

(** X23.  When the settings directory cannot be searched, the existence
    test of [load_config] raises outside its [try]: [load_config] raises
    that error instead of returning the empty mapping, nothing is logged,
    and so do [get_api_key] when it gets to the file and [save_api_key],
    which then writes nothing; a run that needs the stored key reports
    the error and ends with status 1 before any request. *)
Theorem unsearchable_directory_breaks_load (w : World) (err : string) :
  exists_error w = Some err ->
  ConfigManager.load_config w = (Raise (OSError err), w) /\
  (nonempty (environ w) = None ->
   ConfigManager.get_api_key w = (Raise (OSError err), w)) /\
  (forall key, ConfigManager.save_api_key key w = (Raise (OSError err), w)) /\
  (forall depth args query,
      nonempty (environ w) = None ->
      nonempty (args_api_key args) = None ->
      In (args_model args) AVAILABLE_MODELS ->
      args_clear_config args = false ->
      args_query args = Some query ->
      query <> "" ->
      main depth args w =
      (SysExit 1, set_stdout (stdout w ++ [error_line (OSError err)]) w)).
Proof.
  intros Hex.
  assert (Hload : ConfigManager.load_config w = (Raise (OSError err), w))
    by (rewrite load_config_cases, Hex; reflexivity).
  assert (Hget : nonempty (environ w) = None ->
                 ConfigManager.get_api_key w = (Raise (OSError err), w)).
  { intros Henv. unfold ConfigManager.get_api_key, bind at 1, environ_get.
    unfold nonempty in Henv.
    assert (Hfile : (config <- ConfigManager.load_config ;;
                     py_get config "api_key") w = (Raise (OSError err), w))
      by now rewrite (bind_run _ _ _ _ _ Hload).
    destruct (environ w) as [k|]; [|exact Hfile].
    destruct (truthy (VStr k)); [discriminate | exact Hfile]. }
  split; [exact Hload|]. split; [exact Hget|]. split.
  - intros key. unfold ConfigManager.save_api_key.
    now rewrite (bind_run _ _ _ _ _ Hload).
  - intros depth args query Henv Hkey Hmodel Hclear Hquery Hne.
    apply (main_reports depth args query w w (OSError err) Hclear Hquery Hne).
    rewrite (init_without_override args Hmodel Hkey).
    now rewrite (bind_run _ _ _ _ _
                   (bind_run _ _ _ _ _ (Hget Henv))).
Qed.

(** Settings in a directory that may not be searched. *)
Definition unsearchable_store : World :=
  mkWorld None (Document (VDict stored_settings)) 384 None
          (Some "Permission denied") [] (fun _ _ => Failure "unreachable")
          [] [] []
          (Some "Permission denied") None None None None.

Lemma unsearchable_directory_breaks_load_witness :
  ConfigManager.load_config unsearchable_store
  = (Raise (OSError "Permission denied"), unsearchable_store) /\
  main 0 args_no_key unsearchable_store
  = (SysExit 1,
     set_stdout [error_line (OSError "Permission denied")] unsearchable_store).
Proof.
  assert (Hne : "hello" <> "") by discriminate.
  assert (Hmodel : In (args_model args_no_key) AVAILABLE_MODELS)
    by (simpl; auto).
  destruct (unsearchable_directory_breaks_load unsearchable_store
              "Permission denied" eq_refl) as (Hload & _ & _ & Hmain).
  split; [exact Hload|].
  exact (Hmain 0 args_no_key "hello" eq_refl eq_refl Hmodel eq_refl eq_refl
           Hne).
Defined.






